(** * cert-manager-webhook-variomedia: the DNS-01 solver and its provider client

    A shallow embedding of [main.go] (the solver: [Present], [CleanUp],
    [loadConfig], [loadApiKeys], [getDomainAndEntryAndApiKey]) and of the
    Variomedia client ([UpdateTxtRecord], [DeleteTxtRecord], [doRequest]).

    Go values are modelled as follows.
    - [string] is a sequence of bytes: Rocq's [string].
    - [int] is a 64-bit signed integer: [Z] with the wrap-around written out
      where the code does arithmetic.
    - [map[string]V] is a reference that may be [nil]: [option (gmap string V)].
    - [error] is a value: the inductive [error], one constructor per
      [fmt.Errorf] site of the program.
    - The network, the secret store and the order in which [range] visits a
      map are the environment: they are parameters of the functions.
    - Goroutines share the global cache: the cache update of [Present] is
      also given statement by statement, the schedule being a parameter. *)

From Stdlib Require Import ZArith Lia.
From stdpp Require Import base option list strings gmap fin_maps.

Local Open Scope string_scope.
Local Open Scope Z_scope.
Local Open Scope list_scope.

(** ** The [strings] package *)

Module strings.

(** [strings.HasSuffix]: [len(s) >= len(suffix) && s[len(s)-len(suffix):] == suffix]. *)
Definition HasSuffix (s suffix : string) : bool :=
  (String.length suffix <=? String.length s)%nat
  && String.eqb
       (String.substring (String.length s - String.length suffix)
                         (String.length suffix) s)
       suffix.

(** [strings.TrimSuffix]: the suffix is removed once, when it is there. *)
Definition TrimSuffix (s suffix : string) : string :=
  if HasSuffix s suffix
  then String.substring 0 (String.length s - String.length suffix) s
  else s.

(** Membership of a byte in a cutset. *)
Fixpoint contains_byte (cutset : string) (c : Ascii.ascii) : bool :=
  match cutset with
  | EmptyString => false
  | String d rest => Ascii.eqb c d || contains_byte rest c
  end.

(** [strings.TrimRight]: every trailing byte that is in [cutset] is removed. *)
Fixpoint TrimRight (s cutset : string) : string :=
  match s with
  | EmptyString => EmptyString
  | String c rest =>
      match TrimRight rest cutset with
      | EmptyString => if contains_byte cutset c then EmptyString
                       else String c EmptyString
      | kept => String c kept
      end
  end.

End strings.

(** ** Go maps *)

(** A Go map value: [None] is the [nil] map, [Some m] an allocated one. *)
Abbreviation gomap V := (option (gmap string V)).

Section GoMap.
Context {V : Type}.

(** [make(map[string]V)] *)
Definition make_map : gomap V := Some ∅.

(** [v, ok := m[k]]; reading a [nil] map is allowed and finds nothing. *)
Definition map_lookup (m : gomap V) (k : string) : option V :=
  match m with
  | None => None
  | Some g => g !! k
  end.

(** [m[k]]: the zero value when the key is absent. *)
Definition map_index (zero : V) (m : gomap V) (k : string) : V :=
  default zero (map_lookup m k).

(** [m[k] = v]; assignment to an entry of a [nil] map panics: [None]. *)
Definition map_assign (m : gomap V) (k : string) (v : V) : option (gomap V) :=
  match m with
  | None => None
  | Some g => Some (Some (<[k := v]> g))
  end.

(** [delete(m, k)]; a no-op on a [nil] map and on an absent key. *)
Definition map_delete (m : gomap V) (k : string) : gomap V :=
  match m with
  | None => None
  | Some g => Some (delete k g)
  end.
End GoMap.

(** ** Errors *)

(** The errors of the program. The constructors that carry an [error] wrap it
    with [%v]; [err_external] stands for an error made by a library
    (net/http, io, encoding/json, the Kubernetes client). *)
Inductive error : Type :=
  | err_external (msg : string)
  (* "Variomedia rate limit reached (HTTP code 429)" *)
  | err_rate_limit
  (* "failed creating TXT record: server reported status code %d" *)
  | err_create_status (status : Z)
  (* "failed deleting TXT record: %v", printed with the nil error *)
  | err_delete_status
  (* "failed creating TXT record: %v" in the delete poll, with the nil error *)
  | err_delete_poll_status
  (* "cannot unmarshall response to json: %v" *)
  | err_unmarshal (cause : error)
  (* "DNS update job timed out with most recent status '%s'" *)
  | err_job_timed_out (status : string)
  (* "domain '%s' not found in config." *)
  | err_domain_not_found (domain : string)
  (* "unable to get domain key for zone %s: %v" *)
  | err_domain_key (zone : string) (cause : error)
  (* "unable to change TXT record: %v" *)
  | err_change_txt (cause : error)
  (* "unable to delete TXT record: %v" *)
  | err_delete_txt (cause : error)
  (* "error decoding solver config: %v" *)
  | err_decode_config (cause : error)
  (* "unable to get secret `%s`; %v" *)
  | err_get_secret (secretName : string) (cause : error)
  (* "key %q not found in secret \"%s/%s\"", with secretName, namespace *)
  | err_secret_key (key secretName namespace : string).

(** A Go result [(value, error)] of a function that returns the zero value
    with every error. *)
Inductive Result (A : Type) : Type :=
  | Ok (a : A)
  | Err (e : error).
Arguments Ok {A} a.
Arguments Err {A} e.

(** What a library call gives back (net/http, io, encoding/json, the
    Kubernetes client): a value, or an error of its own with its message.
    The program sees that error as [err_external]. *)
Inductive External (A : Type) : Type :=
  | Got (a : A)
  | Failed (msg : string).
Arguments Got {A} a.
Arguments Failed {A} msg.

(** ** The challenge mapper *)

(** [customDNSProviderConfig]: domain to secret name, later domain to API key. *)
Abbreviation customDNSProviderConfig := (gomap string).

(** What [json.Unmarshal(cfgJSON.Raw, &cfg)] does to the empty, allocated
    [cfg]: the JSON [null] makes it [nil], an object of strings fills it, and
    anything else is an error that leaves [partial] in [cfg]. *)
Inductive RawConfig : Type :=
  | RawNull
  | RawObject (m : gmap string string)
  | RawInvalid (partial : customDNSProviderConfig) (msg : string).

(** [v1alpha1.ChallengeRequest], the fields the solver reads. [Config] is a
    pointer: [None] is [nil]. *)
Record ChallengeRequest : Type := {
  ResolvedFQDN : string;
  ResolvedZone : string;
  Key : string;
  Config : option RawConfig;
  ResourceNamespace : string
}.

(** [getDomainAndEntryAndApiKey]: returns (entry, domain, apiKey, err). *)
Definition getDomainAndEntryAndApiKey (ch : ChallengeRequest)
    (cfg : customDNSProviderConfig) : string * string * string * option error :=
  let entry := strings.TrimSuffix (ResolvedFQDN ch) (ResolvedZone ch) in
  let entry := strings.TrimSuffix entry "." in
  let domain := strings.TrimSuffix (ResolvedZone ch) "." in
  match map_lookup cfg domain with
  | None => (entry, domain, "", Some (err_domain_not_found domain))
  | Some apiKey => (entry, domain, apiKey, None)
  end.

(** ** The wire: requests, responses and JSON bodies *)

(** [variomediaDnsAttributes]; the field [Data] is [AttrData] here. *)
Record variomediaDnsAttributes : Type := {
  RecordType : string;
  Name : string;
  Domain : string;
  AttrData : string;
  Ttl : Z
}.

(** [variomediaData] *)
Record variomediaData : Type := {
  RequestType : string;
  RequestAttr : variomediaDnsAttributes
}.

(** [variomediaRequest] embeds [variomediaData]. *)
Record variomediaRequest : Type := {
  reqData : variomediaData
}.

(** [variomediaJobData]; the field [Type] is [JobType] here. *)
Record variomediaJobData : Type := {
  JobType : string;
  Id : string;
  Attributes : gomap string;
  Links : gomap string
}.

(** [variomediaResponse]; its own [Links] is [TopLinks] here. *)
Record variomediaResponse : Type := {
  Data : variomediaJobData;
  TopLinks : gomap string
}.

(** The zero value of [variomediaResponse] ([var reply variomediaResponse]). *)
Definition zero_reply : variomediaResponse :=
  {| Data := {| JobType := ""; Id := ""; Attributes := None; Links := None |};
     TopLinks := None |}.

(** A member of a JSON object as [encoding/json] sees it for a given target
    field: missing, [null], or a value of the field's type. *)
Inductive jfield (A : Type) : Type :=
  | JAbsent
  | JNull
  | JValue (a : A).
Arguments JAbsent {A}.
Arguments JNull {A}.
Arguments JValue {A} a.

(** The ["data"] object of a response document. *)
Record jsonJobData : Type := {
  j_type : jfield string;
  j_id : jfield string;
  j_attributes : jfield (gmap string string);
  j_links : jfield (gmap string string)
}.

(** A response document that decodes into [variomediaResponse]. *)
Record jsonResponse : Type := {
  j_data : jfield jsonJobData;
  j_toplinks : jfield (gmap string string)
}.

(** The bytes handed to [json.Unmarshal], up to what it makes of them:
    no bytes at all ([nil] or empty), bytes it rejects for
    [variomediaResponse] (bad syntax or a value of the wrong type), or a
    document. *)
Inductive body : Type :=
  | BodyNone
  | BodyInvalid (msg : string)
  | BodyJSON (doc : jsonResponse).

(** A string field: set by a value, left alone otherwise. *)
Definition unmarshal_string (f : jfield string) (old : string) : string :=
  match f with
  | JValue s => s
  | _ => old
  end.

(** A map field: [null] makes it [nil]; an object is decoded into the
    existing map (a new one when it is [nil]), existing entries staying
    unless the object has their key. *)
Definition unmarshal_map (f : jfield (gmap string string)) (old : gomap string)
    : gomap string :=
  match f with
  | JAbsent => old
  | JNull => None
  | JValue m => Some (m ∪ default ∅ old)
  end.

(** The struct field ["data"]: [null] has no effect on a struct. *)
Definition unmarshal_job (f : jfield jsonJobData) (old : variomediaJobData)
    : variomediaJobData :=
  match f with
  | JValue j =>
      {| JobType := unmarshal_string (j_type j) (JobType old);
         Id := unmarshal_string (j_id j) (Id old);
         Attributes := unmarshal_map (j_attributes j) (Attributes old);
         Links := unmarshal_map (j_links j) (Links old) |}
  | _ => old
  end.

(** The error of [json.Unmarshal] for no bytes. *)
Definition unexpected_end : error :=
  err_external "unexpected end of JSON input".

(** [json.Unmarshal(respData, &reply)]: the new value of [reply], or the
    error. *)
Definition json_Unmarshal (respData : body) (reply : variomediaResponse)
    : Result variomediaResponse :=
  match respData with
  | BodyNone => Err unexpected_end
  | BodyInvalid msg => Err (err_external msg)
  | BodyJSON doc =>
      Ok {| Data := unmarshal_job (j_data doc) (Data reply);
            TopLinks := unmarshal_map (j_toplinks doc) (TopLinks reply) |}
  end.

(** [*http.Request]: method, URL, headers and, for the POST, the value that
    [json.Marshal] serialises. *)
Record Request : Type := {
  Method : string;
  URL : string;
  Header : gmap string string;
  ReqBody : option variomediaRequest
}.

(** What [client.Do(req)] gives back: an error (no response), or a response
    with its status code and what [ioutil.ReadAll(res.Body)] would return. *)
Inductive RoundTrip : Type :=
  | NoResponse (msg : string)
  | Response (StatusCode : Z) (Body : External body).

(** What a run of the client does to the outside, oldest first. *)
Inductive Event : Type :=
  | EvSleep (d : Z)
  | EvHTTP (req : Request) (rt : RoundTrip).

(** The network as the program sees it. [NewRequest_err] is the error of
    [http.NewRequest] for a method and a URL ([None]: the request is built);
    [Do] answers a request, given everything that happened before it. *)
Record Net : Type := {
  NewRequest_err : string -> string -> option string;
  Do : list Event -> Request -> RoundTrip
}.

(** [http.NewRequest(method, url, body)] *)
Definition http_NewRequest (net : Net) (method url : string)
    (b : option variomediaRequest) : Result Request :=
  match NewRequest_err net method url with
  | Some msg => Err (err_external msg)
  | None => Ok {| Method := method; URL := url; Header := ∅; ReqBody := b |}
  end.

(** HTTP status codes of [net/http]. *)
Definition StatusOK : Z := 200.
Definition StatusCreated : Z := 201.
Definition StatusAccepted : Z := 202.
Definition StatusNotFound : Z := 404.
Definition StatusTooManyRequests : Z := 429.

Definition variomediaLiveDnsBaseUrl : string := "https://api.variomedia.de/dns-records".
(** [2 * time.Second], in nanoseconds. *)
Definition statusLookupDelay : Z := 2 * 1000000000.
Definition variomediaMinTtl : Z := 300.

(** ** Running Go code *)

(** How a call ends: it returns, it panics, or the fuel given to its loop
    ran out before the loop ended. *)
Inductive Outcome (A : Type) : Type :=
  | Returns (a : A)
  | Panics (msg : string)
  | OutOfFuel.
Arguments Returns {A} a.
Arguments Panics {A} msg.
Arguments OutOfFuel {A}.

(** A computation over a state [S]. *)
Definition Go (S A : Type) : Type := S -> Outcome A * S.

Definition ret {S A} (a : A) : Go S A := fun s => (Returns a, s).

Definition bind {S A B} (m : Go S A) (k : A -> Go S B) : Go S B :=
  fun s =>
    match m s with
    | (Returns a, s') => k a s'
    | (Panics msg, s') => (Panics msg, s')
    | (OutOfFuel, s') => (OutOfFuel, s')
    end.

Declare Scope go_scope.
Delimit Scope go_scope with go.
Notation "x <- m ;; k" := (bind m (fun x => k))
  (at level 100, m at next level, right associativity) : go_scope.

(** The state of a client call: the events so far. *)
Abbreviation Trace := (list Event).

(** [time.Sleep(d)] *)
Definition time_Sleep (d : Z) : Go Trace unit :=
  fun t => (Returns tt, t ++ [EvSleep d]).

(** [variomediaClient] *)
Record variomediaClient : Type := {
  apiKey : string
}.

Definition NewvariomediaClient (key : string) : variomediaClient :=
  {| apiKey := key |}.

(** 64-bit wrap-around of Go's [int]. *)
Definition wrap_int (z : Z) : Z :=
  (z + 2 ^ 63) mod 2 ^ 64 - 2 ^ 63.

(** ** The provider client *)

(** [doRequest]: sets the three headers, sends the request and reads the body
    of a 200 or 202 response. Returns (status, data, err). *)
Definition doRequest (net : Net) (c : variomediaClient) (req : Request)
    (readResponseBody : bool) : Go Trace (Z * body * option error) :=
  fun t =>
    let req :=
      {| Method := Method req;
         URL := URL req;
         Header :=
           <["Accept" := "application/vnd.variomedia.v1+json"]>
             (<["Content-Type" := "application/vnd.api+json"]>
                (<["Authorization" := "token " +:+ apiKey c]> (Header req)));
         ReqBody := ReqBody req |} in
    let res := Do net t req in
    let t' := t ++ [EvHTTP req res] in
    match res with
    | NoResponse msg => (Returns (0, BodyNone, Some (err_external msg)), t')
    | Response code b =>
        if ((code =? StatusOK) || (code =? StatusAccepted)) && readResponseBody
        then match b with
             | Failed msg => (Returns (0, BodyNone, Some (err_external msg)), t')
             | Got data => (Returns (code, data, None), t')
             end
        else (Returns (code, BodyNone, None), t')
    end.

(** [reply.Data.Attributes["status"]] *)
Definition job_status (reply : variomediaResponse) : string :=
  map_index "" (Attributes (Data reply)) "status".

(** [reply.Data.Links[rel]] *)
Definition job_link (reply : variomediaResponse) (rel : string) : string :=
  map_index "" (Links (Data reply)) rel.

(** The body of [if reply.Data.Attributes["status"] == "pending" { ... }] in
    [UpdateTxtRecord]: sleep, re-fetch the job, check the status code, decode
    into [reply]. [Err] is an early [return "", err]. *)
Definition UpdateTxtRecord_refetch (net : Net) (c : variomediaClient)
    (reply : variomediaResponse) : Go Trace (Result variomediaResponse) :=
  (_ <- time_Sleep statusLookupDelay ;;
   match http_NewRequest net "GET" (job_link reply "queue-job") None with
   | Err e => ret (Err e)
   | Ok req =>
       r <- doRequest net c req true ;;
       match r with
       | (_, _, Some e) => ret (Err e)
       | (status, respData, None) =>
           if status =? StatusTooManyRequests then ret (Err err_rate_limit)
           else if negb (status =? StatusCreated) && negb (status =? StatusOK)
                   && negb (status =? StatusAccepted)
           then ret (Err (err_create_status status))
           else match json_Unmarshal respData reply with
                | Err e => ret (Err (err_unmarshal e))
                | Ok reply' => ret (Ok reply')
                end
       end
   end)%go.

(** The [for { ... }] of [UpdateTxtRecord], with the statements after it.
    [fuel] bounds the number of iterations the model runs. *)
Fixpoint UpdateTxtRecord_loop (fuel : nat) (net : Net) (c : variomediaClient)
    (loopcount : Z) (reply : variomediaResponse) : Go Trace (Result string) :=
  match fuel with
  | O => fun t => (OutOfFuel, t)
  | S fuel' =>
      (r <- (if String.eqb (job_status reply) "pending"
             then UpdateTxtRecord_refetch net c reply
             else ret (Ok reply)) ;;
       match r with
       | Err e => ret (Err e)
       | Ok reply =>
           let loopcount := wrap_int (loopcount - 1) in
           if String.eqb (job_status reply) "done"
           then ret (Ok (job_link reply "dns-record"))
           else if loopcount =? 0
           then ret (Err (err_job_timed_out (job_status reply)))
           else UpdateTxtRecord_loop fuel' net c loopcount reply
       end)%go
  end.

(** [UpdateTxtRecord]. [json.Marshal] of a struct of strings and an int does
    not fail, and the base URL of the POST is a constant that
    [http.NewRequest] accepts through [NewRequest_err]. *)
Definition UpdateTxtRecord (fuel : nat) (net : Net) (c : variomediaClient)
    (domain name value : string) (ttl : Z) : Go Trace (Result string) :=
  let reqData :=
    {| reqData :=
         {| RequestType := "dns-record";
            RequestAttr := {| RecordType := "TXT"; Name := name;
                              Domain := domain; AttrData := value;
                              Ttl := ttl |} |} |} in
  match http_NewRequest net "POST" variomediaLiveDnsBaseUrl (Some reqData) with
  | Err e => ret (Err e)
  | Ok req =>
      (r <- doRequest net c req true ;;
       match r with
       | (_, _, Some e) => ret (Err e)
       | (status, respData, None) =>
           if status =? StatusTooManyRequests then ret (Err err_rate_limit)
           else if negb (status =? StatusCreated) && negb (status =? StatusOK)
                   && negb (status =? StatusAccepted)
           then ret (Err (err_create_status status))
           else match json_Unmarshal respData zero_reply with
                | Err e => ret (Err (err_unmarshal e))
                | Ok reply => UpdateTxtRecord_loop fuel net c 5 reply
                end
       end)%go
  end.

(** The body of the [if ... "pending" && status != http.StatusNotFound] in
    [DeleteTxtRecord]. The [status], [respData] and [err] it declares with
    [:=] are its own: they end with the block. *)
Definition DeleteTxtRecord_refetch (net : Net) (c : variomediaClient)
    (reply : variomediaResponse) : Go Trace (Result variomediaResponse) :=
  (_ <- time_Sleep statusLookupDelay ;;
   match http_NewRequest net "GET" (job_link reply "queue-job") None with
   | Err e => ret (Err e)
   | Ok req =>
       r <- doRequest net c req true ;;
       match r with
       | (_, _, Some e) => ret (Err e)
       | (status, respData, None) =>
           if status =? StatusTooManyRequests then ret (Err err_rate_limit)
           else if negb (status =? StatusCreated) && negb (status =? StatusOK)
                   && negb (status =? StatusAccepted)
                   && negb (status =? StatusNotFound)
           then ret (Err err_delete_poll_status)
           else match json_Unmarshal respData reply with
                | Err e => ret (Err (err_unmarshal e))
                | Ok reply' => ret (Ok reply')
                end
       end
   end)%go.

(** The [for { ... }] of [DeleteTxtRecord]. [status] is the variable of the
    function body, set by the DELETE request and by nothing else. *)
Fixpoint DeleteTxtRecord_loop (fuel : nat) (net : Net) (c : variomediaClient)
    (status : Z) (loopcount : Z) (reply : variomediaResponse)
    : Go Trace (option error) :=
  match fuel with
  | O => fun t => (OutOfFuel, t)
  | S fuel' =>
      (r <- (if String.eqb (job_status reply) "pending"
                && negb (status =? StatusNotFound)
             then DeleteTxtRecord_refetch net c reply
             else ret (Ok reply)) ;;
       match r with
       | Err e => ret (Some e)
       | Ok reply =>
           if status =? StatusNotFound then ret None
           else
             let loopcount := wrap_int (loopcount - 1) in
             if String.eqb (job_status reply) "done" then ret None
             else if loopcount =? 0
             then ret (Some (err_job_timed_out (job_status reply)))
             else DeleteTxtRecord_loop fuel' net c status loopcount reply
       end)%go
  end.

(** [DeleteTxtRecord]; [ttl] is only logged. *)
Definition DeleteTxtRecord (fuel : nat) (net : Net) (c : variomediaClient)
    (url : string) (ttl : Z) : Go Trace (option error) :=
  match http_NewRequest net "DELETE" url None with
  | Err e => ret (Some e)
  | Ok req =>
      (r <- doRequest net c req true ;;
       match r with
       | (_, _, Some e) => ret (Some e)
       | (status, respData, None) =>
           if status =? StatusTooManyRequests then ret (Some err_rate_limit)
           else if negb (status =? StatusCreated) && negb (status =? StatusOK)
                   && negb (status =? StatusAccepted)
           then ret (Some err_delete_status)
           else match json_Unmarshal respData zero_reply with
                | Err e => ret (Some (err_unmarshal e))
                | Ok reply => DeleteTxtRecord_loop fuel net c status 5 reply
                end
       end)%go
  end.

(** ** The solver *)

(** A Kubernetes secret: [sec.Data], from field name to bytes. *)
Record Secret : Type := {
  SecretData : gomap string
}.

(** [customDNSProviderSolver]: [client] answers
    [c.client.CoreV1().Secrets(namespace).Get(ctx, secretName, opts)]. *)
Record customDNSProviderSolver : Type := {
  client : string -> string -> External Secret
}.

(** The order in which [for k, v := range m] visits the keys of a map: any
    order, each key once. *)
Record MapRange : Type := {
  range_keys : gmap string string -> list string;
  range_keys_perm : forall m, range_keys m ≡ₚ (map_to_list m).*1
}.

(** [json.Unmarshal(cfgJSON.Raw, &cfg)]: the new [cfg] and the error. *)
Definition unmarshal_config (raw : RawConfig) (cfg : customDNSProviderConfig)
    : customDNSProviderConfig * option error :=
  match raw with
  | RawNull => (unmarshal_map JNull cfg, None)
  | RawObject m => (unmarshal_map (JValue m) cfg, None)
  | RawInvalid partial msg => (partial, Some (err_external msg))
  end.

(** [loadConfig]: returns (cfg, err). *)
Definition loadConfig (cfgJSON : option RawConfig)
    : customDNSProviderConfig * option error :=
  let cfg : customDNSProviderConfig := make_map in
  match cfgJSON with
  | None => (cfg, None)
  | Some raw =>
      match unmarshal_config raw cfg with
      | (cfg, Some err) => (cfg, Some (err_decode_config err))
      | (cfg, None) => (cfg, None)
      end
  end.

(** The cutset ["\r\n "] of [loadApiKeys]. *)
Definition crlf_space : string :=
  String (Ascii.ascii_of_nat 13) (String (Ascii.ascii_of_nat 10) " ").

(** The [for domain, secretName := range cfg] of [loadApiKeys] and the
    [return cfg, nil] after it, over the keys still to visit. *)
Fixpoint loadApiKeys_range (c : customDNSProviderSolver) (namespace : string)
    (todo : list string) (cfg : gmap string string)
    : customDNSProviderConfig * option error :=
  match todo with
  | [] => (Some cfg, None)
  | domain :: todo =>
      let secretName := default "" (cfg !! domain) in
      match client c namespace secretName with
      | Failed msg => (None, Some (err_get_secret secretName (err_external msg)))
      | Got sec =>
          match map_lookup (SecretData sec) "api-token" with
          | None => (None, Some (err_secret_key "api-token" secretName namespace))
          | Some secBytes =>
              loadApiKeys_range c namespace todo
                (<[domain := strings.TrimRight secBytes crlf_space]> cfg)
          end
      end
  end.

(** [loadApiKeys]: returns (cfg, err). Ranging over a [nil] map visits
    nothing. *)
Definition loadApiKeys (rng : MapRange) (c : customDNSProviderSolver)
    (cfgJSON : option RawConfig) (namespace : string)
    : customDNSProviderConfig * option error :=
  match loadConfig cfgJSON with
  | (cfg, Some err) => (cfg, Some err)
  | (None, None) => (None, None)
  | (Some m, None) => loadApiKeys_range c namespace (range_keys rng m) m
  end.

(** [DnsEntryURL]: by domain, by entry name, by key value. *)
Abbreviation Cache := (gomap (gomap (gomap string))).

(** The state of the process: the events so far and the global [DnsEntryURL]. *)
Record World : Type := {
  trace : Trace;
  DnsEntryURL : Cache
}.

(** A client call run inside the process. *)
Definition call_client {A} (m : Go Trace A) : Go World A :=
  fun w =>
    let (o, t) := m (trace w) in
    (o, {| trace := t; DnsEntryURL := DnsEntryURL w |}).

(** [DnsEntryURL[domain][entry][key]] *)
Definition cache_get (cache : Cache) (domain entry key : string) : string :=
  map_index "" (map_index None (map_index None cache domain) entry) key.

(** [delete(DnsEntryURL[domain][entry], key)]: the deletion acts on the map
    that [DnsEntryURL[domain][entry]] refers to; when that is [nil] (also
    because a level above is missing) nothing changes. *)
Definition cache_delete (cache : Cache) (domain entry key : string) : Cache :=
  let byEntry := map_index None cache domain in
  let byKey := map_index None byEntry entry in
  match cache, byEntry, byKey with
  | Some g0, Some g1, Some _ =>
      Some (<[domain := Some (<[entry := map_delete byKey key]> g1)]> g0)
  | _, _, _ => cache
  end.

(** The cache update of [Present]:
    [if _, ok := DnsEntryURL[domain]; !ok { DnsEntryURL[domain] = make(...) }],
    the same one level down, then [DnsEntryURL[domain][entry][key] = url].
    [None] is the panic of an assignment to an entry of a [nil] map. *)
Definition cache_put (cache : Cache) (domain entry key url : string)
    : option Cache :=
  cache ← match map_lookup cache domain with
          | None => map_assign cache domain make_map
          | Some _ => Some cache
          end;
  let byEntry := map_index None cache domain in
  byEntry ← match map_lookup byEntry entry with
            | None => map_assign byEntry entry make_map
            | Some _ => Some byEntry
            end;
  byKey ← map_assign (map_index None byEntry entry) key url;
  byEntry ← map_assign byEntry entry byKey;
  map_assign cache domain byEntry.

Definition nil_map_panic : string := "assignment to entry in nil map".

(** [Present]: returns the error, [None] for [nil]. *)
Definition Present (fuel : nat) (net : Net) (rng : MapRange)
    (c : customDNSProviderSolver) (ch : ChallengeRequest)
    : Go World (option error) :=
  match loadApiKeys rng c (Config ch) (ResourceNamespace ch) with
  | (_, Some err) => ret (Some err)
  | (cfg, None) =>
      match getDomainAndEntryAndApiKey ch cfg with
      | (_, _, _, Some err) => ret (Some (err_domain_key (ResolvedZone ch) err))
      | (entry, domain, apiKey, None) =>
          let variomediaClient := NewvariomediaClient apiKey in
          (r <- call_client (UpdateTxtRecord fuel net variomediaClient domain
                               entry (Key ch) variomediaMinTtl) ;;
           match r with
           | Err err => ret (Some (err_change_txt err))
           | Ok url =>
               fun w =>
                 match cache_put (DnsEntryURL w) domain entry (Key ch) url with
                 | None => (Panics nil_map_panic, w)
                 | Some cache =>
                     (Returns None, {| trace := trace w; DnsEntryURL := cache |})
                 end
           end)%go
      end
  end.

(** [CleanUp]: returns the error, [None] for [nil]. *)
Definition CleanUp (fuel : nat) (net : Net) (rng : MapRange)
    (c : customDNSProviderSolver) (ch : ChallengeRequest)
    : Go World (option error) :=
  match loadApiKeys rng c (Config ch) (ResourceNamespace ch) with
  | (_, Some err) => ret (Some err)
  | (cfg, None) =>
      match getDomainAndEntryAndApiKey ch cfg with
      | (_, _, _, Some err) => ret (Some (err_domain_key (ResolvedZone ch) err))
      | (entry, domain, apiKey, None) =>
          let variomediaClient := NewvariomediaClient apiKey in
          (url <- (fun w => (Returns (cache_get (DnsEntryURL w) domain entry (Key ch)), w)) ;;
           err <- call_client (DeleteTxtRecord fuel net variomediaClient url
                                 variomediaMinTtl) ;;
           match err with
           | Some err => ret (Some (err_delete_txt err))
           | None =>
               fun w =>
                 (Returns None,
                  {| trace := trace w;
                     DnsEntryURL := cache_delete (DnsEntryURL w) domain entry
                                      (Key ch) |})
           end)%go
      end
  end.

(** ** Observing a run *)

Definition is_http (e : Event) : bool :=
  match e with
  | EvHTTP _ _ => true
  | EvSleep _ => false
  end.

(** The number of requests sent in a run. *)
Definition requests_sent (t : Trace) : nat :=
  length (List.filter is_http t).

Definition is_request_with (method : string) (e : Event) : bool :=
  match e with
  | EvHTTP req _ => String.eqb (Method req) method
  | EvSleep _ => false
  end.

(** The number of requests sent with a given method. *)
Definition requests_with (method : string) (t : Trace) : nat :=
  length (List.filter (is_request_with method) t).

(** The status code an event carries, if it is a response. *)
Definition response_status (e : Event) : option Z :=
  match e with
  | EvHTTP _ (Response code _) => Some code
  | _ => None
  end.

(** The request [doRequest] sends: [req] with the three headers set. *)
Definition with_headers (c : variomediaClient) (req : Request) : Request :=
  {| Method := Method req;
     URL := URL req;
     Header :=
       <["Accept" := "application/vnd.variomedia.v1+json"]>
         (<["Content-Type" := "application/vnd.api+json"]>
            (<["Authorization" := "token " +:+ apiKey c]> (Header req)));
     ReqBody := ReqBody req |}.

(** What [doRequest] returns for a round trip. *)
Definition read_response (readResponseBody : bool) (res : RoundTrip)
    : Z * body * option error :=
  match res with
  | NoResponse msg => (0, BodyNone, Some (err_external msg))
  | Response code b =>
      if ((code =? StatusOK) || (code =? StatusAccepted)) && readResponseBody
      then match b with
           | Failed msg => (0, BodyNone, Some (err_external msg))
           | Got data => (code, data, None)
           end
      else (code, BodyNone, None)
  end.

(** A response with status [code] among the events [evs] of a call is the
    last of them, and the call then returns [verdict]. *)
Definition terminal {A} (code : Z) (verdict : A) (o : Outcome A) (evs : Trace)
    : Prop :=
  forall i,
    evs !! i ≫= response_status = Some code ->
    o = Returns verdict /\ length evs = S i.

(** A response in [evs] whose status has an error in the table [verdict]
    ends the call with that error. *)
Definition decided {A} (verdict : Z -> option error) (inj : error -> A)
    (o : Outcome A) (evs : Trace) : Prop :=
  forall code e, verdict code = Some e -> terminal code (inj e) o evs.

(** The error that a response with a given status causes in
    [UpdateTxtRecord], whatever its body, to the POST and to a re-fetch:
    [None] for 200 and 202, where the body decides. *)
Definition create_verdict (status : Z) : option error :=
  if status =? StatusTooManyRequests then Some err_rate_limit
  else if negb (status =? StatusCreated) && negb (status =? StatusOK)
          && negb (status =? StatusAccepted)
  then Some (err_create_status status)
  else if status =? StatusCreated then Some (err_unmarshal unexpected_end)
  else None.

(** The same for the response to the DELETE of [DeleteTxtRecord]. *)
Definition delete_verdict (status : Z) : option error :=
  if status =? StatusTooManyRequests then Some err_rate_limit
  else if negb (status =? StatusCreated) && negb (status =? StatusOK)
          && negb (status =? StatusAccepted)
  then Some err_delete_status
  else if status =? StatusCreated then Some (err_unmarshal unexpected_end)
  else None.

(** The same for the response to a re-fetch of [DeleteTxtRecord]. *)
Definition delete_poll_verdict (status : Z) : option error :=
  if status =? StatusTooManyRequests then Some err_rate_limit
  else if negb (status =? StatusCreated) && negb (status =? StatusOK)
          && negb (status =? StatusAccepted) && negb (status =? StatusNotFound)
  then Some err_delete_poll_status
  else if (status =? StatusOK) || (status =? StatusAccepted) then None
  else Some (err_unmarshal unexpected_end).

(** The request [UpdateTxtRecord] sends first. *)
Definition create_request (c : variomediaClient) (domain name value : string)
    (ttl : Z) : Request :=
  with_headers c
    {| Method := "POST";
       URL := variomediaLiveDnsBaseUrl;
       Header := ∅;
       ReqBody :=
         Some {| reqData :=
                   {| RequestType := "dns-record";
                      RequestAttr := {| RecordType := "TXT"; Name := name;
                                        Domain := domain; AttrData := value;
                                        Ttl := ttl |} |} |} |}.

(** The request [DeleteTxtRecord] sends first. *)
Definition delete_request (c : variomediaClient) (url : string) : Request :=
  with_headers c
    {| Method := "DELETE"; URL := url; Header := ∅; ReqBody := None |}.

(** The request of a re-fetch of the job of [reply]. *)
Definition poll_request (c : variomediaClient) (reply : variomediaResponse)
    : Request :=
  with_headers c
    {| Method := "GET"; URL := job_link reply "queue-job"; Header := ∅;
       ReqBody := None |}.

(** A status that the status check of a create refuses. *)
Definition outside_accepted (status : Z) : Prop :=
  status <> StatusCreated /\ status <> StatusOK /\ status <> StatusAccepted.

(** A record mutation: the create or the delete operation of the client. *)
Inductive Mutation : Type :=
  | Create (domain name value : string) (ttl : Z)
  | Delete (url : string) (ttl : Z).

(** The error a mutation ends with ([None] for success). *)
Definition run_mutation (fuel : nat) (net : Net) (c : variomediaClient)
    (m : Mutation) : Go Trace (option error) :=
  match m with
  | Create domain name value ttl =>
      (r <- UpdateTxtRecord fuel net c domain name value ttl ;;
       match r with
       | Ok _ => ret None
       | Err e => ret (Some e)
       end)%go
  | Delete url ttl => DeleteTxtRecord fuel net c url ttl
  end.

(** The ["status"] attribute a response document carries. *)
Definition doc_status (doc : jsonResponse) : option string :=
  match j_data doc with
  | JValue j =>
      match j_attributes j with
      | JValue attrs => attrs !! "status"
      | _ => None
      end
  | _ => None
  end.

(** A round trip that delivers a job descriptor with the given status: a 200
    or 202 response whose body is a document with that ["status"]. *)
Definition reports (status : string) (res : RoundTrip) : Prop :=
  exists code doc,
    res = Response code (Got (BodyJSON doc))
    /\ (code = StatusOK \/ code = StatusAccepted)
    /\ doc_status doc = Some status.

(** A provider whose every answer reports a pending job, every link being a
    URL that [http.NewRequest] accepts. *)
Definition always_pending (net : Net) : Prop :=
  (forall method url, NewRequest_err net method url = None)
  /\ (forall history req, reports "pending" (Do net history req)).

(** A secret name that does not resolve: the secret is not delivered, or
    it has no ["api-token"] field. *)
Definition unresolved (c : customDNSProviderSolver) (namespace secretName : string)
    : Prop :=
  forall sec, client c namespace secretName = Got sec ->
              map_lookup (SecretData sec) "api-token" = None.

(** The two errors of credential resolution: the secret could not be got,
    or it has no ["api-token"] field. *)
Definition resolution_error (namespace : string) (e : error) : Prop :=
  (exists secretName msg, e = err_get_secret secretName (err_external msg))
  \/ (exists secretName, e = err_secret_key "api-token" secretName namespace).

(** The outcome of [CleanUp] for the outcome of its [DeleteTxtRecord]. *)
Definition cleanup_outcome (o : Outcome (option error)) : Outcome (option error) :=
  match o with
  | Returns None => Returns None
  | Returns (Some err) => Returns (Some (err_delete_txt err))
  | Panics msg => Panics msg
  | OutOfFuel => OutOfFuel
  end.

(** ** Providers, secrets and challenges to run the program on *)

Module Fixture.

(** A job descriptor as the provider sends it. *)
Definition job_doc (status : string) : jsonResponse :=
  {| j_data :=
       JValue
         {| j_type := JValue "queue-job";
            j_id := JValue "4711";
            j_attributes := JValue {[ "status" := status ]};
            j_links :=
              JValue {[ "queue-job" := "https://api.variomedia.de/queue-jobs/4711";
                        "dns-record" := "https://api.variomedia.de/dns-records/815" ]} |};
     j_toplinks := JAbsent |}.

Definition job (code : Z) (status : string) : RoundTrip :=
  Response code (Got (BodyJSON (job_doc status))).

(** A provider that answers the n-th request of the process with the n-th
    entry of a script, and with the last resort [otherwise] after it. *)
Definition scripted (script : list RoundTrip) (otherwise : RoundTrip) : Net :=
  {| NewRequest_err := fun _ _ => None;
     Do := fun history _ => default otherwise (script !! requests_sent history) |}.

Definition connection_refused : RoundTrip :=
  NoResponse "connection refused".

(** A network in which a request without a URL fails in the HTTP client,
    as it does in Go ("unsupported protocol scheme"), and the provider
    answers every other request with a finished job. *)
Definition live : Net :=
  {| NewRequest_err := fun _ _ => None;
     Do := fun _ req =>
             if String.eqb (URL req) ""
             then NoResponse "unsupported protocol scheme"
             else job 200 "done" |}.

(** [range] in the order of [map_to_list]. *)
Program Definition in_order : MapRange :=
  {| range_keys := fun m => (map_to_list m).*1 |}.
Next Obligation. reflexivity. Qed.

(** A cluster with one secret, whose token ends with a line break. *)
Definition cluster : customDNSProviderSolver :=
  {| client := fun namespace secretName =>
       if String.eqb secretName "variomedia-credentials-01"
       then Got {| SecretData := Some {[ "api-token" := "s3cr3t" +:+ crlf_space ]} |}
       else Failed "secrets not found" |}.

Definition config (secretName : string) : option RawConfig :=
  Some (RawObject {[ "example.com" := secretName ]}).

Definition challenge (cfg : option RawConfig) : ChallengeRequest :=
  {| ResolvedFQDN := "_acme-challenge.foo.example.com.";
     ResolvedZone := "example.com.";
     Key := "token-value";
     Config := cfg;
     ResourceNamespace := "cert-manager" |}.

Definition client0 : variomediaClient := NewvariomediaClient "s3cr3t".

(** The process after [Initialize]: nothing happened, the cache is empty. *)
Definition started : World := {| trace := []; DnsEntryURL := make_map |}.

End Fixture.

(** ** The rest of the solver, and more ways to look at a run *)

(** [Initialize]. [NewForConfig] is what [kubernetes.NewForConfig] gives for
    the configuration handed in. The method stores the client in its
    receiver: the solver after the call is returned with the error. *)
Definition Initialize
    (NewForConfig : External (string -> string -> External Secret))
    (c : customDNSProviderSolver)
    : Go World (option error * customDNSProviderSolver) :=
  fun w =>
    match NewForConfig with
    | Failed msg => (Returns (Some (err_external msg), c), w)
    | Got cl =>
        let cache := match DnsEntryURL w with
                     | None => make_map
                     | Some g => Some g
                     end in
        (Returns (None, {| client := cl |}),
         {| trace := trace w; DnsEntryURL := cache |})
    end.

(** The first request of a mutation. *)
Definition mutation_request (c : variomediaClient) (m : Mutation) : Request :=
  match m with
  | Create domain name value ttl => create_request c domain name value ttl
  | Delete url _ => delete_request c url
  end.

(** The pattern of the events of a poll loop: rounds of a sleep and a
    re-fetch of some job. Which job, with which answer and for how long is
    [poll_trace]. *)
Inductive poll_events (c : variomediaClient) : Trace -> Prop :=
  | poll_none : poll_events c []
  | poll_refused : poll_events c [EvSleep statusLookupDelay]
  | poll_round (reply : variomediaResponse) (res : RoundTrip) (rest : Trace) :
      poll_events c rest ->
      poll_events c
        (EvSleep statusLookupDelay :: EvHTTP (poll_request c reply) res :: rest).

(** The pattern of the events of a mutation: nothing, or its first request
    and then the pattern of a poll loop. When there is nothing and what the
    answers are is [mutation_trace]. *)
Definition mutation_events (c : variomediaClient) (m : Mutation) (evs : Trace)
    : Prop :=
  evs = []
  \/ exists res polls,
       evs = EvHTTP (mutation_request c m) res :: polls /\ poll_events c polls.

(** A request carries the three headers of [doRequest], with the API key of
    the client [c]. *)
Definition has_headers (c : variomediaClient) (req : Request) : Prop :=
  Header req !! "Authorization" = Some ("token " +:+ apiKey c)
  /\ Header req !! "Content-Type" = Some "application/vnd.api+json"
  /\ Header req !! "Accept" = Some "application/vnd.variomedia.v1+json".

(** An answer that delivers a finished job: a 200 or 202 response whose
    document has the status "done". *)
Definition done_response (e : Event) : Prop :=
  exists req res, e = EvHTTP req res /\ reports "done" res.

(** No map stored inside the cache is [nil]. *)
Definition inner_allocated (cache : Cache) : Prop :=
  (forall domain, map_lookup cache domain <> Some None)
  /\ (forall domain entry,
        map_lookup (map_index None cache domain) entry <> Some None).

(** The API key that a secret name resolves to: the ["api-token"] field of
    the secret, without its trailing line breaks and blanks. *)
Definition api_key_of (c : customDNSProviderSolver) (namespace secretName : string)
    : option string :=
  match client c namespace secretName with
  | Got sec =>
      (fun secBytes => strings.TrimRight secBytes crlf_space)
        <$> map_lookup (SecretData sec) "api-token"
  | Failed _ => None
  end.

(** The last byte of a string. *)
Fixpoint last_byte (s : string) : option Ascii.ascii :=
  match s with
  | EmptyString => None
  | String c EmptyString => Some c
  | String _ rest => last_byte rest
  end.

(** Every byte of [s] is in [cutset]. *)
Fixpoint all_in (cutset s : string) : bool :=
  match s with
  | EmptyString => true
  | String c rest => strings.contains_byte cutset c && all_in cutset rest
  end.


(** The time a run spends in [time.Sleep], in nanoseconds. *)
Fixpoint time_slept (t : Trace) : Z :=
  match t with
  | [] => 0
  | EvSleep d :: rest => d + time_slept rest
  | EvHTTP _ _ :: rest => time_slept rest
  end.

(** An event that, when it is a request, carries the headers of [c]. *)
Definition sent_with_headers (c : variomediaClient) (e : Event) : Prop :=
  match e with
  | EvHTTP req _ => has_headers c req
  | EvSleep _ => True
  end.

(** [main] up to the call of [cmd.RunWebhookServer]: the panic for an empty
    [GroupName], else the allocation of the cache. *)
Definition main_before_server (GroupName : string) : Go World unit :=
  fun w =>
    if String.eqb GroupName ""
    then (Panics "GROUP_NAME must be specified", w)
    else (Returns tt, {| trace := trace w; DnsEntryURL := make_map |}).

(** ** The events of a call, from the provider's answers *)

(** The reply a poll loop goes on with after an answer: the document of a
    200 or 202 answer decoded into [reply]. [None]: the answer ends the
    call (no response, a body that cannot be read, any other status, a
    document that does not decode). *)
Definition decoded (res : RoundTrip) (reply : variomediaResponse)
    : option variomediaResponse :=
  match res with
  | Response code (Got data) =>
      if (code =? StatusOK) || (code =? StatusAccepted)
      then match json_Unmarshal data reply with
           | Ok reply' => Some reply'
           | Err _ => None
           end
      else None
  | _ => None
  end.

(** The events of a poll loop with [rounds] rounds left, after the events
    [t], for the job of [reply]: while the job is pending, a sleep and the
    GET of the job's link, answered by the provider. *)
Fixpoint poll_trace (net : Net) (c : variomediaClient) (rounds : nat)
    (t : Trace) (reply : variomediaResponse) : Trace :=
  match rounds with
  | O => []
  | S rounds' =>
      if String.eqb (job_status reply) "pending"
      then match NewRequest_err net "GET" (job_link reply "queue-job") with
           | Some _ => [EvSleep statusLookupDelay]
           | None =>
               let req := poll_request c reply in
               let res := Do net (t ++ [EvSleep statusLookupDelay]) req in
               EvSleep statusLookupDelay :: EvHTTP req res
                 :: match decoded res reply with
                    | Some reply' =>
                        poll_trace net c rounds'
                          (t ++ [EvSleep statusLookupDelay; EvHTTP req res])
                          reply'
                    | None => []
                    end
           end
      else []
  end.

(** The events of a mutation after the events [t]: nothing when
    [http.NewRequest] refuses the first URL, else the first request with the
    provider's answer and, when that answer is decoded, the poll loop. *)
Definition mutation_trace (net : Net) (c : variomediaClient) (rounds : nat)
    (m : Mutation) (t : Trace) : Trace :=
  let req := mutation_request c m in
  match NewRequest_err net (Method req) (URL req) with
  | Some _ => []
  | None =>
      let res := Do net t req in
      EvHTTP req res
        :: match decoded res zero_reply with
           | Some reply => poll_trace net c rounds (t ++ [EvHTTP req res]) reply
           | None => []
           end
  end.

(** ** Calls in turn, and the cache update of [Present] statement by statement *)

(** A call of the solver. *)
Inductive SolverCall : Type :=
  | CallPresent
  | CallCleanUp.

Definition run_call (fuel : nat) (net : Net) (rng : MapRange)
    (c : customDNSProviderSolver) (op : SolverCall) (ch : ChallengeRequest)
    : Go World (option error) :=
  match op with
  | CallPresent => Present fuel net rng c ch
  | CallCleanUp => CleanUp fuel net rng c ch
  end.

(** The (domain, entry, key) under which the solver caches the URL of a
    challenge: [domain] and [entry] as [getDomainAndEntryAndApiKey] returns
    them, which does not depend on the configuration, and [ch.Key]. *)
Definition challenge_triple (ch : ChallengeRequest) : string * string * string :=
  match getDomainAndEntryAndApiKey ch None with
  | (entry, domain, _, _) => (domain, entry, Key ch)
  end.

(** The local variables of a [Present] when it reaches its cache update:
    [domain], [entry], [ch.Key] and the [url] of the record. *)
Record CacheUpdate : Type := {
  u_domain : string;
  u_entry : string;
  u_key : string;
  u_url : string
}.

(** Where a [Present] stands in its cache update: before
    [_, ok := DnsEntryURL[domain]], before the [if !ok] with its assignment
    ([ok] is the local variable), the same for
    [DnsEntryURL[domain][entry]], before
    [DnsEntryURL[domain][entry][ch.Key] = url], after it, or stopped by a
    panic. *)
Inductive Progress : Type :=
  | AtDomainCheck
  | AtDomainMake (ok : bool)
  | AtEntryCheck
  | AtEntryMake (ok : bool)
  | AtStore
  | Finished
  | Panicked.

(** [_, ok := m[k]] *)
Definition comma_ok {V} (m : gomap V) (k : string) : bool :=
  match map_lookup m k with
  | Some _ => true
  | None => false
  end.

(** One statement of the cache update, on the global map as it is at that
    moment. Every statement reads [DnsEntryURL] anew; a map is a reference,
    so an assignment to [DnsEntryURL[domain][entry]] is seen through
    [DnsEntryURL[domain]]. *)
Definition step (u : CacheUpdate) (cache : Cache) (p : Progress)
    : Cache * Progress :=
  let domain := u_domain u in
  let entry := u_entry u in
  match p with
  | AtDomainCheck => (cache, AtDomainMake (comma_ok cache domain))
  | AtDomainMake ok =>
      if ok then (cache, AtEntryCheck)
      else match map_assign cache domain make_map with
           | Some cache' => (cache', AtEntryCheck)
           | None => (cache, Panicked)
           end
  | AtEntryCheck =>
      (cache, AtEntryMake (comma_ok (map_index None cache domain) entry))
  | AtEntryMake ok =>
      if ok then (cache, AtStore)
      else match (byEntry ← map_assign (map_index None cache domain) entry
                                make_map;
                  map_assign cache domain byEntry) : option Cache with
           | Some cache' => (cache', AtStore)
           | None => (cache, Panicked)
           end
  | AtStore =>
      let byEntry := map_index None cache domain in
      match (byKey ← map_assign (map_index None byEntry entry) (u_key u)
                        (u_url u);
             byEntry ← map_assign byEntry entry byKey;
             map_assign cache domain byEntry) : option Cache with
      | Some cache' => (cache', Finished)
      | None => (cache, Panicked)
      end
  | Finished => (cache, Finished)
  | Panicked => (cache, Panicked)
  end.

(** Goroutines that run cache updates on the one global map. *)
Record Shared : Type := {
  shared_cache : Cache;
  goroutines : list (CacheUpdate * Progress)
}.

(** The goroutine [i] runs its next statement. *)
Definition run_statement (s : Shared) (i : nat) : Shared :=
  match goroutines s !! i with
  | Some (u, p) =>
      let (cache, p') := step u (shared_cache s) p in
      {| shared_cache := cache;
         goroutines := <[i := (u, p')]> (goroutines s) |}
  | None => s
  end.

(** A schedule: which goroutine runs next, statement by statement. *)
Definition run_schedule (schedule : list nat) (s : Shared) : Shared :=
  fold_left run_statement schedule s.

(** Two [Present]s that have reached their cache update. *)
Definition two_updates (cache : Cache) (a b : CacheUpdate) : Shared :=
  {| shared_cache := cache;
     goroutines := [(a, AtDomainCheck); (b, AtDomainCheck)] |}.

(** ** Facts about [strings] *)

Section StringFacts.
Import strings.

Lemma string_length_app (a b : string) :
  String.length (a +:+ b) = (String.length a + String.length b)%nat.
Proof. induction a as [|x a IH]; simpl; [reflexivity | now rewrite IH]. Qed.

Lemma substring_all (s : string) : String.substring 0 (String.length s) s = s.
Proof. induction s as [|x s IH]; simpl; [reflexivity | now rewrite IH]. Qed.

Lemma substring_app_take (a b : string) :
  String.substring 0 (String.length a) (a +:+ b) = a.
Proof.
  induction a as [|x a IH]; simpl.
  - now destruct b.
  - now rewrite IH.
Qed.

Lemma substring_app_skip (a b : string) (m : nat) :
  String.substring (String.length a) m (a +:+ b) = String.substring 0 m b.
Proof. induction a as [|x a IH]; simpl; [reflexivity | exact IH]. Qed.

Lemma substring_split (s : string) (n : nat) :
  (n <= String.length s)%nat ->
  s = String.substring 0 n s +:+ String.substring n (String.length s - n) s.
Proof.
  revert n. induction s as [|x s IH]; intros n Hn; simpl in *.
  - assert (n = 0%nat) as -> by lia. reflexivity.
  - destruct n as [|n]; simpl.
    + now rewrite substring_all.
    + change (String x s = String x (String.substring 0 n s +:+
                    String.substring n (String.length s - n) s)).
      f_equal. apply IH. lia.
Qed.

Lemma HasSuffix_app (p z : string) : HasSuffix (p +:+ z) z = true.
Proof.
  unfold HasSuffix. rewrite string_length_app.
  replace (String.length p + String.length z - String.length z)%nat
    with (String.length p) by lia.
  rewrite substring_app_skip, substring_all, String.eqb_refl.
  rewrite andb_true_r. apply Nat.leb_le. lia.
Qed.

Lemma HasSuffix_inv (s z : string) :
  HasSuffix s z = true -> exists p, s = p +:+ z.
Proof.
  unfold HasSuffix. intros H. apply andb_true_iff in H as [Hlen Heq].
  apply Nat.leb_le in Hlen. apply String.eqb_eq in Heq.
  exists (String.substring 0 (String.length s - String.length z) s).
  rewrite (substring_split s (String.length s - String.length z)) at 1 by lia.
  f_equal.
  replace (String.length s - (String.length s - String.length z))%nat
    with (String.length z) by lia.
  exact Heq.
Qed.

Lemma TrimSuffix_app (p z : string) : TrimSuffix (p +:+ z) z = p.
Proof.
  unfold TrimSuffix. rewrite HasSuffix_app, string_length_app.
  replace (String.length p + String.length z - String.length z)%nat
    with (String.length p) by lia.
  apply substring_app_take.
Qed.

Lemma TrimSuffix_without (s z : string) :
  (forall p, s <> p +:+ z) -> TrimSuffix s z = s.
Proof.
  intros Hno. unfold TrimSuffix.
  destruct (HasSuffix s z) eqn:E; [|reflexivity].
  apply HasSuffix_inv in E as [p ->]. now destruct (Hno p).
Qed.

Lemma TrimSuffix_self (z : string) : TrimSuffix z z = "".
Proof. exact (TrimSuffix_app "" z). Qed.
End StringFacts.

(** ** The challenge mapper *)

(** C7. For a zone [zone.] and a name [prefix ++ zone.], the mapper returns
    the domain [zone]; the host label is [prefix] without its trailing dot
    (and [prefix] itself when it has none); it is empty when the name is the
    zone; and the error is the domain-not-found error exactly when the
    domain has no entry in the credential table, the API key being the entry
    otherwise. *)
Theorem mapper_domain_and_label (ch : ChallengeRequest)
    (cfg : customDNSProviderConfig) (prefix zone : string) :
  ResolvedZone ch = zone +:+ "." ->
  ResolvedFQDN ch = prefix +:+ ResolvedZone ch ->
  match getDomainAndEntryAndApiKey ch cfg with
  | (hostLabel, domain, key, err) =>
      domain = zone
      /\ (forall label, prefix = label +:+ "." -> hostLabel = label)
      /\ ((forall label, prefix <> label +:+ ".") -> hostLabel = prefix)
      /\ (ResolvedFQDN ch = ResolvedZone ch -> hostLabel = "")
      /\ (err = Some (err_domain_not_found domain) <-> map_lookup cfg domain = None)
      /\ (err = None <-> is_Some (map_lookup cfg domain))
      /\ (forall k, map_lookup cfg domain = Some k -> key = k /\ err = None)
  end.
Proof.
  intros Hzone Hfqdn. unfold getDomainAndEntryAndApiKey.
  rewrite Hfqdn, Hzone, !TrimSuffix_app.
  assert (Hlabel : (forall label, prefix = label +:+ "." ->
                      strings.TrimSuffix prefix "." = label)
                   /\ ((forall label, prefix <> label +:+ ".") ->
                      strings.TrimSuffix prefix "." = prefix)
                   /\ (prefix +:+ zone +:+ "." = zone +:+ "." ->
                      strings.TrimSuffix prefix "." = "")).
  { split; [|split].
    - intros label ->. apply TrimSuffix_app.
    - apply TrimSuffix_without.
    - intros Heq. apply (f_equal String.length) in Heq.
      rewrite string_length_app in Heq.
      destruct prefix; [reflexivity | simpl in Heq; lia]. }
  destruct Hlabel as (H1 & H2 & H3).
  destruct (map_lookup cfg zone) as [k|] eqn:E;
    (split; [reflexivity|]); (split; [exact H1|]); (split; [exact H2|]);
    (split; [exact H3|]).
  - rewrite E. split; [split; discriminate|].
    split; [split; [eauto | reflexivity]|].
    intros k' [= <-]. split; reflexivity.
  - rewrite E. split; [split; reflexivity|].
    split; [split; [discriminate | intros [k' Hk']; discriminate]|].
    discriminate.
Qed.

Lemma mapper_domain_and_label_witness :
  match getDomainAndEntryAndApiKey
          (Fixture.challenge None) (Some {[ "example.com" := "s3cr3t" ]}) with
  | (hostLabel, domain, key, err) =>
      domain = "example.com"
      /\ (forall label, "_acme-challenge.foo." = label +:+ "." -> hostLabel = label)
      /\ ((forall label, "_acme-challenge.foo." <> label +:+ ".") ->
          hostLabel = "_acme-challenge.foo.")
      /\ (ResolvedFQDN (Fixture.challenge None)
          = ResolvedZone (Fixture.challenge None) -> hostLabel = "")
      /\ (err = Some (err_domain_not_found domain)
          <-> map_lookup (Some {[ "example.com" := "s3cr3t" ]}) domain = None)
      /\ (err = None
          <-> is_Some (map_lookup (Some {[ "example.com" := "s3cr3t" ]}) domain))
      /\ (forall k, map_lookup (Some {[ "example.com" := "s3cr3t" ]}) domain = Some k ->
          key = k /\ err = None)
  end.
Proof.
  apply (mapper_domain_and_label (Fixture.challenge None)
           (Some {[ "example.com" := "s3cr3t" ]})
           "_acme-challenge.foo." "example.com"); reflexivity.
Defined.

(** ** Facts about runs of the client *)

Section RunFacts.
Variable net : Net.
Variable c : variomediaClient.

Lemma requests_sent_app (a b : Trace) :
  requests_sent (a ++ b) = (requests_sent a + requests_sent b)%nat.
Proof. unfold requests_sent. now rewrite List.filter_app, length_app. Qed.

Lemma requests_with_app (method : string) (a b : Trace) :
  requests_with method (a ++ b)
  = (requests_with method a + requests_with method b)%nat.
Proof. unfold requests_with. now rewrite List.filter_app, length_app. Qed.

Lemma wrap_int_small (z : Z) : - 2 ^ 63 <= z < 2 ^ 63 -> wrap_int z = z.
Proof. intros Hz. unfold wrap_int. rewrite Z.mod_small; lia. Qed.

Lemma terminal_nil {A} (code : Z) (verdict : A) (o : Outcome A) :
  terminal code verdict o [].
Proof. intros i H. destruct i; discriminate. Qed.

(** Events before which the call went on, followed by the events of the
    rest of the call. *)
Lemma terminal_app {A} (code : Z) (verdict : A) (o : Outcome A)
    (evs1 evs2 : Trace) :
  (forall i, evs1 !! i ≫= response_status <> Some code) ->
  terminal code verdict o evs2 ->
  terminal code verdict o (evs1 ++ evs2).
Proof.
  intros Hclean Hrest i Hi.
  destruct (decide (i < length evs1)%nat) as [Hlt|Hge].
  - rewrite lookup_app_l in Hi by exact Hlt. now destruct (Hclean i).
  - rewrite lookup_app_r in Hi by lia.
    destruct (Hrest _ Hi) as [-> Hlen]. split; [reflexivity|].
    rewrite length_app. lia.
Qed.

Lemma decided_nil {A} (verdict : Z -> option error) (inj : error -> A)
    (o : Outcome A) :
  decided verdict inj o [].
Proof. intros code e _. apply terminal_nil. Qed.

(** A step that went on saw no status that decides the call. *)
Lemma decided_clean {A} (verdict : Z -> option error) (a : A) (evs : Trace)
    (code : Z) (e : error) :
  decided verdict Err (Returns (Ok a)) evs -> verdict code = Some e ->
  forall i, evs !! i ≫= response_status <> Some code.
Proof. intros H Hv i Hi. now destruct (H code e Hv i Hi) as [[=] _]. Qed.

Lemma decided_then {A B} (verdict : Z -> option error) (inj : error -> B)
    (a : A) (o : Outcome B) (evs1 evs2 : Trace) :
  decided verdict Err (Returns (Ok a)) evs1 ->
  decided verdict inj o evs2 ->
  decided verdict inj o (evs1 ++ evs2).
Proof.
  intros H1 H2 code e Hv. apply terminal_app; [|exact (H2 code e Hv)].
  exact (decided_clean verdict a evs1 code e H1 Hv).
Qed.

Lemma decided_done {A B} (verdict : Z -> option error) (inj : error -> B)
    (a : A) (o : Outcome B) (evs : Trace) :
  decided verdict Err (Returns (Ok a)) evs ->
  decided verdict inj o evs.
Proof.
  intros H. rewrite <- (app_nil_r evs).
  apply (decided_then verdict inj a o evs [] H), decided_nil.
Qed.

(** The error of a step is the error of the call. *)
Lemma decided_return {A B} (verdict : Z -> option error) (inj : error -> B)
    (err : error) (evs : Trace) :
  decided verdict (@Err A) (Returns (Err err)) evs ->
  decided verdict inj (Returns (inj err)) evs.
Proof.
  intros H code e Hv i Hi. destruct (H code e Hv i Hi) as [[= ->] Hlen].
  now split.
Qed.

(** [doRequest] sends one request and classifies the round trip. *)
Lemma doRequest_eq (req : Request) (readResponseBody : bool) (t : Trace) :
  doRequest net c req readResponseBody t
  = (Returns (read_response readResponseBody (Do net t (with_headers c req))),
     t ++ [EvHTTP (with_headers c req) (Do net t (with_headers c req))]).
Proof.
  unfold doRequest, read_response, with_headers.
  destruct (Do net t _) as [e|code b]; [reflexivity|].
  destruct (((code =? StatusOK) || (code =? StatusAccepted)) && readResponseBody);
    [destruct b|]; reflexivity.
Qed.

Lemma one_exchange_events {A} (verdict : Z -> option error) (inj : error -> A)
    (r : A) (pre : Trace) (req : Request) (res : RoundTrip) :
  (forall e, In e pre -> is_http e = false) ->
  (forall code b e, res = Response code b -> verdict code = Some e -> r = inj e) ->
  decided verdict inj (Returns r) (pre ++ [EvHTTP req res])
  /\ requests_sent (pre ++ [EvHTTP req res]) = 1%nat
  /\ requests_with (Method req) (pre ++ [EvHTTP req res]) = 1%nat.
Proof.
  intros Hpre Hres.
  assert (Hnone : forall i, pre !! i ≫= response_status = None).
  { intros i. destruct (pre !! i) as [e|] eqn:E; [|reflexivity].
    apply list_elem_of_lookup_2, list_elem_of_In, Hpre in E.
    now destruct e. }
  assert (Hfilter : forall f, (forall e, f e = true -> is_http e = true) ->
            List.filter f pre = []).
  { intros f Hf. induction pre as [|e pre IH]; [reflexivity|]. simpl.
    destruct (f e) eqn:E.
    - apply Hf in E. rewrite Hpre in E by now left. discriminate.
    - apply IH; [intros; apply Hpre; now right|].
      intros i. apply (Hnone (S i)). }
  split; [|split].
  - intros code e Hv i Hi.
    destruct (decide (i < length pre)%nat) as [Hlt|Hge].
    + rewrite lookup_app_l, Hnone in Hi by exact Hlt. discriminate.
    + rewrite lookup_app_r in Hi by lia.
      destruct (i - length pre)%nat as [|j] eqn:Ej; [|discriminate].
      simpl in Hi. destruct res as [msg|code' b]; [discriminate|].
      injection Hi as ->. rewrite (Hres code b e eq_refl Hv).
      split; [reflexivity|]. rewrite length_app. simpl. lia.
  - unfold requests_sent. rewrite List.filter_app, Hfilter by auto. reflexivity.
  - unfold requests_with. rewrite List.filter_app, Hfilter.
    + simpl. now rewrite String.eqb_refl.
    + intros [|]; [discriminate | reflexivity].
Qed.

Lemma sleep_is_quiet (d : Z) (e : Event) : In e [EvSleep d] -> is_http e = false.
Proof. intros [<-|[]]. reflexivity. Qed.

(** Decides a verdict table on a status whose tests are in the context. *)
Ltac by_verdict Hv :=
  unfold create_verdict, delete_verdict, delete_poll_verdict, unexpected_end in Hv;
  unfold StatusTooManyRequests, StatusCreated, StatusOK, StatusAccepted,
    StatusNotFound in *;
  repeat case_match; simpl in *; simplify_eq; try reflexivity; lia.

(** Closes the facts about a step that made one GET after a sleep. *)
Ltac one_exchange verdict inj :=
  lazymatch goal with
  | |- decided _ _ (Returns ?r) [?e0; EvHTTP ?req ?res] /\ _ =>
      let H1 := fresh in let H2 := fresh in let H3 := fresh in
      destruct (one_exchange_events verdict inj r [e0] req res) as (H1 & H2 & H3);
      [ apply sleep_is_quiet
      | let code := fresh in let b := fresh in let e := fresh in
        let Hb := fresh in let Hv := fresh in
        intros code b e Hb Hv; simplify_eq; by_verdict Hv
      | split; [exact H1 | split;
          [apply Nat.eq_le_incl; exact H2
          | transitivity 1%nat; [exact H3 | symmetry; exact H2]]] ]
  end.

Lemma decided_sleep {A} (verdict : Z -> option error) (inj : error -> A)
    (o : Outcome A) (d : Z) :
  decided verdict inj o [EvSleep d].
Proof. intros code e _ [|[|i]] Hi; discriminate. Qed.

(** What one re-fetch of [UpdateTxtRecord] does. *)
Lemma UpdateTxtRecord_refetch_run (reply : variomediaResponse) (t : Trace) :
  exists r evs,
    UpdateTxtRecord_refetch net c reply t = (Returns r, t ++ evs)
    /\ decided create_verdict Err (Returns r) evs
    /\ (requests_sent evs <= 1)%nat
    /\ requests_with "GET" evs = requests_sent evs.
Proof.
  unfold UpdateTxtRecord_refetch, bind at 1, time_Sleep, http_NewRequest.
  destruct (NewRequest_err net "GET" (job_link reply "queue-job")) as [e|].
  - eexists _, [EvSleep statusLookupDelay]. split; [reflexivity|].
    split; [apply decided_sleep|].
    split; [unfold requests_sent; simpl; lia | reflexivity].
  - unfold bind. rewrite doRequest_eq, <- app_assoc.
    set (req := with_headers c _). set (res := Do net _ req). clearbody res.
    unfold StatusTooManyRequests, StatusCreated, StatusOK, StatusAccepted in *.
    destruct res as [e|code [data|e]]; simpl; unfold ret; repeat case_match;
      simplify_eq; eexists _, _; (split; [reflexivity|]);
      one_exchange create_verdict (@Err variomediaResponse).
Qed.

(** The first statement of a loop iteration of [UpdateTxtRecord]. *)
Lemma UpdateTxtRecord_iteration_run (reply : variomediaResponse) (t : Trace) :
  exists r evs,
    (if String.eqb (job_status reply) "pending"
     then UpdateTxtRecord_refetch net c reply
     else ret (Ok reply)) t = (Returns r, t ++ evs)
    /\ decided create_verdict Err (Returns r) evs
    /\ (requests_sent evs <= 1)%nat
    /\ requests_with "GET" evs = requests_sent evs.
Proof.
  destruct (String.eqb (job_status reply) "pending").
  - apply UpdateTxtRecord_refetch_run.
  - exists (Ok reply), []. rewrite app_nil_r. split; [reflexivity|].
    split; [apply decided_nil|].
    split; [unfold requests_sent; simpl; lia|reflexivity].
Qed.

(** The poll loop of [UpdateTxtRecord]: it only adds events, never panics,
    ends at a response whose status decides the call, sends only GET
    requests, at most [loopcount] of them, and returns when the fuel is at
    least [loopcount]. *)
Lemma UpdateTxtRecord_loop_run (fuel : nat) :
  forall (loopcount : Z) (reply : variomediaResponse) (t : Trace),
  exists o evs,
    UpdateTxtRecord_loop fuel net c loopcount reply t = (o, t ++ evs)
    /\ (forall msg, o <> Panics msg)
    /\ decided create_verdict Err o evs
    /\ requests_with "GET" evs = requests_sent evs
    /\ (1 <= loopcount < 2 ^ 63 -> (requests_sent evs <= Z.to_nat loopcount)%nat)
    /\ (1 <= loopcount < 2 ^ 63 -> loopcount <= Z.of_nat fuel ->
        exists r, o = Returns r).
Proof.
  induction fuel as [|fuel IH]; intros loopcount reply t.
  - exists OutOfFuel, []. rewrite app_nil_r. split; [reflexivity|].
    split; [discriminate|]. split; [apply decided_nil|].
    split; [reflexivity|]. split; [intros; unfold requests_sent; simpl; lia|].
    intros; lia.
  - cbn [UpdateTxtRecord_loop]. unfold bind.
    destruct (UpdateTxtRecord_iteration_run reply t)
      as (r & evs1 & -> & Hterm & Hsent & Hget).
    destruct r as [reply'|e].
    + destruct (String.eqb (job_status reply') "done").
      { eexists _, evs1. split; [reflexivity|].
        split; [discriminate|].
        split; [exact (decided_done _ _ _ _ _ Hterm)|].
        split; [exact Hget|]. split; [intros; lia | eauto]. }
      destruct (wrap_int (loopcount - 1) =? 0) eqn:Ezero.
      { eexists _, evs1. split; [reflexivity|].
        split; [discriminate|].
        split; [exact (decided_done _ _ _ _ _ Hterm)|].
        split; [exact Hget|]. split; [intros; lia | eauto]. }
      destruct (IH (wrap_int (loopcount - 1)) reply' (t ++ evs1))
        as (o & evs2 & -> & Hpanic & Hterm2 & Hget2 & Hsent2 & Hret2).
      exists o, (evs1 ++ evs2). rewrite app_assoc. split; [reflexivity|].
      split; [exact Hpanic|].
      split; [exact (decided_then _ _ _ _ _ _ Hterm Hterm2)|].
      rewrite requests_with_app, requests_sent_app.
      split; [congruence|].
      apply Z.eqb_neq in Ezero.
      split.
      * intros Hlc. rewrite wrap_int_small in Hsent2, Ezero by lia.
        specialize (Hsent2 ltac:(lia)). lia.
      * intros Hlc Hfuel. rewrite wrap_int_small in Hret2, Ezero by lia.
        apply Hret2; lia.
    + eexists _, evs1. split; [reflexivity|].
      split; [discriminate|].
      split; [exact (decided_return _ Err _ _ Hterm)|].
      split; [exact Hget|]. split; [intros; lia | eauto].
Qed.

Lemma first_exchange_events {A} (verdict : Z -> option error) (inj : error -> A)
    (r : A) (req : Request) (res : RoundTrip) :
  (forall code b e, res = Response code b -> verdict code = Some e -> r = inj e) ->
  decided verdict inj (Returns r) [EvHTTP req res].
Proof.
  intros Hres.
  destruct (one_exchange_events verdict inj r [] req res) as (H & _ & _);
    [intros e [] | exact Hres | exact H].
Qed.

Lemma first_exchange_clean (code : Z) (req : Request) (res : RoundTrip) :
  (forall b, res <> Response code b) ->
  forall i, [EvHTTP req res] !! i ≫= response_status <> Some code.
Proof.
  intros Hres [|i] Hi; [|discriminate]. simpl in Hi.
  destruct res as [e|code' b]; [discriminate|].
  injection Hi as ->. now destruct (Hres b).
Qed.

Ltac first_exchange :=
  lazymatch goal with
  | |- decided _ _ (Returns ?r) [EvHTTP ?req ?res] =>
      apply first_exchange_events;
      let code := fresh in let b := fresh in let e := fresh in
      let Hb := fresh in let Hv := fresh in
      intros code b e Hb Hv; simplify_eq; by_verdict Hv
  end.

(** [UpdateTxtRecord]: one POST, then the poll loop. *)
Lemma UpdateTxtRecord_run (fuel : nat) (domain name value : string) (ttl : Z)
    (t : Trace) :
  exists o evs,
    UpdateTxtRecord fuel net c domain name value ttl t = (o, t ++ evs)
    /\ (forall msg, o <> Panics msg)
    /\ decided create_verdict Err o evs
    /\ (requests_with "GET" evs <= 5)%nat
    /\ (requests_sent evs <= 1 + 5)%nat
    /\ ((5 <= fuel)%nat -> exists r, o = Returns r).
Proof.
  unfold UpdateTxtRecord, http_NewRequest.
  destruct (NewRequest_err net "POST" variomediaLiveDnsBaseUrl) as [e|].
  { eexists (Returns (Err _)), []. rewrite app_nil_r. split; [reflexivity|].
    split; [discriminate|]. split; [apply decided_nil|].
    unfold requests_with, requests_sent. simpl.
    split; [lia|]. split; [lia|]. eauto. }
  unfold bind. rewrite doRequest_eq.
  set (req := with_headers c _). set (res := Do net _ req). clearbody res.
  assert (Hone : requests_sent [EvHTTP req res] = 1%nat) by reflexivity.
  assert (Hpost : requests_with "GET" [EvHTTP req res] = 0%nat) by reflexivity.
  unfold StatusTooManyRequests, StatusCreated, StatusOK, StatusAccepted in *.
  remember (UpdateTxtRecord_loop fuel net c 5) as loop eqn:Eloop.
  destruct res as [e|code [data|e]]; simpl; unfold ret; repeat case_match;
    simplify_eq;
    try (eexists _, _; split; [reflexivity|]; split; [discriminate|];
         split; [first_exchange|]; rewrite Hone, Hpost;
         split; [lia|]; split; [lia|]; eauto; fail).
  all: match goal with |- context [UpdateTxtRecord_loop _ _ _ 5 ?reply ?t'] =>
         destruct (UpdateTxtRecord_loop_run fuel 5 reply t')
           as (o & evs2 & -> & Hpanic & Hterm & Hget & Hsent & Hret) end.
  all: eexists o, (_ ++ evs2); rewrite app_assoc; (split; [reflexivity|]);
       (split; [exact Hpanic|]);
       (split; [intros code' e' Hv; apply terminal_app;
                [|exact (Hterm code' e' Hv)];
                apply first_exchange_clean; intros b' Hb'; simplify_eq;
                by_verdict Hv|]);
       rewrite requests_with_app, requests_sent_app, Hone, Hpost;
       specialize (Hsent ltac:(lia));
       (split; [lia|]); (split; [lia|]);
       intros Hfuel; apply Hret; lia.
Qed.

(** What one re-fetch of [DeleteTxtRecord] does. *)
Lemma DeleteTxtRecord_refetch_run (reply : variomediaResponse) (t : Trace) :
  exists r evs,
    DeleteTxtRecord_refetch net c reply t = (Returns r, t ++ evs)
    /\ decided delete_poll_verdict Err (Returns r) evs
    /\ (requests_sent evs <= 1)%nat
    /\ requests_with "GET" evs = requests_sent evs.
Proof.
  unfold DeleteTxtRecord_refetch, bind at 1, time_Sleep, http_NewRequest.
  destruct (NewRequest_err net "GET" (job_link reply "queue-job")) as [e|].
  - eexists _, [EvSleep statusLookupDelay]. split; [reflexivity|].
    split; [apply decided_sleep|].
    split; [unfold requests_sent; simpl; lia | reflexivity].
  - unfold bind. rewrite doRequest_eq, <- app_assoc.
    set (req := with_headers c _). set (res := Do net _ req). clearbody res.
    unfold StatusTooManyRequests, StatusCreated, StatusOK, StatusAccepted,
      StatusNotFound in *.
    destruct res as [e|code [data|e]]; simpl; unfold ret; repeat case_match;
      simplify_eq; eexists _, _; (split; [reflexivity|]);
      one_exchange delete_poll_verdict (@Err variomediaResponse).
Qed.

(** The first statement of a loop iteration of [DeleteTxtRecord]. *)
Lemma DeleteTxtRecord_iteration_run (status : Z) (reply : variomediaResponse)
    (t : Trace) :
  exists r evs,
    (if String.eqb (job_status reply) "pending" && negb (status =? StatusNotFound)
     then DeleteTxtRecord_refetch net c reply
     else ret (Ok reply)) t = (Returns r, t ++ evs)
    /\ decided delete_poll_verdict Err (Returns r) evs
    /\ (requests_sent evs <= 1)%nat
    /\ requests_with "GET" evs = requests_sent evs.
Proof.
  destruct (String.eqb (job_status reply) "pending" && negb (status =? StatusNotFound)).
  - apply DeleteTxtRecord_refetch_run.
  - exists (Ok reply), []. rewrite app_nil_r. split; [reflexivity|].
    split; [apply decided_nil|].
    split; [unfold requests_sent; simpl; lia|reflexivity].
Qed.

(** The poll loop of [DeleteTxtRecord], as for [UpdateTxtRecord]. *)
Lemma DeleteTxtRecord_loop_run (fuel : nat) :
  forall (status loopcount : Z) (reply : variomediaResponse) (t : Trace),
  exists o evs,
    DeleteTxtRecord_loop fuel net c status loopcount reply t = (o, t ++ evs)
    /\ (forall msg, o <> Panics msg)
    /\ decided delete_poll_verdict Some o evs
    /\ requests_with "GET" evs = requests_sent evs
    /\ (1 <= loopcount < 2 ^ 63 -> (requests_sent evs <= Z.to_nat loopcount)%nat)
    /\ (1 <= loopcount < 2 ^ 63 -> loopcount <= Z.of_nat fuel ->
        exists r, o = Returns r).
Proof.
  induction fuel as [|fuel IH]; intros status loopcount reply t.
  - exists OutOfFuel, []. rewrite app_nil_r. split; [reflexivity|].
    split; [discriminate|]. split; [apply decided_nil|].
    split; [reflexivity|]. split; [intros; unfold requests_sent; simpl; lia|].
    intros; lia.
  - cbn [DeleteTxtRecord_loop]. unfold bind.
    destruct (DeleteTxtRecord_iteration_run status reply t)
      as (r & evs1 & -> & Hterm & Hsent & Hget).
    destruct r as [reply'|e].
    + assert (Hstop : forall o : option error,
        exists o' evs,
          (Returns o, t ++ evs1) = (o', t ++ evs)
          /\ (forall msg, o' <> Panics msg)
          /\ decided delete_poll_verdict Some o' evs
          /\ requests_with "GET" evs = requests_sent evs
          /\ (1 <= loopcount < 2 ^ 63 -> (requests_sent evs <= Z.to_nat loopcount)%nat)
          /\ (1 <= loopcount < 2 ^ 63 -> loopcount <= Z.of_nat (S fuel) ->
              exists r, o' = Returns r)).
      { intros o. eexists _, evs1. split; [reflexivity|].
        split; [discriminate|].
        split; [exact (decided_done _ _ _ _ _ Hterm)|].
        split; [exact Hget|]. split; [intros; lia | eauto]. }
      destruct (status =? StatusNotFound); [apply Hstop|].
      destruct (String.eqb (job_status reply') "done"); [apply Hstop|].
      destruct (wrap_int (loopcount - 1) =? 0) eqn:Ezero; [apply Hstop|].
      destruct (IH status (wrap_int (loopcount - 1)) reply' (t ++ evs1))
        as (o & evs2 & -> & Hpanic & Hterm2 & Hget2 & Hsent2 & Hret2).
      exists o, (evs1 ++ evs2). rewrite app_assoc. split; [reflexivity|].
      split; [exact Hpanic|].
      split; [exact (decided_then _ _ _ _ _ _ Hterm Hterm2)|].
      rewrite requests_with_app, requests_sent_app.
      split; [congruence|].
      apply Z.eqb_neq in Ezero.
      split.
      * intros Hlc. rewrite wrap_int_small in Hsent2, Ezero by lia.
        specialize (Hsent2 ltac:(lia)). lia.
      * intros Hlc Hfuel. rewrite wrap_int_small in Hret2, Ezero by lia.
        apply Hret2; lia.
    + eexists _, evs1. split; [reflexivity|].
      split; [discriminate|].
      split; [exact (decided_return _ Some _ _ Hterm)|].
      split; [exact Hget|]. split; [intros; lia | eauto].
Qed.

(** [DeleteTxtRecord]: one DELETE, whose status is judged by
    [delete_verdict], then the poll loop, whose statuses are judged by
    [delete_poll_verdict]. *)
Lemma DeleteTxtRecord_run (fuel : nat) (url : string) (ttl : Z) (t : Trace) :
  exists o evs,
    DeleteTxtRecord fuel net c url ttl t = (o, t ++ evs)
    /\ (forall msg, o <> Panics msg)
    /\ (forall code e,
          delete_verdict code = Some e ->
          evs !! 0%nat ≫= response_status = Some code ->
          o = Returns (Some e) /\ length evs = 1%nat)
    /\ (forall code e i,
          delete_poll_verdict code = Some e ->
          evs !! S i ≫= response_status = Some code ->
          o = Returns (Some e) /\ length evs = S (S i))
    /\ (requests_with "GET" evs <= 5)%nat
    /\ (requests_sent evs <= 1 + 5)%nat
    /\ ((5 <= fuel)%nat -> exists r, o = Returns r).
Proof.
  unfold DeleteTxtRecord, http_NewRequest.
  destruct (NewRequest_err net "DELETE" url) as [e|].
  { eexists (Returns (Some _)), []. rewrite app_nil_r. split; [reflexivity|].
    split; [discriminate|]. split; [discriminate|]. split; [discriminate|].
    unfold requests_with, requests_sent. simpl.
    split; [lia|]. split; [lia|]. eauto. }
  unfold bind. rewrite doRequest_eq.
  set (req := with_headers c _). set (res := Do net _ req). clearbody res.
  assert (Hone : requests_sent [EvHTTP req res] = 1%nat) by reflexivity.
  assert (Hpost : requests_with "GET" [EvHTTP req res] = 0%nat) by reflexivity.
  unfold StatusTooManyRequests, StatusCreated, StatusOK, StatusAccepted in *.
  remember (DeleteTxtRecord_loop fuel net c) as loop eqn:Eloop.
  destruct res as [e|code [data|e]]; simpl; unfold ret; repeat case_match;
    simplify_eq;
    try (eexists _, _; split; [reflexivity|]; split; [discriminate|];
         split; [intros code' e' Hv Hi; simpl in Hi; simplify_eq;
                 (split; [by_verdict Hv | reflexivity])|];
         split; [intros code' e' i Hv Hi; simpl in Hi; discriminate Hi|];
         rewrite Hone, Hpost;
         split; [lia|]; split; [lia|]; eauto; fail).
  all: match goal with |- context [DeleteTxtRecord_loop _ _ _ ?status 5 ?reply ?t'] =>
         destruct (DeleteTxtRecord_loop_run fuel status 5 reply t')
           as (o & evs2 & -> & Hpanic & Hterm & Hget & Hsent & Hret) end.
  all: eexists o, (_ ++ evs2); rewrite app_assoc; (split; [reflexivity|]);
       (split; [exact Hpanic|]);
       (split; [intros code' e' Hv Hi; simpl in Hi; simplify_eq; by_verdict Hv|]);
       (split; [intros code' e' i Hv Hi; simpl in Hi;
                destruct (Hterm code' e' Hv i Hi) as [-> Hlen];
                split; [reflexivity | simpl; lia]|]);
       rewrite requests_with_app, requests_sent_app, Hone, Hpost;
       specialize (Hsent ltac:(lia));
       (split; [lia|]); (split; [lia|]);
       intros Hfuel; apply Hret; lia.
Qed.
End RunFacts.

(** ** A job that stays pending *)

Section Pending.
Variable net : Net.
Variable c : variomediaClient.
Hypothesis Hpending : always_pending net.

(** Decoding a document sets the status it carries. *)
Lemma json_Unmarshal_status (doc : jsonResponse) (reply : variomediaResponse)
    (status : string) :
  doc_status doc = Some status ->
  exists reply',
    json_Unmarshal (BodyJSON doc) reply = Ok reply'
    /\ job_status reply' = status.
Proof.
  unfold doc_status, json_Unmarshal, job_status. intros Hdoc.
  eexists. split; [reflexivity|]. simpl.
  destruct (j_data doc) as [| |j]; try discriminate. simpl.
  destruct (j_attributes j) as [| |attrs]; try discriminate. simpl.
  unfold map_index, map_lookup.
  now rewrite (lookup_union_Some_l attrs _ _ _ Hdoc).
Qed.

Lemma UpdateTxtRecord_refetch_pending (reply : variomediaResponse) (t : Trace) :
  exists reply' evs,
    UpdateTxtRecord_refetch net c reply t = (Returns (Ok reply'), t ++ evs)
    /\ job_status reply' = "pending"
    /\ requests_sent evs = 1%nat
    /\ requests_with "GET" evs = 1%nat.
Proof.
  destruct Hpending as [Hurl Hdo].
  unfold UpdateTxtRecord_refetch, bind at 1, time_Sleep, http_NewRequest.
  rewrite Hurl. unfold bind. rewrite doRequest_eq, <- app_assoc.
  set (req := with_headers c _).
  destruct (Hdo (t ++ [EvSleep statusLookupDelay]) req)
    as (code & doc & -> & Hcode & Hdoc).
  destruct (json_Unmarshal_status doc reply "pending" Hdoc) as (reply' & Hdec & Hst).
  exists reply'.
  destruct Hcode as [-> | ->]; eexists; cbn -[json_Unmarshal]; rewrite Hdec;
    (split; [reflexivity|]); (split; [exact Hst|]); split; reflexivity.
Qed.

(** With [loopcount] iterations left the loop re-fetches [loopcount] times
    and gives up. *)
Lemma UpdateTxtRecord_loop_pending (fuel : nat) :
  forall (loopcount : Z) (reply : variomediaResponse) (t : Trace),
    job_status reply = "pending" ->
    1 <= loopcount < 2 ^ 63 -> loopcount <= Z.of_nat fuel ->
    exists evs,
      UpdateTxtRecord_loop fuel net c loopcount reply t
      = (Returns (Err (err_job_timed_out "pending")), t ++ evs)
      /\ requests_sent evs = Z.to_nat loopcount
      /\ requests_with "GET" evs = Z.to_nat loopcount.
Proof.
  induction fuel as [|fuel IH]; intros loopcount reply t Hst Hlc Hfuel; [lia|].
  cbn [UpdateTxtRecord_loop]. unfold bind. rewrite Hst, String.eqb_refl.
  cbv beta iota.
  destruct (UpdateTxtRecord_refetch_pending reply t)
    as (reply' & evs1 & -> & Hst' & Hsent & Hget).
  rewrite Hst'. change (String.eqb "pending" "done") with false. cbv beta iota.
  rewrite wrap_int_small by lia.
  destruct (loopcount - 1 =? 0) eqn:Ezero.
  - apply Z.eqb_eq in Ezero. exists evs1. split; [reflexivity|].
    rewrite Hsent, Hget. split; lia.
  - apply Z.eqb_neq in Ezero.
    destruct (IH (loopcount - 1) reply' (t ++ evs1) Hst' ltac:(lia) ltac:(lia))
      as (evs2 & -> & Hsent2 & Hget2).
    exists (evs1 ++ evs2). rewrite app_assoc. split; [reflexivity|].
    rewrite requests_sent_app, requests_with_app, Hsent, Hget, Hsent2, Hget2.
    split; lia.
Qed.

Lemma UpdateTxtRecord_pending (fuel : nat) (domain name value : string) (ttl : Z)
    (t : Trace) :
  (5 <= fuel)%nat ->
  exists evs,
    UpdateTxtRecord fuel net c domain name value ttl t
    = (Returns (Err (err_job_timed_out "pending")), t ++ evs)
    /\ requests_sent evs = 6%nat
    /\ requests_with "GET" evs = 5%nat.
Proof.
  intros Hfuel. pose proof Hpending as [Hurl Hdo].
  unfold UpdateTxtRecord, http_NewRequest. rewrite Hurl.
  unfold bind. rewrite doRequest_eq.
  set (req := with_headers c _).
  destruct (Hdo t req) as (code & doc & Eres & Hcode & Hdoc).
  destruct (json_Unmarshal_status doc zero_reply "pending" Hdoc)
    as (reply & Hdec & Hst).
  destruct (UpdateTxtRecord_loop_pending fuel 5 reply
              (t ++ [EvHTTP req (Do net t req)]) Hst ltac:(lia) ltac:(lia))
    as (evs2 & Hloop & Hsent & Hget).
  exists ([EvHTTP req (Do net t req)] ++ evs2). rewrite app_assoc, <- Hloop.
  split.
  - rewrite Eres.
    destruct Hcode as [-> | ->]; cbn -[json_Unmarshal UpdateTxtRecord_loop];
      rewrite Hdec; reflexivity.
  - rewrite requests_sent_app, requests_with_app, Hsent, Hget. split; reflexivity.
Qed.
End Pending.

(** ** Fuel *)

Section Fuel.
Variable net : Net.
Variable c : variomediaClient.

(** The loops run the same with any fuel that covers [loopcount]. *)
Lemma UpdateTxtRecord_loop_fuel (fuel1 : nat) :
  forall (fuel2 : nat) (loopcount : Z) (reply : variomediaResponse) (t : Trace),
    1 <= loopcount < 2 ^ 63 ->
    loopcount <= Z.of_nat fuel1 -> loopcount <= Z.of_nat fuel2 ->
    UpdateTxtRecord_loop fuel1 net c loopcount reply t
    = UpdateTxtRecord_loop fuel2 net c loopcount reply t.
Proof.
  induction fuel1 as [|fuel1 IH]; intros [|fuel2] loopcount reply t Hlc H1 H2;
    try lia.
  cbn [UpdateTxtRecord_loop]. unfold bind.
  destruct ((if String.eqb (job_status reply) "pending"
             then UpdateTxtRecord_refetch net c reply
             else ret (Ok reply)) t) as [[[reply'|e]| |] t']; try reflexivity.
  destruct (String.eqb (job_status reply') "done"); [reflexivity|].
  rewrite wrap_int_small by lia.
  destruct (loopcount - 1 =? 0) eqn:Ezero; [reflexivity|].
  apply Z.eqb_neq in Ezero. apply IH; lia.
Qed.

Lemma DeleteTxtRecord_loop_fuel (fuel1 : nat) :
  forall (fuel2 : nat) (status loopcount : Z) (reply : variomediaResponse)
         (t : Trace),
    1 <= loopcount < 2 ^ 63 ->
    loopcount <= Z.of_nat fuel1 -> loopcount <= Z.of_nat fuel2 ->
    DeleteTxtRecord_loop fuel1 net c status loopcount reply t
    = DeleteTxtRecord_loop fuel2 net c status loopcount reply t.
Proof.
  induction fuel1 as [|fuel1 IH];
    intros [|fuel2] status loopcount reply t Hlc H1 H2; try lia.
  cbn [DeleteTxtRecord_loop]. unfold bind.
  destruct ((if String.eqb (job_status reply) "pending"
                && negb (status =? StatusNotFound)
             then DeleteTxtRecord_refetch net c reply
             else ret (Ok reply)) t) as [[[reply'|e]| |] t']; try reflexivity.
  destruct (status =? StatusNotFound); [reflexivity|].
  destruct (String.eqb (job_status reply') "done"); [reflexivity|].
  rewrite wrap_int_small by lia.
  destruct (loopcount - 1 =? 0) eqn:Ezero; [reflexivity|].
  apply Z.eqb_neq in Ezero. apply IH; lia.
Qed.

(** Five units of fuel are all that the two operations use. *)
Lemma UpdateTxtRecord_fuel (fuel : nat) (domain name value : string) (ttl : Z)
    (t : Trace) :
  (5 <= fuel)%nat ->
  UpdateTxtRecord fuel net c domain name value ttl t
  = UpdateTxtRecord 5 net c domain name value ttl t.
Proof.
  intros Hfuel. unfold UpdateTxtRecord.
  destruct (http_NewRequest net "POST" variomediaLiveDnsBaseUrl _) as [req|e];
    [|reflexivity].
  unfold bind. destruct (doRequest net c req true t) as [[[[status data] [e|]]| |] t'];
    try reflexivity.
  destruct (status =? StatusTooManyRequests); [reflexivity|].
  destruct (negb (status =? StatusCreated) && negb (status =? StatusOK)
            && negb (status =? StatusAccepted)); [reflexivity|].
  destruct (json_Unmarshal data zero_reply) as [reply|e]; [|reflexivity].
  apply UpdateTxtRecord_loop_fuel; lia.
Qed.

Lemma DeleteTxtRecord_fuel (fuel : nat) (url : string) (ttl : Z) (t : Trace) :
  (5 <= fuel)%nat ->
  DeleteTxtRecord fuel net c url ttl t = DeleteTxtRecord 5 net c url ttl t.
Proof.
  intros Hfuel. unfold DeleteTxtRecord.
  destruct (http_NewRequest net "DELETE" url None) as [req|e]; [|reflexivity].
  unfold bind. destruct (doRequest net c req true t) as [[[[status data] [e|]]| |] t'];
    try reflexivity.
  destruct (status =? StatusTooManyRequests); [reflexivity|].
  destruct (negb (status =? StatusCreated) && negb (status =? StatusOK)
            && negb (status =? StatusAccepted)); [reflexivity|].
  destruct (json_Unmarshal data zero_reply) as [reply|e]; [|reflexivity].
  apply DeleteTxtRecord_loop_fuel; lia.
Qed.
End Fuel.

(** ** The poll loop is bounded *)

(** C4. With fuel for five iterations, [UpdateTxtRecord] returns whatever
    the provider answers (and the same with any more fuel), having sent at
    most five GET requests after the POST; and when every answer reports a
    pending job it returns the timed-out error that names the status
    "pending", after exactly five re-fetches. *)
Theorem poll_loop_is_bounded (fuel : nat) (net : Net) (c : variomediaClient)
    (domain name value : string) (ttl : Z) (t : Trace) :
  (5 <= fuel)%nat ->
  let run := UpdateTxtRecord fuel net c domain name value ttl t in
  (exists r, fst run = Returns r)
  /\ run = UpdateTxtRecord 5 net c domain name value ttl t
  /\ (exists evs, snd run = t ++ evs
                  /\ (requests_with "GET" evs <= 5)%nat
                  /\ (requests_sent evs <= 1 + 5)%nat)
  /\ (always_pending net ->
      fst run = Returns (Err (err_job_timed_out "pending"))
      /\ requests_with "GET" (snd run) = (requests_with "GET" t + 5)%nat).
Proof.
  intros Hfuel run. subst run.
  destruct (UpdateTxtRecord_run net c fuel domain name value ttl t)
    as (o & evs & E & _ & _ & Hget & Hsent & Hret).
  split; [|split; [now apply UpdateTxtRecord_fuel|split]].
  - rewrite E. exact (Hret Hfuel).
  - exists evs. rewrite E. auto.
  - intros Hpending.
    destruct (UpdateTxtRecord_pending net c Hpending fuel domain name value ttl t Hfuel)
      as (evs' & -> & _ & Hget').
    simpl. split; [reflexivity|]. rewrite requests_with_app. lia.
Qed.

Lemma poll_loop_is_bounded_witness :
  let run := UpdateTxtRecord 5 (Fixture.scripted [] (Fixture.job 202 "pending"))
               Fixture.client0 "example.com" "_acme-challenge" "token-value"
               variomediaMinTtl [] in
  fst run = Returns (Err (err_job_timed_out "pending"))
  /\ requests_with "GET" (snd run) = 5%nat.
Proof.
  apply (poll_loop_is_bounded 5 (Fixture.scripted [] (Fixture.job 202 "pending"))
           Fixture.client0 "example.com" "_acme-challenge" "token-value"
           variomediaMinTtl []).
  - lia.
  - split; [reflexivity|]. intros history req.
    exists 202, (Fixture.job_doc "pending"). repeat split; auto.
Defined.

(** ** The events of a call, exactly *)

Section Exact.
Variable net : Net.
Variable c : variomediaClient.

Lemma poll_trace_settled (rounds : nat) (t : Trace) (reply : variomediaResponse) :
  job_status reply <> "pending" -> poll_trace net c rounds t reply = [].
Proof.
  intros Hst. apply String.eqb_neq in Hst.
  destruct rounds; simpl; [reflexivity | now rewrite Hst].
Qed.

(** What [doRequest] hands to the status check and the decoder, against
    [decoded]. *)
Lemma read_response_decoded (res : RoundTrip) (reply : variomediaResponse) :
  match read_response true res with
  | (_, _, Some _) => decoded res reply = None
  | (status, data, None) =>
      if (status =? StatusOK) || (status =? StatusAccepted)
      then decoded res reply
           = match json_Unmarshal data reply with
             | Ok reply' => Some reply'
             | Err _ => None
             end
      else data = BodyNone /\ decoded res reply = None
  end.
Proof.
  unfold read_response, decoded.
  destruct res as [msg|code [data|msg]]; [reflexivity|..];
    rewrite andb_true_r;
    destruct ((code =? StatusOK) || (code =? StatusAccepted)) eqn:E;
    rewrite ?E; auto.
Qed.

(** One re-fetch of a create, exactly. *)
Lemma UpdateTxtRecord_refetch_exact (reply : variomediaResponse) (t : Trace) :
  match NewRequest_err net "GET" (job_link reply "queue-job") with
  | Some msg =>
      UpdateTxtRecord_refetch net c reply t
      = (Returns (Err (err_external msg)), t ++ [EvSleep statusLookupDelay])
  | None =>
      let req := poll_request c reply in
      let res := Do net (t ++ [EvSleep statusLookupDelay]) req in
      exists r,
        UpdateTxtRecord_refetch net c reply t
        = (Returns r, t ++ [EvSleep statusLookupDelay; EvHTTP req res])
        /\ match decoded res reply with
           | Some reply' => r = Ok reply'
           | None => exists e, r = Err e
           end
  end.
Proof.
  unfold UpdateTxtRecord_refetch, bind at 1, time_Sleep, http_NewRequest.
  destruct (NewRequest_err net "GET" (job_link reply "queue-job")) as [msg|];
    [reflexivity|].
  unfold bind. rewrite doRequest_eq, <- app_assoc.
  fold (poll_request c reply).
  set (req := poll_request c reply).
  set (res := Do net (t ++ [EvSleep statusLookupDelay]) req). clearbody res.
  pose proof (read_response_decoded res reply) as Hdec.
  destruct (read_response true res) as [[status data] [e|]].
  { eexists. split; [reflexivity|]. rewrite Hdec. eauto. }
  destruct ((status =? StatusOK) || (status =? StatusAccepted)) eqn:Ecode.
  - assert (H429 : (status =? StatusTooManyRequests) = false)
      by (unfold StatusTooManyRequests, StatusOK, StatusAccepted in *; lia).
    assert (Hacc : negb (status =? StatusCreated) && negb (status =? StatusOK)
                   && negb (status =? StatusAccepted) = false)
      by (unfold StatusCreated, StatusOK, StatusAccepted in *; lia).
    rewrite H429, Hacc, Hdec.
    destruct (json_Unmarshal data reply) as [reply'|e]; eexists;
      (split; [reflexivity|]); eauto.
  - destruct Hdec as [-> ->].
    destruct (status =? StatusTooManyRequests); [eauto|].
    destruct (negb (status =? StatusCreated) && negb (status =? StatusOK)
              && negb (status =? StatusAccepted)); eauto.
Qed.

(** One re-fetch of a delete, exactly. *)
Lemma DeleteTxtRecord_refetch_exact (reply : variomediaResponse) (t : Trace) :
  match NewRequest_err net "GET" (job_link reply "queue-job") with
  | Some msg =>
      DeleteTxtRecord_refetch net c reply t
      = (Returns (Err (err_external msg)), t ++ [EvSleep statusLookupDelay])
  | None =>
      let req := poll_request c reply in
      let res := Do net (t ++ [EvSleep statusLookupDelay]) req in
      exists r,
        DeleteTxtRecord_refetch net c reply t
        = (Returns r, t ++ [EvSleep statusLookupDelay; EvHTTP req res])
        /\ match decoded res reply with
           | Some reply' => r = Ok reply'
           | None => exists e, r = Err e
           end
  end.
Proof.
  unfold DeleteTxtRecord_refetch, bind at 1, time_Sleep, http_NewRequest.
  destruct (NewRequest_err net "GET" (job_link reply "queue-job")) as [msg|];
    [reflexivity|].
  unfold bind. rewrite doRequest_eq, <- app_assoc.
  fold (poll_request c reply).
  set (req := poll_request c reply).
  set (res := Do net (t ++ [EvSleep statusLookupDelay]) req). clearbody res.
  pose proof (read_response_decoded res reply) as Hdec.
  destruct (read_response true res) as [[status data] [e|]].
  { eexists. split; [reflexivity|]. rewrite Hdec. eauto. }
  destruct ((status =? StatusOK) || (status =? StatusAccepted)) eqn:Ecode.
  - assert (H429 : (status =? StatusTooManyRequests) = false)
      by (unfold StatusTooManyRequests, StatusOK, StatusAccepted in *; lia).
    assert (Hacc : negb (status =? StatusCreated) && negb (status =? StatusOK)
                   && negb (status =? StatusAccepted)
                   && negb (status =? StatusNotFound) = false)
      by (unfold StatusCreated, StatusOK, StatusAccepted, StatusNotFound in *;
          lia).
    rewrite H429, Hacc, Hdec.
    destruct (json_Unmarshal data reply) as [reply'|e]; eexists;
      (split; [reflexivity|]); eauto.
  - destruct Hdec as [-> ->].
    destruct (status =? StatusTooManyRequests); [eauto|].
    destruct (negb (status =? StatusCreated) && negb (status =? StatusOK)
              && negb (status =? StatusAccepted)
              && negb (status =? StatusNotFound)); eauto.
Qed.

Lemma rounds_left (fuel : nat) (loopcount : Z) :
  1 <= loopcount ->
  Nat.min (S fuel) (Z.to_nat loopcount)
  = S (Nat.min fuel (Z.to_nat (loopcount - 1))).
Proof. intros Hlc. lia. Qed.

(** The events of the poll loop of a create. *)
Lemma UpdateTxtRecord_loop_trace (fuel : nat) :
  forall (loopcount : Z) (reply : variomediaResponse) (t : Trace),
    1 <= loopcount < 2 ^ 63 ->
    snd (UpdateTxtRecord_loop fuel net c loopcount reply t)
    = t ++ poll_trace net c (Nat.min fuel (Z.to_nat loopcount)) t reply.
Proof.
  induction fuel as [|fuel IH]; intros loopcount reply t Hlc.
  - simpl. now rewrite app_nil_r.
  - rewrite rounds_left by lia.
    cbn [UpdateTxtRecord_loop poll_trace]. unfold bind.
    destruct (String.eqb (job_status reply) "pending") eqn:Epending.
    + pose proof (UpdateTxtRecord_refetch_exact reply t) as Hre.
      destruct (NewRequest_err net "GET" (job_link reply "queue-job"))
        as [msg|]; [now rewrite Hre|].
      destruct Hre as (r & -> & Hr).
      destruct (decoded _ reply) as [reply'|]; [subst r|];
        [|destruct Hr as [e ->]; simpl; now rewrite <- ?app_assoc].
      destruct (String.eqb (job_status reply') "done") eqn:Edone.
      { simpl. rewrite poll_trace_settled; [now rewrite <- ?app_assoc|].
        apply String.eqb_eq in Edone. now rewrite Edone. }
      rewrite wrap_int_small by lia.
      destruct (loopcount - 1 =? 0) eqn:Ezero.
      { apply Z.eqb_eq in Ezero. rewrite Ezero. simpl.
        rewrite Nat.min_0_r. simpl. now rewrite <- ?app_assoc. }
      apply Z.eqb_neq in Ezero.
      rewrite IH by lia. now rewrite <- ?app_assoc.
    + unfold ret.
      assert (Hsettled : job_status reply <> "pending")
        by now apply String.eqb_neq.
      destruct (String.eqb (job_status reply) "done");
        [simpl; now rewrite app_nil_r|].
      rewrite wrap_int_small by lia.
      destruct (loopcount - 1 =? 0) eqn:Ezero;
        [simpl; now rewrite app_nil_r|].
      apply Z.eqb_neq in Ezero.
      rewrite IH by lia. now rewrite poll_trace_settled.
Qed.

(** The events of the poll loop of a delete; the status of the DELETE is
    not 404 there. *)
Lemma DeleteTxtRecord_loop_trace (fuel : nat) :
  forall (status loopcount : Z) (reply : variomediaResponse) (t : Trace),
    (status =? StatusNotFound) = false ->
    1 <= loopcount < 2 ^ 63 ->
    snd (DeleteTxtRecord_loop fuel net c status loopcount reply t)
    = t ++ poll_trace net c (Nat.min fuel (Z.to_nat loopcount)) t reply.
Proof.
  induction fuel as [|fuel IH]; intros status loopcount reply t Hstatus Hlc.
  - simpl. now rewrite app_nil_r.
  - rewrite rounds_left by lia.
    cbn [DeleteTxtRecord_loop poll_trace]. unfold bind.
    rewrite Hstatus, andb_true_r.
    destruct (String.eqb (job_status reply) "pending") eqn:Epending.
    + pose proof (DeleteTxtRecord_refetch_exact reply t) as Hre.
      destruct (NewRequest_err net "GET" (job_link reply "queue-job"))
        as [msg|]; [now rewrite Hre|].
      destruct Hre as (r & -> & Hr).
      destruct (decoded _ reply) as [reply'|]; [subst r|];
        [|destruct Hr as [e ->]; simpl; now rewrite <- ?app_assoc].
      destruct (String.eqb (job_status reply') "done") eqn:Edone.
      { simpl. rewrite poll_trace_settled; [now rewrite <- ?app_assoc|].
        apply String.eqb_eq in Edone. now rewrite Edone. }
      rewrite wrap_int_small by lia.
      destruct (loopcount - 1 =? 0) eqn:Ezero.
      { apply Z.eqb_eq in Ezero. rewrite Ezero. simpl.
        rewrite Nat.min_0_r. simpl. now rewrite <- ?app_assoc. }
      apply Z.eqb_neq in Ezero.
      rewrite IH by (assumption || lia). now rewrite <- ?app_assoc.
    + unfold ret.
      assert (Hsettled : job_status reply <> "pending")
        by now apply String.eqb_neq.
      destruct (String.eqb (job_status reply) "done");
        [simpl; now rewrite app_nil_r|].
      rewrite wrap_int_small by lia.
      destruct (loopcount - 1 =? 0) eqn:Ezero;
        [simpl; now rewrite app_nil_r|].
      apply Z.eqb_neq in Ezero.
      rewrite IH by (assumption || lia). now rewrite poll_trace_settled.
Qed.

Lemma rounds_of_a_call (fuel : nat) : Nat.min fuel (Z.to_nat 5) = Nat.min fuel 5.
Proof. reflexivity. Qed.

(** The events of a create. *)
Lemma UpdateTxtRecord_trace (fuel : nat) (domain name value : string) (ttl : Z)
    (t : Trace) :
  snd (UpdateTxtRecord fuel net c domain name value ttl t)
  = t ++ mutation_trace net c (Nat.min fuel 5) (Create domain name value ttl) t.
Proof.
  unfold UpdateTxtRecord, mutation_trace, http_NewRequest. simpl.
  destruct (NewRequest_err net "POST" variomediaLiveDnsBaseUrl) as [msg|];
    [simpl; now rewrite app_nil_r|].
  unfold bind. rewrite doRequest_eq.
  fold (create_request c domain name value ttl).
  set (req := create_request c domain name value ttl).
  set (res := Do net t req). clearbody res.
  pose proof (read_response_decoded res zero_reply) as Hdec.
  destruct (read_response true res) as [[status data] [e|]];
    [rewrite Hdec; reflexivity|].
  destruct ((status =? StatusOK) || (status =? StatusAccepted)) eqn:Ecode.
  - assert (H429 : (status =? StatusTooManyRequests) = false)
      by (unfold StatusTooManyRequests, StatusOK, StatusAccepted in *; lia).
    assert (Hacc : negb (status =? StatusCreated) && negb (status =? StatusOK)
                   && negb (status =? StatusAccepted) = false)
      by (unfold StatusCreated, StatusOK, StatusAccepted in *; lia).
    rewrite H429, Hacc, Hdec.
    destruct (json_Unmarshal data zero_reply) as [reply|e]; [|reflexivity].
    rewrite UpdateTxtRecord_loop_trace by lia.
    now rewrite rounds_of_a_call, <- app_assoc.
  - destruct Hdec as [-> ->].
    destruct (status =? StatusTooManyRequests); [reflexivity|].
    now destruct (negb (status =? StatusCreated) && negb (status =? StatusOK)
                  && negb (status =? StatusAccepted)).
Qed.

(** The events of a delete. *)
Lemma DeleteTxtRecord_trace (fuel : nat) (url : string) (ttl : Z) (t : Trace) :
  snd (DeleteTxtRecord fuel net c url ttl t)
  = t ++ mutation_trace net c (Nat.min fuel 5) (Delete url ttl) t.
Proof.
  unfold DeleteTxtRecord, mutation_trace, http_NewRequest. simpl.
  destruct (NewRequest_err net "DELETE" url) as [msg|];
    [simpl; now rewrite app_nil_r|].
  unfold bind. rewrite doRequest_eq.
  fold (delete_request c url).
  set (req := delete_request c url).
  set (res := Do net t req). clearbody res.
  pose proof (read_response_decoded res zero_reply) as Hdec.
  destruct (read_response true res) as [[status data] [e|]];
    [rewrite Hdec; reflexivity|].
  destruct ((status =? StatusOK) || (status =? StatusAccepted)) eqn:Ecode.
  - assert (H429 : (status =? StatusTooManyRequests) = false)
      by (unfold StatusTooManyRequests, StatusOK, StatusAccepted in *; lia).
    assert (Hacc : negb (status =? StatusCreated) && negb (status =? StatusOK)
                   && negb (status =? StatusAccepted) = false)
      by (unfold StatusCreated, StatusOK, StatusAccepted in *; lia).
    assert (H404 : (status =? StatusNotFound) = false)
      by (unfold StatusNotFound, StatusOK, StatusAccepted in *; lia).
    rewrite H429, Hacc, Hdec.
    destruct (json_Unmarshal data zero_reply) as [reply|e]; [|reflexivity].
    rewrite DeleteTxtRecord_loop_trace by (assumption || lia).
    now rewrite rounds_of_a_call, <- app_assoc.
  - destruct Hdec as [-> ->].
    destruct (status =? StatusTooManyRequests); [reflexivity|].
    now destruct (negb (status =? StatusCreated) && negb (status =? StatusOK)
                  && negb (status =? StatusAccepted)).
Qed.
End Exact.

(** ** Rate limiting *)
Section RateLimited.
Variable net : Net.
Variable c : variomediaClient.
Hypothesis Haccept : forall method url, NewRequest_err net method url = None.

Lemma decoded_reports (status : string) (res : RoundTrip)
    (reply : variomediaResponse) :
  reports status res ->
  exists reply', decoded res reply = Some reply' /\ job_status reply' = status.
Proof.
  intros (code & doc & -> & Hcode & Hdoc).
  destruct (json_Unmarshal_status doc reply status Hdoc) as (reply' & Hdec & Hst).
  exists reply'. split; [|exact Hst].
  unfold decoded. rewrite Hdec.
  now destruct Hcode as [-> | ->].
Qed.

(** A re-fetch of a create answered with 429. *)
Lemma UpdateTxtRecord_refetch_429 (reply : variomediaResponse) (t : Trace)
    (b : External body) :
  Do net (t ++ [EvSleep statusLookupDelay]) (poll_request c reply)
  = Response StatusTooManyRequests b ->
  UpdateTxtRecord_refetch net c reply t
  = (Returns (Err err_rate_limit),
     t ++ [EvSleep statusLookupDelay;
           EvHTTP (poll_request c reply) (Response StatusTooManyRequests b)]).
Proof.
  intros Hdo.
  unfold UpdateTxtRecord_refetch, bind at 1, time_Sleep, http_NewRequest.
  rewrite Haccept. unfold bind. rewrite doRequest_eq, <- app_assoc.
  fold (poll_request c reply). rewrite Hdo. reflexivity.
Qed.

(** A re-fetch of a delete answered with 429. *)
Lemma DeleteTxtRecord_refetch_429 (reply : variomediaResponse) (t : Trace)
    (b : External body) :
  Do net (t ++ [EvSleep statusLookupDelay]) (poll_request c reply)
  = Response StatusTooManyRequests b ->
  DeleteTxtRecord_refetch net c reply t
  = (Returns (Err err_rate_limit),
     t ++ [EvSleep statusLookupDelay;
           EvHTTP (poll_request c reply) (Response StatusTooManyRequests b)]).
Proof.
  intros Hdo.
  unfold DeleteTxtRecord_refetch, bind at 1, time_Sleep, http_NewRequest.
  rewrite Haccept. unfold bind. rewrite doRequest_eq, <- app_assoc.
  fold (poll_request c reply). rewrite Hdo. reflexivity.
Qed.

Lemma requests_sent_sleep (t : Trace) (d : Z) :
  requests_sent (t ++ [EvSleep d]) = requests_sent t.
Proof. rewrite requests_sent_app. unfold requests_sent. simpl. lia. Qed.

Lemma requests_sent_round (t : Trace) (d : Z) (req : Request) (res : RoundTrip) :
  requests_sent (t ++ [EvSleep d; EvHTTP req res]) = S (requests_sent t).
Proof. rewrite requests_sent_app. unfold requests_sent. simpl. lia. Qed.

(** The poll loop of a create whose first [j] answers report a pending job
    and whose next answer is a 429. *)
Lemma UpdateTxtRecord_loop_rate_limited (j : nat) :
  forall (fuel : nat) (loopcount : Z) (reply : variomediaResponse) (t : Trace),
    job_status reply = "pending" ->
    (j < fuel)%nat -> Z.of_nat j < loopcount < 2 ^ 63 ->
    (forall history req,
       (requests_sent history < requests_sent t + j)%nat ->
       reports "pending" (Do net history req)) ->
    (forall history req,
       requests_sent history = (requests_sent t + j)%nat ->
       exists b, Do net history req = Response StatusTooManyRequests b) ->
    exists evs req b,
      UpdateTxtRecord_loop fuel net c loopcount reply t
      = (Returns (Err err_rate_limit), t ++ evs)
      /\ requests_sent evs = S j
      /\ last evs = Some (EvHTTP req (Response StatusTooManyRequests b)).
Proof.
  induction j as [|j IH]; intros fuel loopcount reply t Hst Hfuel Hlc Hpend H429;
    (destruct fuel as [|fuel]; [lia|]);
    cbn [UpdateTxtRecord_loop]; unfold bind; rewrite Hst, String.eqb_refl;
    cbv beta iota.
  - destruct (H429 (t ++ [EvSleep statusLookupDelay]) (poll_request c reply))
      as [b Hdo]; [rewrite requests_sent_sleep; lia|].
    rewrite (UpdateTxtRecord_refetch_429 reply t b Hdo).
    eexists _, _, b. split; [reflexivity|]. split; reflexivity.
  - pose proof (UpdateTxtRecord_refetch_exact net c reply t) as Hre.
    rewrite Haccept in Hre. destruct Hre as (r & -> & Hr).
    destruct (decoded_reports "pending" _ reply
                (Hpend (t ++ [EvSleep statusLookupDelay])
                   (poll_request c reply)
                   ltac:(rewrite requests_sent_sleep; lia)))
      as (reply' & Hdec & Hst').
    rewrite Hdec in Hr. subst r. rewrite Hst'.
    change (String.eqb "pending" "done") with false. cbv beta iota.
    rewrite wrap_int_small by lia.
    destruct (loopcount - 1 =? 0) eqn:Ezero; [lia|].
    set (res := Do net (t ++ [EvSleep statusLookupDelay]) (poll_request c reply)).
    destruct (IH fuel (loopcount - 1) reply'
                (t ++ [EvSleep statusLookupDelay;
                       EvHTTP (poll_request c reply) res]) Hst'
                ltac:(lia) ltac:(lia))
      as (evs & req & b & -> & Hsent & Hlast).
    { intros history rq Hh. apply Hpend.
      rewrite requests_sent_round in Hh. lia. }
    { intros history rq Hh. apply H429.
      rewrite requests_sent_round in Hh. lia. }
    exists ([EvSleep statusLookupDelay; EvHTTP (poll_request c reply) res]
            ++ evs), req, b.
    rewrite app_assoc. split; [reflexivity|].
    rewrite requests_sent_app, Hsent.
    split; [unfold requests_sent; simpl; lia|].
    apply last_app_Some. now left.
Qed.

(** The same for the poll loop of a delete. *)
Lemma DeleteTxtRecord_loop_rate_limited (j : nat) :
  forall (fuel : nat) (status loopcount : Z) (reply : variomediaResponse)
         (t : Trace),
    (status =? StatusNotFound) = false ->
    job_status reply = "pending" ->
    (j < fuel)%nat -> Z.of_nat j < loopcount < 2 ^ 63 ->
    (forall history req,
       (requests_sent history < requests_sent t + j)%nat ->
       reports "pending" (Do net history req)) ->
    (forall history req,
       requests_sent history = (requests_sent t + j)%nat ->
       exists b, Do net history req = Response StatusTooManyRequests b) ->
    exists evs req b,
      DeleteTxtRecord_loop fuel net c status loopcount reply t
      = (Returns (Some err_rate_limit), t ++ evs)
      /\ requests_sent evs = S j
      /\ last evs = Some (EvHTTP req (Response StatusTooManyRequests b)).
Proof.
  induction j as [|j IH];
    intros fuel status loopcount reply t H404 Hst Hfuel Hlc Hpend H429;
    (destruct fuel as [|fuel]; [lia|]);
    cbn [DeleteTxtRecord_loop]; unfold bind;
    rewrite Hst, String.eqb_refl, H404;
    change (true && negb false) with true; cbv beta iota.
  - destruct (H429 (t ++ [EvSleep statusLookupDelay]) (poll_request c reply))
      as [b Hdo]; [rewrite requests_sent_sleep; lia|].
    rewrite (DeleteTxtRecord_refetch_429 reply t b Hdo).
    eexists _, _, b. split; [reflexivity|]. split; reflexivity.
  - pose proof (DeleteTxtRecord_refetch_exact net c reply t) as Hre.
    rewrite Haccept in Hre. destruct Hre as (r & -> & Hr).
    destruct (decoded_reports "pending" _ reply
                (Hpend (t ++ [EvSleep statusLookupDelay])
                   (poll_request c reply)
                   ltac:(rewrite requests_sent_sleep; lia)))
      as (reply' & Hdec & Hst').
    rewrite Hdec in Hr. subst r. cbv beta iota. rewrite Hst'.
    change (String.eqb "pending" "done") with false. cbv beta iota.
    rewrite wrap_int_small by lia.
    destruct (loopcount - 1 =? 0) eqn:Ezero; [lia|].
    set (res := Do net (t ++ [EvSleep statusLookupDelay]) (poll_request c reply)).
    destruct (IH fuel status (loopcount - 1) reply'
                (t ++ [EvSleep statusLookupDelay;
                       EvHTTP (poll_request c reply) res]) H404 Hst'
                ltac:(lia) ltac:(lia))
      as (evs & req & b & -> & Hsent & Hlast).
    { intros history rq Hh. apply Hpend.
      rewrite requests_sent_round in Hh. lia. }
    { intros history rq Hh. apply H429.
      rewrite requests_sent_round in Hh. lia. }
    exists ([EvSleep statusLookupDelay; EvHTTP (poll_request c reply) res]
            ++ evs), req, b.
    rewrite app_assoc. split; [reflexivity|].
    rewrite requests_sent_app, Hsent.
    split; [unfold requests_sent; simpl; lia|].
    apply last_app_Some. now left.
Qed.

Lemma requests_sent_one (t : Trace) (req : Request) (res : RoundTrip) :
  requests_sent (t ++ [EvHTTP req res]) = S (requests_sent t).
Proof. rewrite requests_sent_app. unfold requests_sent. simpl. lia. Qed.

End RateLimited.

(** On the side of the trace: when any response of a create or delete
    operation, the first or a later one, has status 429, the operation
    returns the rate-limit error and the 429 response is the last event of
    the call: nothing is sent after it. *)
Lemma a_429_response_is_the_last_event (fuel : nat) (net : Net)
    (c : variomediaClient) (m : Mutation) (t : Trace) (i : nat) :
  snd (run_mutation fuel net c m t) !! (length t + i)%nat ≫= response_status
  = Some StatusTooManyRequests ->
  fst (run_mutation fuel net c m t) = Returns (Some err_rate_limit)
  /\ length (snd (run_mutation fuel net c m t)) = S (length t + i).
Proof.
  destruct m as [domain name value ttl|url ttl]; unfold run_mutation.
  - unfold bind.
    destruct (UpdateTxtRecord_run net c fuel domain name value ttl t)
      as (o & evs & -> & _ & Hterm & _).
    intros Hi.
    assert (Hevs : evs !! i ≫= response_status = Some StatusTooManyRequests).
    { destruct o as [[url|e]| |]; simpl in Hi;
        rewrite lookup_app_r in Hi by lia;
        now replace (length t + i - length t)%nat with i in Hi by lia. }
    destruct (Hterm StatusTooManyRequests err_rate_limit eq_refl i Hevs)
      as [-> Hlen].
    simpl. split; [reflexivity|]. rewrite length_app. lia.
  - destruct (DeleteTxtRecord_run net c fuel url ttl t)
      as (o & evs & -> & _ & Hfirst & Hlater & _).
    simpl. intros Hi. rewrite lookup_app_r in Hi by lia.
    replace (length t + i - length t)%nat with i in Hi by lia.
    rewrite length_app.
    destruct i as [|i].
    + destruct (Hfirst StatusTooManyRequests err_rate_limit eq_refl Hi)
        as [-> Hlen].
      split; [reflexivity | lia].
    + destruct (Hlater StatusTooManyRequests err_rate_limit i eq_refl Hi)
        as [-> Hlen].
      split; [reflexivity | lia].
Qed.

(** C5. When the provider answers a request of a create or delete operation
    with status 429, be it the first request ([k = 0]) or the [k]-th
    re-fetch after [k] answers that reported a pending job, the operation
    returns the rate-limit error at once: the 429 response is its last
    event and it has sent [k + 1] requests, so there is no further poll and
    no retry. And whatever the provider does, a 429 response among the
    events of the operation is the last of them, and the operation then
    returns the rate-limit error. *)
Theorem rate_limit_ends_the_mutation (fuel : nat) (net : Net)
    (c : variomediaClient) (m : Mutation) (t : Trace) :
  (forall k : nat,
     (k <= 5)%nat -> (k <= fuel)%nat ->
     (forall method url, NewRequest_err net method url = None) ->
     (forall history req,
        (requests_sent history < requests_sent t + k)%nat ->
        reports "pending" (Do net history req)) ->
     (forall history req,
        requests_sent history = (requests_sent t + k)%nat ->
        exists b, Do net history req = Response StatusTooManyRequests b) ->
     exists evs req b,
       run_mutation fuel net c m t = (Returns (Some err_rate_limit), t ++ evs)
       /\ requests_sent evs = S k
       /\ last evs = Some (EvHTTP req (Response StatusTooManyRequests b)))
  /\ (forall i : nat,
        snd (run_mutation fuel net c m t) !! (length t + i)%nat
          ≫= response_status = Some StatusTooManyRequests ->
        fst (run_mutation fuel net c m t) = Returns (Some err_rate_limit)
        /\ length (snd (run_mutation fuel net c m t)) = S (length t + i)).
Proof.
  split; [|intros i; apply a_429_response_is_the_last_event].
  intros k Hk Hfuel Haccept Hpend H429.
  destruct k as [|j].
  - destruct (H429 t (mutation_request c m)) as [b Hdo]; [lia|].
    exists [EvHTTP (mutation_request c m) (Response StatusTooManyRequests b)],
      (mutation_request c m), b.
    split; [|split; reflexivity].
    destruct m as [domain name value ttl|url ttl]; simpl in Hdo;
      unfold run_mutation, UpdateTxtRecord, DeleteTxtRecord, http_NewRequest;
      rewrite Haccept; unfold bind; rewrite doRequest_eq;
      [fold (create_request c domain name value ttl)
      |fold (delete_request c url)];
      rewrite Hdo; reflexivity.
  - destruct (Hpend t (mutation_request c m) ltac:(lia))
      as (code & doc & Hdo & Hcode & Hdoc).
    destruct (json_Unmarshal_status doc zero_reply "pending" Hdoc)
      as (reply & Hdec & Hst).
    assert (Hrd : read_response true (Response code (Got (BodyJSON doc)))
                  = (code, BodyJSON doc, None)).
    { unfold read_response, StatusOK, StatusAccepted in *.
      destruct Hcode as [->| ->]; reflexivity. }
    assert (Hnot429 : (code =? StatusTooManyRequests) = false).
    { unfold StatusTooManyRequests, StatusOK, StatusAccepted in *. lia. }
    assert (Hacc : negb (code =? StatusCreated) && negb (code =? StatusOK)
                   && negb (code =? StatusAccepted) = false).
    { unfold StatusCreated, StatusOK, StatusAccepted in *.
      destruct Hcode as [->| ->]; reflexivity. }
    assert (H404 : (code =? StatusNotFound) = false).
    { unfold StatusNotFound, StatusOK, StatusAccepted in *. lia. }
    set (first := EvHTTP (mutation_request c m)
                    (Response code (Got (BodyJSON doc)))).
    assert (Hpend' : forall history req,
               (requests_sent history < requests_sent (t ++ [first]) + j)%nat ->
               reports "pending" (Do net history req)).
    { intros history rq Hh. apply Hpend.
      unfold first in Hh. rewrite requests_sent_one in Hh. lia. }
    assert (H429' : forall history req,
               requests_sent history = (requests_sent (t ++ [first]) + j)%nat ->
               exists b, Do net history req = Response StatusTooManyRequests b).
    { intros history rq Hh. apply H429.
      unfold first in Hh. rewrite requests_sent_one in Hh. lia. }
    destruct m as [domain name value ttl|url ttl]; simpl in Hdo, first.
    + destruct (UpdateTxtRecord_loop_rate_limited net c Haccept j fuel 5 reply
                  (t ++ [first]) Hst ltac:(lia) ltac:(lia) Hpend' H429')
        as (evs & req & b & Hloop & Hsent & Hlast).
      exists (first :: evs), req, b.
      split; [|split; [unfold requests_sent in *; simpl; lia
                      |rewrite last_cons, Hlast; reflexivity]].
      unfold run_mutation, bind at 1, UpdateTxtRecord, http_NewRequest.
      rewrite Haccept. unfold bind. rewrite doRequest_eq.
      fold (create_request c domain name value ttl).
      rewrite Hdo, Hrd, Hnot429, Hacc, Hdec. fold first.
      rewrite Hloop. unfold ret. now rewrite <- app_assoc.
    + destruct (DeleteTxtRecord_loop_rate_limited net c Haccept j fuel code 5
                  reply (t ++ [first]) H404 Hst ltac:(lia) ltac:(lia) Hpend'
                  H429')
        as (evs & req & b & Hloop & Hsent & Hlast).
      exists (first :: evs), req, b.
      split; [|split; [unfold requests_sent in *; simpl; lia
                      |rewrite last_cons, Hlast; reflexivity]].
      unfold run_mutation, DeleteTxtRecord, http_NewRequest.
      rewrite Haccept. unfold bind. rewrite doRequest_eq.
      fold (delete_request c url).
      rewrite Hdo, Hrd, Hnot429, Hacc, Hdec. fold first.
      rewrite Hloop. now rewrite <- app_assoc.
Qed.

Lemma rate_limit_ends_the_mutation_witness :
  let net := Fixture.scripted
               [Fixture.job 202 "pending"; Fixture.job 200 "pending";
                Response 429 (Got BodyNone)]
               Fixture.connection_refused in
  let create := Create "example.com" "_acme-challenge" "token-value"
                  variomediaMinTtl in
  let delete := Delete "https://api.variomedia.de/dns-records/815"
                  variomediaMinTtl in
  (exists evs req b,
     run_mutation 5 net Fixture.client0 create []
     = (Returns (Some err_rate_limit), [] ++ evs)
     /\ requests_sent evs = 3%nat
     /\ last evs = Some (EvHTTP req (Response StatusTooManyRequests b)))
  /\ (exists evs req b,
        run_mutation 5 net Fixture.client0 delete []
        = (Returns (Some err_rate_limit), [] ++ evs)
        /\ requests_sent evs = 3%nat
        /\ last evs = Some (EvHTTP req (Response StatusTooManyRequests b))).
Proof.
  intros net create delete.
  assert (Hpend : forall history req,
             (requests_sent history < requests_sent [] + 2)%nat ->
             reports "pending" (Do net history req)).
  { intros history req Hh. unfold net, Fixture.scripted. simpl.
    destruct (requests_sent history) as [|[|n]] eqn:E; simpl.
    - exists 202, (Fixture.job_doc "pending"). repeat split; auto.
    - exists 200, (Fixture.job_doc "pending"). repeat split; auto.
    - unfold requests_sent in Hh. simpl in Hh. lia. }
  assert (H429 : forall history req,
             requests_sent history = (requests_sent [] + 2)%nat ->
             exists b, Do net history req = Response StatusTooManyRequests b).
  { intros history req Hh. unfold net, Fixture.scripted. simpl.
    rewrite Hh. exists (Got BodyNone). reflexivity. }
  split.
  - destruct (rate_limit_ends_the_mutation 5 net Fixture.client0 create [])
      as [Hanswer _].
    apply (Hanswer 2%nat); [lia | lia | reflexivity | exact Hpend | exact H429].
  - destruct (rate_limit_ends_the_mutation 5 net Fixture.client0 delete [])
      as [Hanswer _].
    apply (Hanswer 2%nat); [lia | lia | reflexivity | exact Hpend | exact H429].
Defined.

(** ** Not-found answers to a delete *)

Section NotFound.
Variable net : Net.
Variable c : variomediaClient.

(** The DELETE itself answered with 404: the status check of the first
    response has no exception for 404. *)
Lemma DeleteTxtRecord_first_not_found (fuel : nat) (url : string) (ttl : Z)
    (t : Trace) (b : External body) :
  NewRequest_err net "DELETE" url = None ->
  Do net t (delete_request c url) = Response StatusNotFound b ->
  DeleteTxtRecord fuel net c url ttl t
  = (Returns (Some err_delete_status),
     t ++ [EvHTTP (delete_request c url) (Response StatusNotFound b)]).
Proof.
  intros Hurl Hdo. unfold DeleteTxtRecord, http_NewRequest. rewrite Hurl.
  unfold bind. rewrite doRequest_eq. fold (delete_request c url). rewrite Hdo.
  reflexivity.
Qed.

(** A re-fetch answered with 404 passes the status check, and then the
    decoding of the body that was not read fails. *)
Lemma DeleteTxtRecord_refetch_not_found (reply : variomediaResponse) (t : Trace)
    (b : External body) :
  NewRequest_err net "GET" (job_link reply "queue-job") = None ->
  Do net (t ++ [EvSleep statusLookupDelay]) (poll_request c reply)
  = Response StatusNotFound b ->
  fst (DeleteTxtRecord_refetch net c reply t)
  = Returns (Err (err_unmarshal (err_external "unexpected end of JSON input"))).
Proof.
  intros Hurl Hdo. unfold DeleteTxtRecord_refetch, http_NewRequest, time_Sleep.
  rewrite Hurl. unfold bind. rewrite doRequest_eq.
  fold (poll_request c reply). rewrite Hdo. reflexivity.
Qed.

(** The loop of [DeleteTxtRecord] starts with a status that passed the check
    of the first response, so its two tests for 404 are never true. *)
Lemma DeleteTxtRecord_loop_status (fuel : nat) (url : string) (ttl : Z)
    (t : Trace) (status : Z) (respData : body) (reply : variomediaResponse) :
  NewRequest_err net "DELETE" url = None ->
  read_response true (Do net t (delete_request c url)) = (status, respData, None) ->
  json_Unmarshal respData zero_reply = Ok reply ->
  status <> StatusTooManyRequests ->
  (status = StatusCreated \/ status = StatusOK \/ status = StatusAccepted) ->
  DeleteTxtRecord fuel net c url ttl t
  = DeleteTxtRecord_loop fuel net c status 5 reply
      (t ++ [EvHTTP (delete_request c url) (Do net t (delete_request c url))])
  /\ (status =? StatusNotFound) = false.
Proof.
  intros Hurl Hread Hdec H429 Hacc.
  unfold DeleteTxtRecord, http_NewRequest. rewrite Hurl.
  unfold bind. rewrite doRequest_eq. fold (delete_request c url). rewrite Hread.
  apply Z.eqb_neq in H429. rewrite H429.
  unfold StatusCreated, StatusOK, StatusAccepted, StatusNotFound in *.
  destruct Hacc as [-> | [-> | ->]]; cbn -[json_Unmarshal DeleteTxtRecord_loop];
    rewrite Hdec; split; reflexivity.
Qed.
End NotFound.

(** C1. A 404 response at any step of a delete ends the call there, but
    with an error, not with success: the "failed deleting TXT record" error
    when it answers the DELETE request, and the "cannot unmarshall response
    to json" error for the body that was not read when it answers a
    re-fetch of the job. *)
Theorem not_found_ends_the_delete_with_an_error (fuel : nat) (net : Net)
    (c : variomediaClient) (url : string) (ttl : Z) (t : Trace) (i : nat) :
  snd (DeleteTxtRecord fuel net c url ttl t) !! (length t + i)%nat
    ≫= response_status = Some StatusNotFound ->
  fst (DeleteTxtRecord fuel net c url ttl t)
  = Returns (Some match i with
                  | O => err_delete_status
                  | S _ => err_unmarshal unexpected_end
                  end)
  /\ length (snd (DeleteTxtRecord fuel net c url ttl t)) = S (length t + i).
Proof.
  destruct (DeleteTxtRecord_run net c fuel url ttl t)
    as (o & evs & -> & _ & Hfirst & Hlater & _).
  simpl. intros Hi. rewrite lookup_app_r in Hi by lia.
  replace (length t + i - length t)%nat with i in Hi by lia.
  rewrite length_app.
  destruct i as [|i].
  - destruct (Hfirst StatusNotFound err_delete_status eq_refl Hi) as [-> Hlen].
    split; [reflexivity | lia].
  - destruct (Hlater StatusNotFound (err_unmarshal unexpected_end) i eq_refl Hi)
      as [-> Hlen].
    split; [reflexivity | lia].
Qed.

Lemma not_found_ends_the_delete_with_an_error_witness :
  let answered := Fixture.scripted [Response StatusNotFound (Got BodyNone)]
                    Fixture.connection_refused in
  let polled := Fixture.scripted
                  [Fixture.job 202 "pending"; Response StatusNotFound (Got BodyNone)]
                  Fixture.connection_refused in
  let url := "https://api.variomedia.de/dns-records/815" in
  fst (DeleteTxtRecord 5 answered Fixture.client0 url variomediaMinTtl [])
  = Returns (Some err_delete_status)
  /\ fst (DeleteTxtRecord 5 polled Fixture.client0 url variomediaMinTtl [])
     = Returns (Some (err_unmarshal unexpected_end)).
Proof.
  split.
  - apply (not_found_ends_the_delete_with_an_error 5
             (Fixture.scripted [Response StatusNotFound (Got BodyNone)]
                Fixture.connection_refused)
             Fixture.client0 "https://api.variomedia.de/dns-records/815"
             variomediaMinTtl [] 0).
    reflexivity.
  - apply (not_found_ends_the_delete_with_an_error 5
             (Fixture.scripted
                [Fixture.job 202 "pending"; Response StatusNotFound (Got BodyNone)]
                Fixture.connection_refused)
             Fixture.client0 "https://api.variomedia.de/dns-records/815"
             variomediaMinTtl [] 2).
    reflexivity.
Defined.

(** ** Accepted and rejected statuses of a create *)

Section Rejected.
Variable net : Net.
Variable c : variomediaClient.

Lemma UpdateTxtRecord_refetch_rejects (reply : variomediaResponse) (t : Trace)
    (status : Z) :
  fst (UpdateTxtRecord_refetch net c reply t)
  = Returns (Err (err_create_status status)) ->
  outside_accepted status.
Proof.
  unfold UpdateTxtRecord_refetch, bind at 1, time_Sleep, http_NewRequest.
  destruct (NewRequest_err net "GET" (job_link reply "queue-job")) as [msg|];
    [discriminate|].
  unfold bind, outside_accepted. rewrite doRequest_eq.
  set (res := Do net _ _). clearbody res.
  unfold StatusTooManyRequests, StatusCreated, StatusOK, StatusAccepted in *.
  destruct res as [msg|code [data|msg]]; simpl; unfold ret; repeat case_match;
    simpl; intros Hr; simplify_eq; lia.
Qed.

Lemma UpdateTxtRecord_loop_rejects (fuel : nat) :
  forall (loopcount : Z) (reply : variomediaResponse) (t : Trace) (status : Z),
    fst (UpdateTxtRecord_loop fuel net c loopcount reply t)
    = Returns (Err (err_create_status status)) ->
    outside_accepted status.
Proof.
  induction fuel as [|fuel IH]; intros loopcount reply t status; [discriminate|].
  cbn [UpdateTxtRecord_loop]. unfold bind.
  destruct (String.eqb (job_status reply) "pending").
  - pose proof (UpdateTxtRecord_refetch_rejects reply t status) as Hstep.
    destruct (UpdateTxtRecord_refetch_run net c reply t) as (r & evs & E & _).
    rewrite E in Hstep |- *. simpl in Hstep.
    destruct r as [reply'|e]; [|intros [= ->]; now apply Hstep].
    destruct (String.eqb (job_status reply') "done"); [discriminate|].
    destruct (wrap_int (loopcount - 1) =? 0); [discriminate|]. apply IH.
  - unfold ret.
    destruct (String.eqb (job_status reply) "done"); [discriminate|].
    destruct (wrap_int (loopcount - 1) =? 0); [discriminate|]. apply IH.
Qed.
End Rejected.

(** Let the POST of a create be answered and [doRequest] return its status
    and data without an error. With a status among 201, 200 and 202 the call
    goes on to decode the data: a decoding error is returned as such, and a
    decoded job whose status is "done" makes the call return the job's
    "dns-record" link. With a status outside 201, 200 and 202 (and other
    than 429) the call returns the status error; and whenever the call
    returns a status error, its status is outside 201, 200 and 202. *)
Lemma accepted_status_is_decoded (fuel : nat) (net : Net)
    (c : variomediaClient) (domain name value : string) (ttl : Z) (t : Trace)
    (status : Z) (respData : body) :
  NewRequest_err net "POST" variomediaLiveDnsBaseUrl = None ->
  read_response true (Do net t (create_request c domain name value ttl))
  = (status, respData, None) ->
  let run := fst (UpdateTxtRecord fuel net c domain name value ttl t) in
  (status = StatusCreated \/ status = StatusOK \/ status = StatusAccepted ->
   (forall e, json_Unmarshal respData zero_reply = Err e ->
              run = Returns (Err (err_unmarshal e)))
   /\ (forall reply, json_Unmarshal respData zero_reply = Ok reply ->
                     job_status reply = "done" -> (1 <= fuel)%nat ->
                     run = Returns (Ok (job_link reply "dns-record"))))
  /\ (outside_accepted status -> status <> StatusTooManyRequests ->
      run = Returns (Err (err_create_status status)))
  /\ (forall s, run = Returns (Err (err_create_status s)) -> outside_accepted s).
Proof.
  intros Hurl Hread run.
  assert (Hrun : run = fst (
    (if status =? StatusTooManyRequests then ret (Err err_rate_limit)
     else if negb (status =? StatusCreated) && negb (status =? StatusOK)
             && negb (status =? StatusAccepted)
     then ret (Err (err_create_status status))
     else match json_Unmarshal respData zero_reply with
          | Err e => ret (Err (err_unmarshal e))
          | Ok reply => UpdateTxtRecord_loop fuel net c 5 reply
          end)
      (t ++ [EvHTTP (create_request c domain name value ttl)
               (Do net t (create_request c domain name value ttl))]))).
  { subst run. unfold UpdateTxtRecord, http_NewRequest. rewrite Hurl.
    unfold bind. rewrite doRequest_eq.
    fold (create_request c domain name value ttl). now rewrite Hread. }
  clearbody run. subst run.
  unfold outside_accepted, StatusTooManyRequests, StatusCreated, StatusOK,
    StatusAccepted.
  split; [|split].
  - intros Hacc.
    assert ((status =? 429) = false) as -> by lia.
    assert (negb (status =? 201) && negb (status =? 200) && negb (status =? 202)
            = false) as -> by lia.
    split.
    + intros e ->. reflexivity.
    + intros reply -> Hdone Hfuel.
      destruct fuel as [|fuel]; [lia|].
      cbn [UpdateTxtRecord_loop]. unfold bind.
      replace (String.eqb (job_status reply) "pending") with false
        by now rewrite Hdone.
      unfold ret. now rewrite Hdone.
  - intros Hout H429.
    assert ((status =? 429) = false) as -> by lia.
    assert (negb (status =? 201) && negb (status =? 200) && negb (status =? 202)
            = true) as -> by lia.
    reflexivity.
  - intros s.
    destruct (status =? 429); [discriminate|].
    destruct (negb (status =? 201) && negb (status =? 200)
              && negb (status =? 202)) eqn:Eout.
    + intros [= <-]. lia.
    + destruct (json_Unmarshal respData zero_reply) as [reply|e]; [|discriminate].
      apply UpdateTxtRecord_loop_rejects.
Qed.

(** C3. A 201 response at any step of a create, to the POST or to a
    re-fetch and whatever its body, passes the status check but ends the
    call with the "cannot unmarshall response to json" error: [doRequest]
    reads no body for 201, so there is no job descriptor to decode and no
    record URL is returned. *)
Theorem created_ends_the_create_with_a_decoding_error (fuel : nat) (net : Net)
    (c : variomediaClient) (domain name value : string) (ttl : Z) (t : Trace)
    (i : nat) :
  snd (UpdateTxtRecord fuel net c domain name value ttl t) !! (length t + i)%nat
    ≫= response_status = Some StatusCreated ->
  fst (UpdateTxtRecord fuel net c domain name value ttl t)
  = Returns (Err (err_unmarshal unexpected_end))
  /\ length (snd (UpdateTxtRecord fuel net c domain name value ttl t))
     = S (length t + i).
Proof.
  destruct (UpdateTxtRecord_run net c fuel domain name value ttl t)
    as (o & evs & -> & _ & Hterm & _).
  simpl. intros Hi. rewrite lookup_app_r in Hi by lia.
  replace (length t + i - length t)%nat with i in Hi by lia.
  destruct (Hterm StatusCreated (err_unmarshal unexpected_end) eq_refl i Hi)
    as [-> Hlen].
  split; [reflexivity|]. rewrite length_app. lia.
Qed.

Lemma created_ends_the_create_with_a_decoding_error_witness :
  fst (UpdateTxtRecord 5
         (Fixture.scripted [Fixture.job 201 "done"] Fixture.connection_refused)
         Fixture.client0 "example.com" "_acme-challenge.foo" "token-value"
         variomediaMinTtl [])
  = Returns (Err (err_unmarshal unexpected_end))
  /\ length (snd (UpdateTxtRecord 5
                    (Fixture.scripted [Fixture.job 201 "done"]
                       Fixture.connection_refused)
                    Fixture.client0 "example.com" "_acme-challenge.foo"
                    "token-value" variomediaMinTtl []))
     = 1%nat.
Proof.
  apply (created_ends_the_create_with_a_decoding_error 5
           (Fixture.scripted [Fixture.job 201 "done"] Fixture.connection_refused)
           Fixture.client0 "example.com" "_acme-challenge.foo" "token-value"
           variomediaMinTtl [] 0).
  reflexivity.
Defined.

(** The same finished job delivered with 200 or with 202 is decoded and its
    record URL returned. *)
Example finished_job_is_decoded :
  (forall fuel : nat,
     fst (UpdateTxtRecord (S fuel)
            (Fixture.scripted [Fixture.job 200 "done"] Fixture.connection_refused)
            Fixture.client0 "example.com" "_acme-challenge.foo" "token-value"
            variomediaMinTtl [])
     = Returns (Ok "https://api.variomedia.de/dns-records/815"))
  /\ (forall fuel : nat,
        fst (UpdateTxtRecord (S fuel)
               (Fixture.scripted [Fixture.job 202 "done"] Fixture.connection_refused)
               Fixture.client0 "example.com" "_acme-challenge.foo" "token-value"
               variomediaMinTtl [])
        = Returns (Ok "https://api.variomedia.de/dns-records/815")).
Proof. split; intros fuel; reflexivity. Qed.

(** ** Credential resolution *)

Section Credentials.
Variable rng : MapRange.
Variable c : customDNSProviderSolver.
Variable namespace : string.

Lemma loadApiKeys_range_fails (domain secretName : string) (todo : list string) :
  forall cfg : gmap string string,
    domain ∈ todo -> cfg !! domain = Some secretName ->
    unresolved c namespace secretName ->
    exists e, loadApiKeys_range c namespace todo cfg = (None, Some e)
              /\ resolution_error namespace e.
Proof.
  induction todo as [|d todo IH]; intros cfg Hin Hcfg Hbad.
  - now apply elem_of_nil in Hin.
  - cbn [loadApiKeys_range]. unfold resolution_error.
    destruct (client c namespace (default "" (cfg !! d))) as [sec|msg] eqn:Eget;
      [|eauto 6].
    destruct (map_lookup (SecretData sec) "api-token") as [secBytes|] eqn:Etok;
      [|eauto 6].
    destruct (decide (d = domain)) as [->|Hne].
    + rewrite Hcfg in Eget. simpl in Eget.
      rewrite (Hbad sec Eget) in Etok. discriminate.
    + apply IH; [|now rewrite lookup_insert_ne|exact Hbad].
      apply elem_of_cons in Hin as [->|Hin]; [now destruct Hne | exact Hin].
Qed.

Lemma range_keys_elem (m : gmap string string) (domain secretName : string) :
  m !! domain = Some secretName -> domain ∈ range_keys rng m.
Proof.
  intros Hm. rewrite (range_keys_perm rng m).
  apply list_elem_of_fmap. exists (domain, secretName).
  split; [reflexivity|]. now apply elem_of_map_to_list.
Qed.

Lemma range_keys_empty : range_keys rng ∅ = [].
Proof.
  apply Permutation_nil_r. rewrite (range_keys_perm rng ∅).
  now rewrite map_to_list_empty.
Qed.

(** Without a configuration there is nothing to resolve. *)
Lemma loadApiKeys_nil : loadApiKeys rng c None namespace = (Some ∅, None).
Proof. unfold loadApiKeys. simpl. now rewrite range_keys_empty. Qed.
End Credentials.

(** C6, as the code has it. If the secret of any configured domain does not
    resolve, credential resolution returns an error together with the [nil]
    map, whatever the order in which the domains are visited: what was
    resolved before the failure is dropped. *)
Theorem loadApiKeys_failure_returns_nil (rng : MapRange)
    (c : customDNSProviderSolver) (namespace : string)
    (m : gmap string string) (domain secretName : string) :
  m !! domain = Some secretName ->
  unresolved c namespace secretName ->
  exists e, loadApiKeys rng c (Some (RawObject m)) namespace = (None, Some e)
            /\ resolution_error namespace e.
Proof.
  intros Hm Hbad. unfold loadApiKeys. simpl. rewrite (right_id_L ∅ (∪) m).
  apply (loadApiKeys_range_fails c namespace domain secretName); try assumption.
  now apply (range_keys_elem rng m domain secretName).
Qed.

Lemma loadApiKeys_failure_returns_nil_witness :
  exists e, loadApiKeys Fixture.in_order Fixture.cluster
              (Fixture.config "variomedia-credentials-02") "cert-manager"
            = (None, Some e)
            /\ resolution_error "cert-manager" e.
Proof.
  apply (loadApiKeys_failure_returns_nil Fixture.in_order Fixture.cluster
           "cert-manager" {[ "example.com" := "variomedia-credentials-02" ]}
           "example.com" "variomedia-credentials-02").
  - reflexivity.
  - intros sec Hsec. discriminate Hsec.
Defined.

(** C6 as stated fails: with two configured domains of which the first
    visited resolves and the second does not, the map built so far holds the
    first domain's API key, yet [loadApiKeys] returns the [nil] map with the
    error. *)
Lemma loadApiKeys_drops_the_map_built_so_far :
  let cfg : gmap string string :=
    {[ "example.org" := "variomedia-credentials-01";
       "example.com" := "variomedia-credentials-02" ]} in
  range_keys Fixture.in_order cfg = ["example.org"; "example.com"]
  /\ loadApiKeys_range Fixture.cluster "cert-manager" ["example.org"] cfg
     = (Some (<["example.org" := "s3cr3t"]> cfg), None)
  /\ loadApiKeys Fixture.in_order Fixture.cluster (Some (RawObject cfg)) "cert-manager"
     = (None, Some (err_get_secret "variomedia-credentials-02"
                      (err_external "secrets not found")))
  /\ fst (loadApiKeys Fixture.in_order Fixture.cluster (Some (RawObject cfg))
            "cert-manager")
     <> Some (<["example.org" := "s3cr3t"]> cfg).
Proof.
  intros cfg. split; [vm_compute; reflexivity|].
  split; [vm_compute; reflexivity|].
  split; [vm_compute; reflexivity|].
  vm_compute. discriminate.
Qed.

(** ** The entry location cache *)

Lemma cache_get_absent (cache : Cache) (domain entry key : string) :
  map_lookup cache domain = None
  \/ map_lookup (map_index None cache domain) entry = None
  \/ map_lookup (map_index None (map_index None cache domain) entry) key = None ->
  cache_get cache domain entry key = "".
Proof.
  unfold cache_get, map_index, map_lookup.
  destruct cache as [g0|]; [|reflexivity].
  destruct (g0 !! domain) as [[g1|]|]; simpl; try reflexivity.
  destruct (g1 !! entry) as [[g2|]|]; simpl; try reflexivity.
  intros [H|[H|H]]; try discriminate. now rewrite H.
Qed.

Lemma cache_delete_absent (cache : Cache) (domain entry key : string) :
  map_lookup cache domain = None
  \/ map_lookup (map_index None cache domain) entry = None
  \/ map_lookup (map_index None (map_index None cache domain) entry) key = None ->
  cache_delete cache domain entry key = cache.
Proof.
  unfold cache_delete, map_index, map_lookup.
  destruct cache as [g0|]; [|reflexivity].
  destruct (g0 !! domain) as [[g1|]|] eqn:E0; simpl; try reflexivity.
  destruct (g1 !! entry) as [[g2|]|] eqn:E1; simpl; try reflexivity.
  intros [H|[H|H]]; try discriminate.
  rewrite (delete_id g2 key H), (insert_id g1 entry _ E1).
  now rewrite (insert_id g0 domain _ E0).
Qed.

(** After the deletion the entry reads as the empty string. *)
Lemma cache_get_delete (cache : Cache) (domain entry key : string) :
  cache_get (cache_delete cache domain entry key) domain entry key = "".
Proof.
  unfold cache_get, cache_delete, map_index, map_lookup.
  destruct cache as [g0|]; [|reflexivity].
  destruct (g0 !! domain) as [[g1|]|] eqn:E0; simpl; rewrite ?E0; try reflexivity.
  destruct (g1 !! entry) as [[g2|]|] eqn:E1; simpl; rewrite ?E0; simpl;
    rewrite ?E1; try reflexivity.
  rewrite lookup_insert_eq. simpl. rewrite lookup_insert_eq. simpl.
  now rewrite lookup_delete_eq.
Qed.

Lemma CleanUp_never_panics (fuel : nat) (net : Net) (rng : MapRange)
    (c : customDNSProviderSolver) (ch : ChallengeRequest) (w : World)
    (msg : string) :
  fst (CleanUp fuel net rng c ch w) <> Panics msg.
Proof.
  unfold CleanUp.
  destruct (loadApiKeys rng c (Config ch) (ResourceNamespace ch)) as [cfg [e|]];
    [discriminate|].
  destruct (getDomainAndEntryAndApiKey ch cfg) as [[[entry domain] key] [e|]];
    [discriminate|].
  unfold bind, call_client.
  destruct (DeleteTxtRecord_run net (NewvariomediaClient key) fuel
              (cache_get (DnsEntryURL w) domain entry (Key ch)) variomediaMinTtl
              (trace w)) as (o & evs & -> & Hpanic & _).
  destruct o as [[e|]| |]; simpl; try discriminate.
  apply Hpanic.
Qed.

(** C9. When the cache has no URL for (domain, entry, key), because the
    domain, the entry or the key is missing (or the cache itself is [nil]),
    reading [DnsEntryURL[domain][entry][key]] gives the empty string,
    [delete(DnsEntryURL[domain][entry], key)] changes nothing, and [CleanUp]
    does not panic. *)
Theorem cache_access_is_total (cache : Cache) (domain entry key : string) :
  map_lookup cache domain = None
  \/ map_lookup (map_index None cache domain) entry = None
  \/ map_lookup (map_index None (map_index None cache domain) entry) key = None ->
  cache_get cache domain entry key = ""
  /\ cache_delete cache domain entry key = cache
  /\ (forall fuel net rng c ch t msg,
        fst (CleanUp fuel net rng c ch {| trace := t; DnsEntryURL := cache |})
        <> Panics msg).
Proof.
  intros Habsent. split; [now apply cache_get_absent|].
  split; [now apply cache_delete_absent|].
  intros. apply CleanUp_never_panics.
Qed.

Lemma cache_access_is_total_witness :
  cache_get make_map "example.com" "_acme-challenge.foo" "token-value" = ""
  /\ cache_delete make_map "example.com" "_acme-challenge.foo" "token-value"
     = make_map
  /\ (forall fuel net rng c ch t msg,
        fst (CleanUp fuel net rng c ch {| trace := t; DnsEntryURL := make_map |})
        <> Panics msg).
Proof.
  apply (cache_access_is_total make_map "example.com" "_acme-challenge.foo"
           "token-value").
  left. reflexivity.
Defined.

(** ** Present and CleanUp *)

(** C10. With a [nil] configuration blob [loadConfig] returns the empty map
    and no error, and [Present] and [CleanUp] then fail at the challenge
    mapping with the domain-not-found error for the zone without its dot,
    wrapped with the zone; nothing is sent and the cache is left alone. *)
Theorem nil_config_fails_at_mapping (fuel : nat) (net : Net) (rng : MapRange)
    (c : customDNSProviderSolver) (ch : ChallengeRequest) (w : World) :
  Config ch = None ->
  let not_configured :=
    err_domain_key (ResolvedZone ch)
      (err_domain_not_found (strings.TrimSuffix (ResolvedZone ch) ".")) in
  loadConfig (Config ch) = (Some ∅, None)
  /\ Present fuel net rng c ch w = (Returns (Some not_configured), w)
  /\ CleanUp fuel net rng c ch w = (Returns (Some not_configured), w).
Proof.
  intros Hnil. unfold Present, CleanUp.
  rewrite Hnil, loadApiKeys_nil. unfold getDomainAndEntryAndApiKey.
  simpl. rewrite lookup_empty. repeat split; reflexivity.
Qed.

Lemma nil_config_fails_at_mapping_witness :
  let not_configured :=
    err_domain_key "example.com." (err_domain_not_found "example.com") in
  loadConfig None = (Some ∅, None)
  /\ Present 5 Fixture.live Fixture.in_order Fixture.cluster
       (Fixture.challenge None) Fixture.started
     = (Returns (Some not_configured), Fixture.started)
  /\ CleanUp 5 Fixture.live Fixture.in_order Fixture.cluster
       (Fixture.challenge None) Fixture.started
     = (Returns (Some not_configured), Fixture.started).
Proof.
  apply (nil_config_fails_at_mapping 5 Fixture.live Fixture.in_order
           Fixture.cluster (Fixture.challenge None) Fixture.started).
  reflexivity.
Defined.

(** C2, as the code has it. A [CleanUp] that succeeds leaves no URL in the
    cache for its challenge, so a second [CleanUp] with the same input is a
    cache miss; and on a cache miss [CleanUp] does not stop: it calls
    [DeleteTxtRecord] with the empty URL and returns what that call returns,
    an error being wrapped as "unable to delete TXT record". *)
Theorem CleanUp_on_cache_miss (fuel : nat) (net : Net) (rng : MapRange)
    (c : customDNSProviderSolver) (ch : ChallengeRequest) (w : World)
    (cfg : customDNSProviderConfig) (entry domain key : string) :
  loadApiKeys rng c (Config ch) (ResourceNamespace ch) = (cfg, None) ->
  getDomainAndEntryAndApiKey ch cfg = (entry, domain, key, None) ->
  (fst (CleanUp fuel net rng c ch w) = Returns None ->
   cache_get (DnsEntryURL (snd (CleanUp fuel net rng c ch w))) domain entry (Key ch)
   = "")
  /\ (cache_get (DnsEntryURL w) domain entry (Key ch) = "" ->
      let del := DeleteTxtRecord fuel net (NewvariomediaClient key) ""
                   variomediaMinTtl (trace w) in
      fst (CleanUp fuel net rng c ch w) = cleanup_outcome (fst del)
      /\ trace (snd (CleanUp fuel net rng c ch w)) = snd del).
Proof.
  intros Hkeys Hmap. unfold CleanUp. rewrite Hkeys, Hmap.
  unfold bind, call_client. split.
  - destruct (DeleteTxtRecord fuel net (NewvariomediaClient key)
                (cache_get (DnsEntryURL w) domain entry (Key ch))
                variomediaMinTtl (trace w)) as [[[e|]| |] t'];
      simpl; try discriminate.
    intros _. apply cache_get_delete.
  - intros ->.
    destruct (DeleteTxtRecord fuel net (NewvariomediaClient key) ""
                variomediaMinTtl (trace w)) as [[[e|]| |] t'];
      simpl; split; reflexivity.
Qed.

Lemma CleanUp_on_cache_miss_witness :
  let ch := Fixture.challenge (Fixture.config "variomedia-credentials-01") in
  let run := CleanUp 5 Fixture.live Fixture.in_order Fixture.cluster ch
               Fixture.started in
  let del := DeleteTxtRecord 5 Fixture.live (NewvariomediaClient "s3cr3t") ""
               variomediaMinTtl [] in
  fst run = cleanup_outcome (fst del) /\ trace (snd run) = snd del.
Proof.
  apply (CleanUp_on_cache_miss 5 Fixture.live Fixture.in_order Fixture.cluster
           (Fixture.challenge (Fixture.config "variomedia-credentials-01"))
           Fixture.started (Some {[ "example.com" := "s3cr3t" ]})
           "_acme-challenge.foo" "example.com" "s3cr3t").
  - vm_compute. reflexivity.
  - vm_compute. reflexivity.
  - reflexivity.
Defined.

(** On a cache miss, when the HTTP client gives no response to the request
    without a URL, [CleanUp] returns that error. *)
Lemma CleanUp_without_url_fails (fuel : nat) (net : Net) (rng : MapRange)
    (c : customDNSProviderSolver) (ch : ChallengeRequest) (w : World)
    (cfg : customDNSProviderConfig) (entry domain key msg : string) :
  loadApiKeys rng c (Config ch) (ResourceNamespace ch) = (cfg, None) ->
  getDomainAndEntryAndApiKey ch cfg = (entry, domain, key, None) ->
  cache_get (DnsEntryURL w) domain entry (Key ch) = "" ->
  NewRequest_err net "DELETE" "" = None ->
  Do net (trace w) (delete_request (NewvariomediaClient key) "") = NoResponse msg ->
  fst (CleanUp fuel net rng c ch w)
  = Returns (Some (err_delete_txt (err_external msg))).
Proof.
  intros Hkeys Hmap Hmiss Hurl Hdo. unfold CleanUp. rewrite Hkeys, Hmap.
  unfold bind at 1. rewrite Hmiss. unfold bind, call_client, DeleteTxtRecord,
    http_NewRequest.
  rewrite Hurl. unfold bind. rewrite doRequest_eq.
  fold (delete_request (NewvariomediaClient key) ""). rewrite Hdo. reflexivity.
Qed.

(** C2 as stated fails: after a [Present] and a [CleanUp] that succeed, the
    same [CleanUp] again finds no URL, sends its DELETE without a URL, which
    the HTTP client refuses, and returns the error. *)
Lemma second_CleanUp_returns_an_error :
  let ch := Fixture.challenge (Fixture.config "variomedia-credentials-01") in
  let present := Present 5 Fixture.live Fixture.in_order Fixture.cluster ch
                   Fixture.started in
  let first := CleanUp 5 Fixture.live Fixture.in_order Fixture.cluster ch
                 (snd present) in
  let second := CleanUp 5 Fixture.live Fixture.in_order Fixture.cluster ch
                  (snd first) in
  fst present = Returns None
  /\ cache_get (DnsEntryURL (snd present)) "example.com" "_acme-challenge.foo"
       "token-value" = "https://api.variomedia.de/dns-records/815"
  /\ fst first = Returns None
  /\ cache_get (DnsEntryURL (snd first)) "example.com" "_acme-challenge.foo"
       "token-value" = ""
  /\ fst second
     = Returns (Some (err_delete_txt (err_external "unsupported protocol scheme"))).
Proof. vm_compute. repeat split; reflexivity. Qed.

(** ** The shape of a run of the client *)

Section Shape.
Variable net : Net.
Variable c : variomediaClient.

(** One re-fetch: the sleep, and the request for the job's link unless that
    link is refused; its reply, when it has one, is decoded from the body of
    a 200 or 202 answer. The same holds for the re-fetch of a delete. *)
Lemma UpdateTxtRecord_refetch_shape (reply : variomediaResponse) (t : Trace) :
  exists r evs,
    UpdateTxtRecord_refetch net c reply t = (Returns r, t ++ evs)
    /\ ((evs = [EvSleep statusLookupDelay] /\ exists e, r = Err e)
        \/ exists res,
             evs = [EvSleep statusLookupDelay; EvHTTP (poll_request c reply) res]
             /\ forall reply', r = Ok reply' ->
                  exists code data,
                    res = Response code (Got data)
                    /\ (code = StatusOK \/ code = StatusAccepted)
                    /\ json_Unmarshal data reply = Ok reply').
Proof.
  unfold UpdateTxtRecord_refetch, bind at 1, time_Sleep, http_NewRequest.
  destruct (NewRequest_err net "GET" (job_link reply "queue-job")) as [msg|].
  - eexists _, _. split; [reflexivity|]. left. eauto.
  - unfold bind. rewrite doRequest_eq, <- app_assoc.
    fold (poll_request c reply).
    set (res := Do net _ _). clearbody res.
    unfold StatusTooManyRequests, StatusCreated, StatusOK, StatusAccepted in *.
    destruct res as [msg|code [data|msg]]; simpl; unfold ret; repeat case_match;
      simplify_eq; eexists _, _; (split; [reflexivity|]); right; eexists;
      (split; [reflexivity|]); intros reply' Hr; simplify_eq;
      try (simpl in *; discriminate);
      eexists _, _; (split; [reflexivity|]);
      unfold StatusOK, StatusAccepted in *; split; [lia | assumption].
Qed.

Lemma DeleteTxtRecord_refetch_shape (reply : variomediaResponse) (t : Trace) :
  exists r evs,
    DeleteTxtRecord_refetch net c reply t = (Returns r, t ++ evs)
    /\ ((evs = [EvSleep statusLookupDelay] /\ exists e, r = Err e)
        \/ exists res,
             evs = [EvSleep statusLookupDelay; EvHTTP (poll_request c reply) res]
             /\ forall reply', r = Ok reply' ->
                  exists code data,
                    res = Response code (Got data)
                    /\ (code = StatusOK \/ code = StatusAccepted)
                    /\ json_Unmarshal data reply = Ok reply').
Proof.
  unfold DeleteTxtRecord_refetch, bind at 1, time_Sleep, http_NewRequest.
  destruct (NewRequest_err net "GET" (job_link reply "queue-job")) as [msg|].
  - eexists _, _. split; [reflexivity|]. left. eauto.
  - unfold bind. rewrite doRequest_eq, <- app_assoc.
    fold (poll_request c reply).
    set (res := Do net _ _). clearbody res.
    unfold StatusTooManyRequests, StatusCreated, StatusOK, StatusAccepted,
      StatusNotFound in *.
    destruct res as [msg|code [data|msg]]; simpl; unfold ret; repeat case_match;
      simplify_eq; eexists _, _; (split; [reflexivity|]); right; eexists;
      (split; [reflexivity|]); intros reply' Hr; simplify_eq;
      try (simpl in *; discriminate);
      eexists _, _; (split; [reflexivity|]);
      unfold StatusOK, StatusAccepted in *; split; [lia | assumption].
Qed.
End Shape.

Section LoopShape.
Variable net : Net.
Variable c : variomediaClient.

(** A decoding that turns the status into "done" read it from the document. *)
Lemma json_Unmarshal_done (data : body) (reply reply' : variomediaResponse) :
  json_Unmarshal data reply = Ok reply' ->
  job_status reply' = "done" -> job_status reply <> "done" ->
  exists doc, data = BodyJSON doc /\ doc_status doc = Some "done".
Proof.
  destruct data as [|msg|doc]; simpl; try discriminate.
  intros [= <-] Hdone Hnot. exists doc. split; [reflexivity|].
  unfold job_status, doc_status, map_index, map_lookup in *. simpl in *.
  destruct (j_data doc) as [| |j]; simpl in *; try (now destruct Hnot).
  destruct (j_attributes j) as [| |attrs]; simpl in *;
    try (now destruct Hnot); try discriminate.
  destruct (attrs !! "status") as [s|] eqn:E.
  - rewrite (lookup_union_Some_l attrs _ _ _ E) in Hdone. simpl in Hdone.
    now subst.
  - rewrite (lookup_union_r attrs _ _ E) in Hdone.
    destruct (Attributes (Data reply)) as [g|]; simpl in *;
      [now destruct Hnot | rewrite lookup_empty in Hdone; discriminate].
Qed.

(** A poll loop of a create: its events are rounds of sleep and re-fetch,
    and it returns a URL only right after an answer that reports "done",
    or at once when the reply it starts with is done. *)
Lemma UpdateTxtRecord_loop_shape (fuel : nat) :
  forall (loopcount : Z) (reply : variomediaResponse) (t : Trace),
  exists o evs,
    UpdateTxtRecord_loop fuel net c loopcount reply t = (o, t ++ evs)
    /\ poll_events c evs
    /\ (forall url, o = Returns (Ok url) ->
          (job_status reply = "done" /\ evs = [])
          \/ exists e, last evs = Some e /\ done_response e).
Proof.
  induction fuel as [|fuel IH]; intros loopcount reply t.
  - exists OutOfFuel, []. rewrite app_nil_r. split; [reflexivity|].
    split; [constructor | discriminate].
  - cbn [UpdateTxtRecord_loop]. unfold bind.
    destruct (String.eqb (job_status reply) "pending") eqn:Epending.
    + apply String.eqb_eq in Epending.
      destruct (UpdateTxtRecord_refetch_shape net c reply t)
        as (r & evs1 & -> & [[-> [e ->]]|[res [-> Hres]]]).
      { eexists _, _. split; [reflexivity|]. split; [constructor|discriminate]. }
      destruct r as [reply'|e];
        [|eexists _, _; split; [reflexivity|];
          split; [repeat constructor | discriminate]].
      destruct (Hres reply' eq_refl) as (code & data & -> & Hcode & Hdec).
      destruct (String.eqb (job_status reply') "done") eqn:Edone.
      { apply String.eqb_eq in Edone.
        eexists _, _. split; [reflexivity|]. split; [repeat constructor|].
        intros url _. right. eexists. split; [reflexivity|].
        destruct (json_Unmarshal_done data reply reply' Hdec Edone)
          as (doc & -> & Hdoc); [congruence|].
        exists (poll_request c reply), (Response code (Got (BodyJSON doc))).
        split; [reflexivity|]. exists code, doc. auto. }
      destruct (wrap_int (loopcount - 1) =? 0).
      { eexists _, _. split; [reflexivity|].
        split; [repeat constructor | discriminate]. }
      destruct (IH (wrap_int (loopcount - 1)) reply'
                  (t ++ [EvSleep statusLookupDelay;
                         EvHTTP (poll_request c reply)
                           (Response code (Got data))]))
        as (o & evs2 & -> & Hpoll & Hok).
      eexists o, (_ ++ evs2). rewrite app_assoc. split; [reflexivity|].
      split; [now constructor|].
      intros url Ho. right.
      destruct (Hok url Ho) as [[Hd _]|(e & Hlast & He)].
      * apply String.eqb_neq in Edone. now destruct Edone.
      * exists e. split; [|exact He].
        change (last ([EvSleep statusLookupDelay;
                       EvHTTP (poll_request c reply) (Response code (Got data))]
                      ++ evs2) = Some e).
        apply last_app_Some. now left.
    + unfold ret.
      destruct (String.eqb (job_status reply) "done") eqn:Edone.
      { apply String.eqb_eq in Edone.
        exists (Returns (Ok (job_link reply "dns-record"))), [].
        rewrite app_nil_r. split; [reflexivity|]. split; [constructor|].
        intros url _. left. auto. }
      destruct (wrap_int (loopcount - 1) =? 0).
      { eexists _, []. rewrite app_nil_r. split; [reflexivity|].
        split; [constructor | discriminate]. }
      destruct (IH (wrap_int (loopcount - 1)) reply t)
        as (o & evs2 & -> & Hpoll & Hok).
      exists o, evs2. split; [reflexivity|]. split; [exact Hpoll|].
      intros url Ho. right.
      destruct (Hok url Ho) as [[Hd _]|H]; [|exact H].
      apply String.eqb_neq in Edone. now destruct Edone.
Qed.
End LoopShape.

Section DeleteShape.
Variable net : Net.
Variable c : variomediaClient.

(** A poll loop of a delete, with the status of the DELETE other than 404 as
    it always is: as for a create. *)
Lemma DeleteTxtRecord_loop_shape (fuel : nat) :
  forall (status loopcount : Z) (reply : variomediaResponse) (t : Trace),
  exists o evs,
    DeleteTxtRecord_loop fuel net c status loopcount reply t = (o, t ++ evs)
    /\ poll_events c evs
    /\ ((status =? StatusNotFound) = false -> o = Returns None ->
          (job_status reply = "done" /\ evs = [])
          \/ exists e, last evs = Some e /\ done_response e).
Proof.
  induction fuel as [|fuel IH]; intros status loopcount reply t.
  - exists OutOfFuel, []. rewrite app_nil_r. split; [reflexivity|].
    split; [constructor | discriminate].
  - cbn [DeleteTxtRecord_loop]. unfold bind.
    destruct (status =? StatusNotFound) eqn:E404.
    { rewrite andb_false_r. unfold ret.
      eexists _, []. rewrite app_nil_r. split; [reflexivity|].
      split; [constructor | discriminate]. }
    rewrite andb_true_r.
    destruct (String.eqb (job_status reply) "pending") eqn:Epending.
    + apply String.eqb_eq in Epending.
      destruct (DeleteTxtRecord_refetch_shape net c reply t)
        as (r & evs1 & -> & [[-> [e ->]]|[res [-> Hres]]]).
      { eexists _, _. split; [reflexivity|]. split; [constructor|discriminate]. }
      destruct r as [reply'|e];
        [|eexists _, _; split; [reflexivity|];
          split; [repeat constructor | discriminate]].
      destruct (Hres reply' eq_refl) as (code & data & -> & Hcode & Hdec).
      destruct (String.eqb (job_status reply') "done") eqn:Edone.
      { apply String.eqb_eq in Edone.
        eexists _, _. split; [reflexivity|]. split; [repeat constructor|].
        intros _ _. right. eexists. split; [reflexivity|].
        destruct (json_Unmarshal_done data reply reply' Hdec Edone)
          as (doc & -> & Hdoc); [congruence|].
        exists (poll_request c reply), (Response code (Got (BodyJSON doc))).
        split; [reflexivity|]. exists code, doc. auto. }
      destruct (wrap_int (loopcount - 1) =? 0).
      { eexists _, _. split; [reflexivity|].
        split; [repeat constructor | discriminate]. }
      destruct (IH status (wrap_int (loopcount - 1)) reply'
                  (t ++ [EvSleep statusLookupDelay;
                         EvHTTP (poll_request c reply)
                           (Response code (Got data))]))
        as (o & evs2 & -> & Hpoll & Hok).
      eexists o, (_ ++ evs2). rewrite app_assoc. split; [reflexivity|].
      split; [now constructor|].
      intros _ Ho. right.
      destruct (Hok E404 Ho) as [[Hd _]|(e & Hlast & He)].
      * apply String.eqb_neq in Edone. now destruct Edone.
      * exists e. split; [|exact He].
        change (last ([EvSleep statusLookupDelay;
                       EvHTTP (poll_request c reply) (Response code (Got data))]
                      ++ evs2) = Some e).
        apply last_app_Some. now left.
    + unfold ret.
      destruct (String.eqb (job_status reply) "done") eqn:Edone.
      { apply String.eqb_eq in Edone.
        exists (Returns None), [].
        rewrite app_nil_r. split; [reflexivity|]. split; [constructor|].
        intros _ _. left. auto. }
      destruct (wrap_int (loopcount - 1) =? 0).
      { eexists _, []. rewrite app_nil_r. split; [reflexivity|].
        split; [constructor | discriminate]. }
      destruct (IH status (wrap_int (loopcount - 1)) reply t)
        as (o & evs2 & -> & Hpoll & Hok).
      exists o, evs2. split; [reflexivity|]. split; [exact Hpoll|].
      intros _ Ho. right.
      destruct (Hok E404 Ho) as [[Hd _]|H]; [|exact H].
      apply String.eqb_neq in Edone. now destruct Edone.
Qed.

(** The first answer, when the call goes on to its poll loop with the reply
    decoded from it. *)
Lemma first_reply_done (req : Request) (code : Z) (data : body)
    (reply : variomediaResponse) :
  ((code =? StatusOK) || (code =? StatusAccepted)) && true = true ->
  json_Unmarshal data zero_reply = Ok reply ->
  job_status reply = "done" ->
  done_response (EvHTTP req (Response code (Got data))).
Proof.
  intros Hcode Hdec Hdone.
  destruct (json_Unmarshal_done data zero_reply reply Hdec Hdone)
    as (doc & -> & Hdoc); [discriminate|].
  exists req, (Response code (Got (BodyJSON doc))). split; [reflexivity|].
  exists code, doc. split; [reflexivity|]. split; [|exact Hdoc].
  unfold StatusOK, StatusAccepted in *. lia.
Qed.

(** A create: its events are the POST and then rounds of sleep and re-fetch,
    and it returns a URL only right after an answer that reports "done". *)
Lemma UpdateTxtRecord_shape (fuel : nat) (domain name value : string) (ttl : Z)
    (t : Trace) :
  exists o evs,
    UpdateTxtRecord fuel net c domain name value ttl t = (o, t ++ evs)
    /\ mutation_events c (Create domain name value ttl) evs
    /\ (forall url, o = Returns (Ok url) ->
          exists e, last evs = Some e /\ done_response e).
Proof.
  unfold UpdateTxtRecord, http_NewRequest.
  destruct (NewRequest_err net "POST" variomediaLiveDnsBaseUrl) as [msg|].
  { eexists _, []. rewrite app_nil_r. split; [reflexivity|].
    split; [now left | discriminate]. }
  unfold bind. rewrite doRequest_eq.
  fold (create_request c domain name value ttl).
  set (req := create_request c domain name value ttl).
  set (res := Do net t req). clearbody res.
  remember (UpdateTxtRecord_loop fuel net c 5) as loop eqn:Eloop.
  destruct res as [msg|code [data|msg]]; simpl;
    repeat (case_match; simpl); simplify_eq;
    try (eexists _, [_]; split; [reflexivity|];
         split; [right; eexists _, []; split; [reflexivity|constructor]
                | discriminate]; fail).
  all: match goal with
       | H : json_Unmarshal ?data zero_reply = Ok ?reply
         |- context [UpdateTxtRecord_loop _ _ _ 5 ?reply ?t'] =>
           destruct (UpdateTxtRecord_loop_shape net c fuel 5 reply t')
             as (o & evs2 & Hrun & Hpoll & Hok); rewrite Hrun; clear Hrun
       end.
  all: eexists _, (_ :: evs2); rewrite <- app_assoc;
       (split; [reflexivity|]);
       (split; [right; eexists _, evs2; split; [reflexivity|exact Hpoll]|]).
  all: intros url Ho; destruct (Hok url Ho) as [[Hd ->]|(e & Hlast & He)];
       [eexists; split; [reflexivity|]; eapply first_reply_done; eassumption
       |exists e; split; [|exact He];
        rewrite last_cons, Hlast; reflexivity].
Qed.

(** A delete: its events are the DELETE and then rounds of sleep and
    re-fetch, and it succeeds only right after an answer that reports
    "done". *)
Lemma DeleteTxtRecord_shape (fuel : nat) (url : string) (ttl : Z) (t : Trace) :
  exists o evs,
    DeleteTxtRecord fuel net c url ttl t = (o, t ++ evs)
    /\ mutation_events c (Delete url ttl) evs
    /\ (o = Returns None -> exists e, last evs = Some e /\ done_response e).
Proof.
  unfold DeleteTxtRecord, http_NewRequest.
  destruct (NewRequest_err net "DELETE" url) as [msg|].
  { eexists _, []. rewrite app_nil_r. split; [reflexivity|].
    split; [now left | discriminate]. }
  unfold bind. rewrite doRequest_eq.
  fold (delete_request c url).
  set (req := delete_request c url).
  set (res := Do net t req). clearbody res.
  remember (DeleteTxtRecord_loop fuel net c) as loop eqn:Eloop.
  destruct res as [msg|code [data|msg]]; simpl;
    repeat (case_match; simpl); simplify_eq;
    try (eexists _, [_]; split; [reflexivity|];
         split; [right; eexists _, []; split; [reflexivity|constructor]
                | discriminate]; fail).
  all: match goal with
       | H : json_Unmarshal ?data zero_reply = Ok ?reply
         |- context [DeleteTxtRecord_loop _ _ _ ?status 5 ?reply ?t'] =>
           destruct (DeleteTxtRecord_loop_shape fuel status 5 reply t')
             as (o & evs2 & Hrun & Hpoll & Hok); rewrite Hrun; clear Hrun
       end.
  all: eexists _, (_ :: evs2); rewrite <- app_assoc;
       (split; [reflexivity|]);
       (split; [right; eexists _, evs2; split; [reflexivity|exact Hpoll]|]).
  all: intros Ho;
       destruct Hok as [[Hd ->]|(e & Hlast & He)];
       [unfold StatusNotFound, StatusOK, StatusAccepted, StatusCreated,
          StatusTooManyRequests in *; lia
       |exact Ho
       |eexists; split; [reflexivity|]; eapply first_reply_done; eassumption
       |exists e; split; [|exact He];
        rewrite last_cons, Hlast; reflexivity].
Qed.

(** A mutation: its events are its first request and then rounds of sleep
    and re-fetch, and it succeeds only right after an answer that reports
    "done". *)
Lemma run_mutation_shape (fuel : nat) (m : Mutation) (t : Trace) :
  exists o evs,
    run_mutation fuel net c m t = (o, t ++ evs)
    /\ mutation_events c m evs
    /\ (o = Returns None -> exists e, last evs = Some e /\ done_response e).
Proof.
  destruct m as [domain name value ttl|url ttl]; unfold run_mutation.
  - destruct (UpdateTxtRecord_shape fuel domain name value ttl t)
      as (o & evs & Hrun & Hev & Hok).
    unfold bind. rewrite Hrun.
    destruct o as [[url|e]|msg|]; unfold ret;
      eexists _, evs; (split; [reflexivity|]); (split; [exact Hev|]);
      try discriminate.
    intros _. now apply (Hok url).
  - apply DeleteTxtRecord_shape.
Qed.
End DeleteShape.

(** ** The course of a mutation *)

Section Course.
Variable net : Net.
Variable c : variomediaClient.

Lemma time_slept_app (a b : Trace) :
  time_slept (a ++ b) = time_slept a + time_slept b.
Proof.
  induction a as [|[d|req res] a IH]; simpl; [reflexivity| |exact IH].
  rewrite IH. lia.
Qed.

Lemma with_headers_has_headers (req : Request) :
  has_headers c (with_headers c req).
Proof.
  unfold has_headers, with_headers. simpl.
  repeat split;
    repeat first [rewrite lookup_insert_ne by discriminate
                 |rewrite lookup_insert_eq];
    reflexivity.
Qed.

Lemma poll_events_headers (evs : Trace) :
  poll_events c evs -> Forall (sent_with_headers c) evs.
Proof.
  induction 1 as [| |reply res rest _ IH].
  - constructor.
  - constructor; [exact I | constructor].
  - constructor; [exact I|].
    constructor; [apply with_headers_has_headers | exact IH].
Qed.

Lemma mutation_events_headers (m : Mutation) (evs : Trace) :
  mutation_events c m evs -> Forall (sent_with_headers c) evs.
Proof.
  intros [->|(res & polls & -> & Hpolls)]; [constructor|].
  constructor; [|now apply poll_events_headers].
  destruct m; apply with_headers_has_headers.
Qed.

(** The time slept in one re-fetch. *)
Lemma UpdateTxtRecord_refetch_slept (reply : variomediaResponse) (t : Trace) :
  time_slept (snd (UpdateTxtRecord_refetch net c reply t))
  = time_slept t + statusLookupDelay.
Proof.
  destruct (UpdateTxtRecord_refetch_shape net c reply t)
    as (r & evs & -> & [[-> _]|[res [-> _]]]); simpl;
    rewrite time_slept_app; simpl; lia.
Qed.

Lemma DeleteTxtRecord_refetch_slept (reply : variomediaResponse) (t : Trace) :
  time_slept (snd (DeleteTxtRecord_refetch net c reply t))
  = time_slept t + statusLookupDelay.
Proof.
  destruct (DeleteTxtRecord_refetch_shape net c reply t)
    as (r & evs & -> & [[-> _]|[res [-> _]]]); simpl;
    rewrite time_slept_app; simpl; lia.
Qed.

Lemma UpdateTxtRecord_loop_slept (fuel : nat) :
  forall (loopcount : Z) (reply : variomediaResponse) (t : Trace),
    1 <= loopcount < 2 ^ 63 ->
    time_slept (snd (UpdateTxtRecord_loop fuel net c loopcount reply t))
    <= time_slept t + loopcount * statusLookupDelay.
Proof.
  assert (Hdelay : 0 <= statusLookupDelay) by (unfold statusLookupDelay; lia).
  induction fuel as [|fuel IH]; intros loopcount reply t Hlc.
  - simpl. nia.
  - cbn [UpdateTxtRecord_loop]. unfold bind.
    destruct (String.eqb (job_status reply) "pending").
    + pose proof (UpdateTxtRecord_refetch_slept reply t) as Hslept.
      destruct (UpdateTxtRecord_refetch net c reply t) as [[[reply'|e]| |] t'];
        simpl in *; try nia.
      destruct (String.eqb (job_status reply') "done"); [simpl; nia|].
      destruct (wrap_int (loopcount - 1) =? 0) eqn:Ezero; [simpl; nia|].
      apply Z.eqb_neq in Ezero. rewrite wrap_int_small in * by lia.
      specialize (IH (loopcount - 1) reply' t' ltac:(lia)). nia.
    + unfold ret.
      destruct (String.eqb (job_status reply) "done"); [simpl; nia|].
      destruct (wrap_int (loopcount - 1) =? 0) eqn:Ezero; [simpl; nia|].
      apply Z.eqb_neq in Ezero. rewrite wrap_int_small in * by lia.
      specialize (IH (loopcount - 1) reply t ltac:(lia)). nia.
Qed.

Lemma DeleteTxtRecord_loop_slept (fuel : nat) :
  forall (status loopcount : Z) (reply : variomediaResponse) (t : Trace),
    1 <= loopcount < 2 ^ 63 ->
    time_slept (snd (DeleteTxtRecord_loop fuel net c status loopcount reply t))
    <= time_slept t + loopcount * statusLookupDelay.
Proof.
  assert (Hdelay : 0 <= statusLookupDelay) by (unfold statusLookupDelay; lia).
  induction fuel as [|fuel IH]; intros status loopcount reply t Hlc.
  - simpl. nia.
  - cbn [DeleteTxtRecord_loop]. unfold bind.
    destruct (String.eqb (job_status reply) "pending"
              && negb (status =? StatusNotFound)).
    + pose proof (DeleteTxtRecord_refetch_slept reply t) as Hslept.
      destruct (DeleteTxtRecord_refetch net c reply t) as [[[reply'|e]| |] t'];
        simpl in *; try nia.
      destruct (status =? StatusNotFound); [simpl; nia|].
      destruct (String.eqb (job_status reply') "done"); [simpl; nia|].
      destruct (wrap_int (loopcount - 1) =? 0) eqn:Ezero; [simpl; nia|].
      apply Z.eqb_neq in Ezero. rewrite wrap_int_small in * by lia.
      specialize (IH status (loopcount - 1) reply' t' ltac:(lia)). nia.
    + unfold ret.
      destruct (status =? StatusNotFound); [simpl; nia|].
      destruct (String.eqb (job_status reply) "done"); [simpl; nia|].
      destruct (wrap_int (loopcount - 1) =? 0) eqn:Ezero; [simpl; nia|].
      apply Z.eqb_neq in Ezero. rewrite wrap_int_small in * by lia.
      specialize (IH status (loopcount - 1) reply t ltac:(lia)). nia.
Qed.

(** A job whose status is neither "pending" nor "done" is not fetched again:
    the loop counts down without an event and ends with the time-out. *)
Lemma UpdateTxtRecord_loop_stalled (reply : variomediaResponse) (t : Trace)
    (fuel : nat) :
  job_status reply <> "pending" -> job_status reply <> "done" ->
  forall loopcount : Z,
    1 <= loopcount < 2 ^ 63 -> loopcount <= Z.of_nat fuel ->
    UpdateTxtRecord_loop fuel net c loopcount reply t
    = (Returns (Err (err_job_timed_out (job_status reply))), t).
Proof.
  intros Hpending Hdone.
  apply String.eqb_neq in Hpending. apply String.eqb_neq in Hdone.
  induction fuel as [|fuel IH]; intros loopcount Hlc Hfuel; [lia|].
  cbn [UpdateTxtRecord_loop]. unfold bind. rewrite Hpending. unfold ret.
  rewrite Hdone, wrap_int_small by lia.
  destruct (loopcount - 1 =? 0) eqn:Ezero; [reflexivity|].
  apply Z.eqb_neq in Ezero. apply IH; lia.
Qed.

Lemma DeleteTxtRecord_loop_stalled (status : Z) (reply : variomediaResponse)
    (t : Trace) (fuel : nat) :
  status <> StatusNotFound ->
  job_status reply <> "pending" -> job_status reply <> "done" ->
  forall loopcount : Z,
    1 <= loopcount < 2 ^ 63 -> loopcount <= Z.of_nat fuel ->
    DeleteTxtRecord_loop fuel net c status loopcount reply t
    = (Returns (Some (err_job_timed_out (job_status reply))), t).
Proof.
  intros Hstatus Hpending Hdone.
  apply Z.eqb_neq in Hstatus.
  apply String.eqb_neq in Hpending. apply String.eqb_neq in Hdone.
  induction fuel as [|fuel IH]; intros loopcount Hlc Hfuel; [lia|].
  cbn [DeleteTxtRecord_loop]. unfold bind. rewrite Hpending, Hstatus.
  unfold ret. simpl. rewrite Hdone, wrap_int_small by lia.
  destruct (loopcount - 1 =? 0) eqn:Ezero; [reflexivity|].
  apply Z.eqb_neq in Ezero. apply IH; lia.
Qed.
Lemma poll_trace_headers (rounds : nat) :
  forall (t : Trace) (reply : variomediaResponse),
    Forall (sent_with_headers c) (poll_trace net c rounds t reply).
Proof.
  induction rounds as [|rounds IH]; intros t reply; simpl; [constructor|].
  destruct (String.eqb (job_status reply) "pending"); [|constructor].
  destruct (NewRequest_err net "GET" (job_link reply "queue-job")).
  { constructor; [exact I | constructor]. }
  constructor; [exact I|].
  constructor; [apply with_headers_has_headers|].
  destruct (decoded _ reply); [apply IH | constructor].
Qed.

Lemma mutation_trace_headers (rounds : nat) (m : Mutation) (t : Trace) :
  Forall (sent_with_headers c) (mutation_trace net c rounds m t).
Proof.
  unfold mutation_trace.
  destruct (NewRequest_err net _ _); [constructor|].
  constructor; [destruct m; apply with_headers_has_headers|].
  destruct (decoded _ zero_reply); [apply poll_trace_headers | constructor].
Qed.
End Course.

(** X1. The events of a mutation are determined by the provider's answers:
    nothing when [http.NewRequest] refuses the first URL; else the first
    request (the POST of the record to the base URL, or the DELETE to the
    URL given) with its answer, and, when that answer is a 200 or 202 whose
    document decodes, rounds of one sleep of [statusLookupDelay] and one
    GET of the ["queue-job"] link of the reply decoded so far, for as long
    as the job is pending and the answers decode, at most five rounds
    ([mutation_trace]). *)
Theorem mutation_trace_shape (fuel : nat) (net : Net) (c : variomediaClient)
    (m : Mutation) (t : Trace) :
  snd (run_mutation fuel net c m t)
  = t ++ mutation_trace net c (Nat.min fuel 5) m t.
Proof.
  destruct m as [domain name value ttl|url ttl]; unfold run_mutation.
  - rewrite <- UpdateTxtRecord_trace. unfold bind.
    now destruct (UpdateTxtRecord fuel net c domain name value ttl t)
      as [[[url|e]| |] t'].
  - apply DeleteTxtRecord_trace.
Qed.

(** X2. A mutation succeeds only right after an answer that reports the job
    as done: the last event of a successful run is a 200 or 202 response
    whose document has the status "done". *)
Theorem success_follows_a_done_answer (fuel : nat) (net : Net)
    (c : variomediaClient) (m : Mutation) (t : Trace) :
  fst (run_mutation fuel net c m t) = Returns None ->
  exists e,
    last (snd (run_mutation fuel net c m t)) = Some e /\ done_response e.
Proof.
  destruct (run_mutation_shape net c fuel m t) as (o & evs & Hrun & _ & Hok).
  rewrite Hrun. simpl. intros Ho.
  destruct (Hok Ho) as (e & Hlast & He).
  exists e. split; [|exact He]. apply last_app_Some. now left.
Qed.

Lemma success_follows_a_done_answer_witness :
  exists e,
    last (snd (run_mutation 5 Fixture.live Fixture.client0
                 (Create "example.com" "_acme-challenge.foo" "token-value" 300)
                 []))
    = Some e
    /\ done_response e.
Proof.
  apply (success_follows_a_done_answer 5 Fixture.live Fixture.client0
           (Create "example.com" "_acme-challenge.foo" "token-value" 300) []).
  vm_compute. reflexivity.
Defined.

(** X3. Every request of a mutation, the first one and each re-fetch, is
    sent with the three headers that [doRequest] sets: the authorization
    with the client's API key, the content type and the accepted type. *)
Theorem every_request_carries_the_headers (fuel : nat) (net : Net)
    (c : variomediaClient) (m : Mutation) (t : Trace) :
  exists evs,
    snd (run_mutation fuel net c m t) = t ++ evs
    /\ Forall (sent_with_headers c) evs.
Proof.
  destruct (run_mutation_shape net c fuel m t) as (o & evs & Hrun & Hev & _).
  exists evs. rewrite Hrun. split; [reflexivity|].
  now apply (mutation_events_headers c m).
Qed.

(** X4. A mutation sleeps at most five times [statusLookupDelay], ten
    seconds, whatever the provider answers. *)
Theorem mutation_sleeps_at_most_ten_seconds (fuel : nat) (net : Net)
    (c : variomediaClient) (m : Mutation) (t : Trace) :
  time_slept (snd (run_mutation fuel net c m t))
  <= time_slept t + 5 * statusLookupDelay.
Proof.
  assert (Hdelay : 0 <= statusLookupDelay) by (unfold statusLookupDelay; lia).
  destruct m as [domain name value ttl|url ttl]; unfold run_mutation.
  - assert (time_slept (snd (UpdateTxtRecord fuel net c domain name value ttl t))
            <= time_slept t + 5 * statusLookupDelay) as Hup.
    { unfold UpdateTxtRecord, http_NewRequest.
      destruct (NewRequest_err net "POST" variomediaLiveDnsBaseUrl);
        [simpl; lia|].
      unfold bind. rewrite doRequest_eq.
      set (req := with_headers c _). set (res := Do net t req). clearbody res.
      remember (UpdateTxtRecord_loop fuel net c 5) as loop eqn:Eloop.
      assert (Hone : time_slept (t ++ [EvHTTP req res]) = time_slept t)
        by (rewrite time_slept_app; simpl; lia).
      destruct (read_response true res) as [[status data] [e|]];
        [simpl; lia|].
      repeat case_match; simpl; try lia.
      subst loop. rewrite <- Hone.
      apply UpdateTxtRecord_loop_slept. lia. }
    unfold bind.
    destruct (UpdateTxtRecord fuel net c domain name value ttl t)
      as [[[url|e]| |] t']; exact Hup.
  - unfold DeleteTxtRecord, http_NewRequest.
    destruct (NewRequest_err net "DELETE" url); [simpl; lia|].
    unfold bind. rewrite doRequest_eq.
    set (req := with_headers c _). set (res := Do net t req). clearbody res.
    remember (DeleteTxtRecord_loop fuel net c) as loop eqn:Eloop.
    assert (Hone : time_slept (t ++ [EvHTTP req res]) = time_slept t)
      by (rewrite time_slept_app; simpl; lia).
    destruct (read_response true res) as [[status data] [e|]];
      [simpl; lia|].
    repeat case_match; simpl; try lia.
    subst loop. rewrite <- Hone.
    apply DeleteTxtRecord_loop_slept. lia.
Qed.

(** X5. When the first answer is a 200 or 202 whose document decodes to a
    job status that is neither "pending" nor "done" (no status at all
    included), the mutation sends nothing more and does not sleep: it
    returns the time-out error with that status. *)
Theorem unknown_job_status_times_out (fuel : nat) (net : Net)
    (c : variomediaClient) (m : Mutation) (t : Trace) (code : Z) (data : body)
    (reply : variomediaResponse) :
  let req := mutation_request c m in
  NewRequest_err net (Method req) (URL req) = None ->
  Do net t req = Response code (Got data) ->
  code = StatusOK \/ code = StatusAccepted ->
  json_Unmarshal data zero_reply = Ok reply ->
  job_status reply <> "pending" -> job_status reply <> "done" ->
  (5 <= fuel)%nat ->
  run_mutation fuel net c m t
  = (Returns (Some (err_job_timed_out (job_status reply))),
     t ++ [EvHTTP req (Response code (Got data))]).
Proof.
  intros req Hurl Hdo Hcode Hdec Hpending Hdone Hfuel. subst req.
  assert (Hrd : read_response true (Response code (Got data))
                = (code, data, None)).
  { unfold read_response, StatusOK, StatusAccepted in *.
    destruct Hcode as [->| ->]; reflexivity. }
  assert (H429 : (code =? StatusTooManyRequests) = false).
  { unfold StatusTooManyRequests, StatusOK, StatusAccepted in *. lia. }
  assert (Hacc : negb (code =? StatusCreated) && negb (code =? StatusOK)
                 && negb (code =? StatusAccepted) = false).
  { unfold StatusCreated, StatusOK, StatusAccepted in *.
    destruct Hcode as [->| ->]; reflexivity. }
  destruct m as [domain name value ttl|url ttl]; simpl in Hurl, Hdo;
    unfold run_mutation.
  - unfold bind at 1, UpdateTxtRecord, http_NewRequest. rewrite Hurl.
    unfold bind. rewrite doRequest_eq.
    fold (create_request c domain name value ttl). rewrite Hdo, Hrd.
    rewrite H429, Hacc, Hdec.
    rewrite UpdateTxtRecord_loop_stalled by (assumption || lia).
    reflexivity.
  - unfold DeleteTxtRecord, http_NewRequest. rewrite Hurl.
    unfold bind. rewrite doRequest_eq.
    fold (delete_request c url). rewrite Hdo, Hrd.
    rewrite H429, Hacc, Hdec.
    rewrite DeleteTxtRecord_loop_stalled; [reflexivity|..]; try assumption;
      try lia.
    unfold StatusNotFound, StatusOK, StatusAccepted in *. lia.
Qed.

Lemma unknown_job_status_times_out_witness :
  let net := Fixture.scripted [Fixture.job 200 "failed"]
               Fixture.connection_refused in
  let m := Create "example.com" "_acme-challenge.foo" "token-value" 300 in
  run_mutation 5 net Fixture.client0 m []
  = (Returns (Some (err_job_timed_out "failed")),
     [] ++ [EvHTTP (mutation_request Fixture.client0 m)
              (Response 200 (Got (BodyJSON (Fixture.job_doc "failed"))))]).
Proof.
  apply (unknown_job_status_times_out 5
           (Fixture.scripted [Fixture.job 200 "failed"]
              Fixture.connection_refused)
           Fixture.client0
           (Create "example.com" "_acme-challenge.foo" "token-value" 300) []
           200 (BodyJSON (Fixture.job_doc "failed"))
           {| Data := unmarshal_job (j_data (Fixture.job_doc "failed"))
                        (Data zero_reply);
              TopLinks := None |}).
  - reflexivity.
  - reflexivity.
  - left. reflexivity.
  - reflexivity.
  - vm_compute. discriminate.
  - vm_compute. discriminate.
  - lia.
Defined.

(** X6. When the first answer to a create is a 200 or 202 whose document
    decodes to the status "done", [UpdateTxtRecord] returns at once the
    ["dns-record"] link of that document, the empty string when the document
    has none, with no re-fetch and no sleep. *)
Theorem finished_job_returns_its_record_link (fuel : nat) (net : Net)
    (c : variomediaClient) (domain name value : string) (ttl : Z) (t : Trace)
    (code : Z) (data : body) (reply : variomediaResponse) :
  let req := create_request c domain name value ttl in
  NewRequest_err net "POST" variomediaLiveDnsBaseUrl = None ->
  Do net t req = Response code (Got data) ->
  code = StatusOK \/ code = StatusAccepted ->
  json_Unmarshal data zero_reply = Ok reply ->
  job_status reply = "done" ->
  (1 <= fuel)%nat ->
  UpdateTxtRecord fuel net c domain name value ttl t
  = (Returns (Ok (job_link reply "dns-record")),
     t ++ [EvHTTP req (Response code (Got data))]).
Proof.
  intros req Hurl Hdo Hcode Hdec Hdone Hfuel. subst req.
  destruct fuel as [|fuel]; [lia|].
  assert (Hrd : read_response true (Response code (Got data))
                = (code, data, None)).
  { unfold read_response, StatusOK, StatusAccepted in *.
    destruct Hcode as [->| ->]; reflexivity. }
  assert (H429 : (code =? StatusTooManyRequests) = false).
  { unfold StatusTooManyRequests, StatusOK, StatusAccepted in *. lia. }
  assert (Hacc : negb (code =? StatusCreated) && negb (code =? StatusOK)
                 && negb (code =? StatusAccepted) = false).
  { unfold StatusCreated, StatusOK, StatusAccepted in *.
    destruct Hcode as [->| ->]; reflexivity. }
  unfold UpdateTxtRecord, http_NewRequest. rewrite Hurl.
  unfold bind. rewrite doRequest_eq.
  fold (create_request c domain name value ttl). rewrite Hdo, Hrd.
  rewrite H429, Hacc, Hdec.
  cbn [UpdateTxtRecord_loop]. unfold bind. rewrite Hdone.
  change (String.eqb "done" "pending") with false. cbv beta iota.
  unfold ret at 1. rewrite Hdone. reflexivity.
Qed.

Lemma finished_job_returns_its_record_link_witness :
  let bare : jsonResponse :=
    {| j_data :=
         JValue {| j_type := JAbsent; j_id := JAbsent;
                   j_attributes := JValue {[ "status" := "done" ]};
                   j_links := JAbsent |};
       j_toplinks := JAbsent |} in
  let net := Fixture.scripted [Response 202 (Got (BodyJSON bare))]
               Fixture.connection_refused in
  UpdateTxtRecord 1 net Fixture.client0 "example.com" "_acme-challenge.foo"
    "token-value" 300 []
  = (Returns (Ok ""),
     [] ++ [EvHTTP (create_request Fixture.client0 "example.com"
                      "_acme-challenge.foo" "token-value" 300)
              (Response 202 (Got (BodyJSON bare)))]).
Proof.
  intros bare net.
  apply (finished_job_returns_its_record_link 1 net Fixture.client0
           "example.com" "_acme-challenge.foo" "token-value" 300 []
           202 (BodyJSON bare)
           {| Data := unmarshal_job (j_data bare) (Data zero_reply);
              TopLinks := None |}).
  - reflexivity.
  - reflexivity.
  - right. reflexivity.
  - reflexivity.
  - vm_compute. reflexivity.
  - lia.
Defined.

(** ** The API keys *)

Section Keys.
Variable rng : MapRange.
Variable c : customDNSProviderSolver.
Variable namespace : string.

Lemma TrimRight_split (s cutset : string) :
  exists tail,
    s = strings.TrimRight s cutset +:+ tail /\ all_in cutset tail = true.
Proof.
  induction s as [|a s (tail & Hs & Htail)].
  - exists "". split; reflexivity.
  - simpl. destruct (strings.TrimRight s cutset) as [|b kept].
    + assert (Hst : tail = s) by (symmetry; exact Hs). subst tail.
      destruct (strings.contains_byte cutset a) eqn:Ea.
      * exists (String a s). split; [reflexivity|]. simpl. now rewrite Ea.
      * exists s. split; [reflexivity | exact Htail].
    + exists tail. split; [|exact Htail].
      change (String a s = String a (String b kept +:+ tail)).
      now rewrite <- Hs.
Qed.

Lemma TrimRight_last (s cutset : string) :
  match last_byte (strings.TrimRight s cutset) with
  | Some b => strings.contains_byte cutset b = false
  | None => True
  end.
Proof.
  induction s as [|a s IH]; [exact I|].
  simpl. destruct (strings.TrimRight s cutset) as [|b kept].
  - destruct (strings.contains_byte cutset a) eqn:Ea; [exact I | exact Ea].
  - exact IH.
Qed.

Lemma range_keys_NoDup (m : gmap string string) : NoDup (range_keys rng m).
Proof. rewrite (range_keys_perm rng m). apply NoDup_fst_map_to_list. Qed.

Lemma range_keys_lookup (m : gmap string string) (domain : string) :
  domain ∈ range_keys rng m -> is_Some (m !! domain).
Proof.
  rewrite (range_keys_perm rng m). intros Hin.
  apply list_elem_of_fmap in Hin as ([d s] & -> & Hin).
  apply elem_of_map_to_list in Hin. simpl. eauto.
Qed.

(** The loop of [loadApiKeys] over keys whose secrets all resolve: the keys
    visited get their API key, the others stay. *)
Lemma loadApiKeys_range_resolves (todo : list string) :
  forall cfg : gmap string string,
    NoDup todo ->
    (forall domain, domain ∈ todo ->
       is_Some (cfg !! domain ≫= api_key_of c namespace)) ->
    exists keys : gmap string string,
      loadApiKeys_range c namespace todo cfg = (Some keys, None)
      /\ forall domain,
           keys !! domain
           = if decide (domain ∈ todo)
             then cfg !! domain ≫= api_key_of c namespace
             else cfg !! domain.
Proof.
  induction todo as [|d todo IH]; intros cfg Hnodup Hall.
  - exists cfg. split; [reflexivity|]. intros domain.
    destruct (decide (domain ∈ [])) as [Hin|]; [|reflexivity].
    now apply elem_of_nil in Hin.
  - apply NoDup_cons in Hnodup as [Hd Hnodup].
    destruct (Hall d) as [key Hkey]; [apply elem_of_cons; now left|].
    cbn [loadApiKeys_range].
    destruct (cfg !! d) as [secretName|] eqn:Ecfg; [|discriminate].
    simpl in *. unfold api_key_of in Hkey.
    destruct (client c namespace secretName) as [sec|msg] eqn:Eget;
      [|discriminate].
    destruct (map_lookup (SecretData sec) "api-token") as [secBytes|] eqn:Etok;
      [|discriminate].
    injection Hkey as <-.
    destruct (IH (<[d := strings.TrimRight secBytes crlf_space]> cfg) Hnodup)
      as (keys & -> & Hkeys).
    { intros domain Hin. rewrite lookup_insert_ne by (intros ->; contradiction).
      apply Hall, elem_of_cons. now right. }
    exists keys. split; [reflexivity|]. intros domain. rewrite Hkeys.
    destruct (decide (domain = d)) as [->|Hne].
    + destruct (decide (d ∈ todo)) as [|_]; [contradiction|].
      rewrite lookup_insert_eq, Ecfg.
      destruct (decide (d ∈ d :: todo)) as [_|Hout];
        [|destruct Hout; apply elem_of_cons; now left].
      simpl. unfold api_key_of. now rewrite Eget, Etok.
    + rewrite lookup_insert_ne by congruence.
      destruct (decide (domain ∈ todo)) as [Hin|Hout];
        destruct (decide (domain ∈ d :: todo)) as [Hin'|Hout'];
        try reflexivity.
      * destruct Hout'. apply elem_of_cons. now right.
      * apply elem_of_cons in Hin' as [->|Hin']; contradiction.
Qed.

(** The loop of [loadApiKeys] when it ends without an error: the keys
    visited have the API key of their secret, the others stay. *)
Lemma loadApiKeys_range_done (todo : list string) :
  forall cfg keys : gmap string string,
    NoDup todo ->
    (forall domain, domain ∈ todo -> is_Some (cfg !! domain)) ->
    loadApiKeys_range c namespace todo cfg = (Some keys, None) ->
    forall domain,
      keys !! domain
      = if decide (domain ∈ todo)
        then cfg !! domain ≫= api_key_of c namespace
        else cfg !! domain.
Proof.
  induction todo as [|d todo IH]; intros cfg keys Hnodup Hdom Hrun domain.
  - simpl in Hrun. injection Hrun as <-.
    destruct (decide (domain ∈ [])) as [Hin|]; [|reflexivity].
    now apply elem_of_nil in Hin.
  - apply NoDup_cons in Hnodup as [Hd Hnodup].
    destruct (Hdom d) as [secretName Ecfg]; [apply elem_of_cons; now left|].
    cbn [loadApiKeys_range] in Hrun. rewrite Ecfg in Hrun. simpl in Hrun.
    destruct (client c namespace secretName) as [sec|msg] eqn:Eget;
      [|discriminate].
    destruct (map_lookup (SecretData sec) "api-token") as [secBytes|] eqn:Etok;
      [|discriminate].
    rewrite (IH (<[d := strings.TrimRight secBytes crlf_space]> cfg) keys
               Hnodup); [|clear domain|exact Hrun].
    2:{ intros d' Hin. rewrite lookup_insert_ne by (intros ->; contradiction).
        apply Hdom, elem_of_cons. now right. }
    destruct (decide (domain = d)) as [->|Hne].
    + destruct (decide (d ∈ todo)) as [|_]; [contradiction|].
      rewrite lookup_insert_eq, Ecfg.
      destruct (decide (d ∈ d :: todo)) as [_|Hout];
        [|destruct Hout; apply elem_of_cons; now left].
      simpl. unfold api_key_of. now rewrite Eget, Etok.
    + rewrite lookup_insert_ne by congruence.
      destruct (decide (domain ∈ todo)) as [Hin|Hout];
        destruct (decide (domain ∈ d :: todo)) as [Hin'|Hout'];
        try reflexivity.
      * destruct Hout'. apply elem_of_cons. now right.
      * apply elem_of_cons in Hin' as [->|Hin']; contradiction.
Qed.

End Keys.

(** X7. Every API key in the map that [loadApiKeys] returns without an error
    is the ["api-token"] field of the secret that the configuration names
    for that domain, cut before its trailing carriage returns, line feeds
    and blanks: the field is the key followed by bytes of the cutset only,
    and the key does not end with one. *)
Theorem api_key_is_the_token_without_trailing_blanks (rng : MapRange)
    (c : customDNSProviderSolver) (cfgJSON : option RawConfig)
    (namespace : string) (keys : gmap string string) (domain key : string) :
  loadApiKeys rng c cfgJSON namespace = (Some keys, None) ->
  keys !! domain = Some key ->
  exists m secretName sec token tail,
    cfgJSON = Some (RawObject m)
    /\ m !! domain = Some secretName
    /\ client c namespace secretName = Got sec
    /\ map_lookup (SecretData sec) "api-token" = Some token
    /\ token = key +:+ tail
    /\ all_in crlf_space tail = true
    /\ match last_byte key with
       | Some b => strings.contains_byte crlf_space b = false
       | None => True
       end.
Proof.
  intros Hrun Hkey.
  destruct cfgJSON as [[|m|partial msg]|].
  - discriminate Hrun.
  - unfold loadApiKeys, loadConfig, unmarshal_config, unmarshal_map, make_map
      in Hrun. simpl in Hrun. rewrite (right_id_L ∅ (∪) m) in Hrun.
    pose proof (loadApiKeys_range_done c namespace (range_keys rng m) m keys
                  (range_keys_NoDup rng m) (range_keys_lookup rng m) Hrun
                  domain) as Hdomain.
    rewrite Hkey in Hdomain.
    destruct (m !! domain) as [secretName|] eqn:Hm.
    2:{ now destruct (decide (domain ∈ range_keys rng m)). }
    destruct (decide (domain ∈ range_keys rng m)) as [_|Hout];
      [|destruct Hout; now apply (range_keys_elem rng m domain secretName)].
    simpl in Hdomain. symmetry in Hdomain. unfold api_key_of in Hdomain.
    destruct (client c namespace secretName) as [sec|msg] eqn:Eget;
      [|discriminate].
    destruct (map_lookup (SecretData sec) "api-token") as [token|] eqn:Etoken;
      [|discriminate].
    injection Hdomain as <-.
    destruct (TrimRight_split token crlf_space) as (tail & Htoken & Htail).
    exists m, secretName, sec, token, tail.
    split; [reflexivity|]. split; [exact Hm|]. split; [exact Eget|].
    split; [exact Etoken|]. split; [exact Htoken|].
    split; [exact Htail | apply TrimRight_last].
  - unfold loadApiKeys, loadConfig, unmarshal_config in Hrun.
    destruct partial; discriminate Hrun.
  - rewrite loadApiKeys_nil in Hrun. injection Hrun as <-.
    now rewrite lookup_empty in Hkey.
Qed.

Lemma api_key_is_the_token_without_trailing_blanks_witness :
  exists m secretName sec token tail,
    Fixture.config "variomedia-credentials-01" = Some (RawObject m)
    /\ m !! "example.com" = Some secretName
    /\ client Fixture.cluster "cert-manager" secretName = Got sec
    /\ map_lookup (SecretData sec) "api-token" = Some token
    /\ token = "s3cr3t" +:+ tail
    /\ all_in crlf_space tail = true
    /\ match last_byte "s3cr3t" with
       | Some b => strings.contains_byte crlf_space b = false
       | None => True
       end.
Proof.
  apply (api_key_is_the_token_without_trailing_blanks Fixture.in_order
           Fixture.cluster (Fixture.config "variomedia-credentials-01")
           "cert-manager" {[ "example.com" := "s3cr3t" ]} "example.com"
           "s3cr3t").
  - vm_compute. reflexivity.
  - reflexivity.
Defined.

(** X8. When the configuration is a JSON object and every secret it names
    can be got and has an ["api-token"] field, [loadApiKeys] returns without
    an error a map with the same domains, each with the API key of its
    secret, in whatever order [range] visits the map. *)
Theorem loadApiKeys_resolves_every_domain (rng : MapRange)
    (c : customDNSProviderSolver) (namespace : string)
    (m : gmap string string) :
  (forall domain secretName,
     m !! domain = Some secretName ->
     is_Some (api_key_of c namespace secretName)) ->
  exists keys : gmap string string,
    loadApiKeys rng c (Some (RawObject m)) namespace = (Some keys, None)
    /\ forall domain, keys !! domain = m !! domain ≫= api_key_of c namespace.
Proof.
  intros Hall. unfold loadApiKeys, loadConfig, unmarshal_config, unmarshal_map,
    make_map. simpl. rewrite (right_id_L ∅ (∪) m).
  destruct (loadApiKeys_range_resolves c namespace (range_keys rng m) m
              (range_keys_NoDup rng m)) as (keys & -> & Hkeys).
  { intros domain Hin.
    destruct (range_keys_lookup rng m domain Hin) as [s Hs].
    rewrite Hs. simpl. now apply (Hall domain). }
  exists keys. split; [reflexivity|]. intros domain. rewrite Hkeys.
  destruct (decide (domain ∈ range_keys rng m)) as [|Hout]; [reflexivity|].
  destruct (m !! domain) as [s|] eqn:Hm; [|reflexivity].
  destruct Hout. now apply (range_keys_elem rng m domain s).
Qed.

Lemma loadApiKeys_resolves_every_domain_witness :
  exists keys : gmap string string,
    loadApiKeys Fixture.in_order Fixture.cluster
      (Fixture.config "variomedia-credentials-01") "cert-manager"
    = (Some keys, None)
    /\ forall domain,
         keys !! domain
         = ({[ "example.com" := "variomedia-credentials-01" ]}
              : gmap string string) !! domain
           ≫= api_key_of Fixture.cluster "cert-manager".
Proof.
  apply (loadApiKeys_resolves_every_domain Fixture.in_order Fixture.cluster
           "cert-manager" {[ "example.com" := "variomedia-credentials-01" ]}).
  intros domain secretName Hm.
  apply lookup_singleton_Some in Hm as [_ <-].
  vm_compute. eauto.
Defined.

(** ** The cache under [Present] and [CleanUp] *)

Lemma cache_put_eq (g0 : gmap string (gomap (gomap string)))
    (domain entry key url : string) :
  cache_put (Some g0) domain entry key url
  = match g0 !! domain with
    | None =>
        Some (Some (<[domain := Some {[ entry := Some {[ key := url ]} ]}]> g0))
    | Some None => None
    | Some (Some g1) =>
        match g1 !! entry with
        | None =>
            Some (Some (<[domain := Some (<[entry := Some {[ key := url ]}]> g1)]> g0))
        | Some None => None
        | Some (Some g2) =>
            Some (Some (<[domain := Some (<[entry := Some (<[key := url]> g2)]> g1)]> g0))
        end
    end.
Proof.
  unfold cache_put, map_assign, map_index, map_lookup, make_map. simpl.
  destruct (g0 !! domain) as [[g1|]|] eqn:E0; simpl;
    rewrite ?lookup_insert_eq, ?E0; simpl; try reflexivity.
  - destruct (g1 !! entry) as [[g2|]|] eqn:E1; simpl;
      rewrite ?lookup_insert_eq, ?E1; simpl; try reflexivity.
    now rewrite insert_insert_eq.
  - rewrite lookup_empty. simpl. rewrite lookup_insert_eq. simpl.
    now rewrite !insert_insert_eq, insert_empty.
Qed.

Lemma cache_put_get (cache cache' : Cache) (domain entry key url : string) :
  cache_put cache domain entry key url = Some cache' ->
  forall d e k,
    cache_get cache' d e k
    = if decide ((d, e, k) = (domain, entry, key)) then url
      else cache_get cache d e k.
Proof.
  destruct cache as [g0|]; [|discriminate]. rewrite cache_put_eq.
  intros Hput d e k.
  unfold cache_get, map_index, map_lookup.
  destruct (decide (d = domain)) as [->|Hd].
  2:{ destruct (decide (_ = _)) as [Heq|_]; [congruence|].
      destruct (g0 !! domain) as [[g1|]|]; try discriminate;
        [destruct (g1 !! entry) as [[g2|]|]; try discriminate|];
        injection Hput as <-; now rewrite lookup_insert_ne by congruence. }
  destruct (g0 !! domain) as [[g1|]|] eqn:E0; try discriminate.
  - destruct (decide (e = entry)) as [->|He].
    2:{ destruct (decide (_ = _)) as [Heq|_]; [congruence|].
        destruct (g1 !! entry) as [[g2|]|]; try discriminate;
          injection Hput as <-; rewrite lookup_insert_eq; simpl;
          now rewrite lookup_insert_ne by congruence. }
    destruct (g1 !! entry) as [[g2|]|] eqn:E1; try discriminate;
      injection Hput as <-; rewrite lookup_insert_eq; simpl;
      rewrite lookup_insert_eq; simpl; rewrite ?E1; simpl.
    + destruct (decide (k = key)) as [->|Hk].
      * rewrite lookup_insert_eq. now destruct (decide (_ = _)).
      * rewrite lookup_insert_ne by congruence.
        destruct (decide (_ = _)) as [Heq|_]; [congruence|reflexivity].
    + destruct (decide (k = key)) as [->|Hk].
      * rewrite lookup_singleton_eq. now destruct (decide (_ = _)).
      * rewrite lookup_singleton_ne by congruence.
        destruct (decide (_ = _)) as [Heq|_]; [congruence|reflexivity].
  - injection Hput as <-. rewrite lookup_insert_eq. simpl.
    destruct (decide (e = entry)) as [->|He].
    + rewrite lookup_singleton_eq. simpl.
      destruct (decide (k = key)) as [->|Hk].
      * rewrite lookup_singleton_eq. now destruct (decide (_ = _)).
      * rewrite lookup_singleton_ne by congruence.
        destruct (decide (_ = _)) as [Heq|_]; [congruence|reflexivity].
    + rewrite lookup_singleton_ne by congruence.
      destruct (decide (_ = _)) as [Heq|_]; [congruence|reflexivity].
Qed.

Lemma cache_put_allocated (cache : Cache) (domain entry key url : string) :
  cache <> None -> inner_allocated cache ->
  exists cache',
    cache_put cache domain entry key url = Some cache'
    /\ cache' <> None /\ inner_allocated cache'.
Proof.
  destruct cache as [g0|]; [intros _|now intros []].
  intros [H0 H1]. rewrite cache_put_eq.
  pose proof (H0 domain) as H0d. pose proof (H1 domain entry) as H1d.
  unfold map_index, map_lookup in *.
  destruct (g0 !! domain) as [[g1|]|] eqn:E0; [|now destruct H0d|].
  - simpl in H1d.
    assert (exists byKey : gmap string string,
              match g1 !! entry with
              | Some (Some g2) =>
                  Some (Some (<[domain:=Some (<[entry:=Some (<[key:=url]> g2)]> g1)]> g0))
              | Some None => None
              | None =>
                  Some (Some (<[domain:=Some (<[entry:=Some {[key := url]}]> g1)]> g0))
              end
              = Some (Some (<[domain:=Some (<[entry:=Some byKey]> g1)]> g0)))
      as [byKey ->].
    { destruct (g1 !! entry) as [[g2|]|]; [eauto|now destruct H1d|eauto]. }
    eexists. split; [reflexivity|]. split; [discriminate|].
    split; unfold map_index, map_lookup.
    + intros d. destruct (decide (d = domain)) as [->|Hd].
      * rewrite lookup_insert_eq. discriminate.
      * rewrite lookup_insert_ne by congruence. apply H0.
    + intros d e. destruct (decide (d = domain)) as [->|Hd].
      * rewrite lookup_insert_eq. simpl.
        destruct (decide (e = entry)) as [->|He].
        -- rewrite lookup_insert_eq. discriminate.
        -- rewrite lookup_insert_ne by congruence.
           specialize (H1 domain e). rewrite E0 in H1. exact H1.
      * rewrite lookup_insert_ne by congruence. apply H1.
  - eexists. split; [reflexivity|]. split; [discriminate|].
    split; unfold map_index, map_lookup.
    + intros d. destruct (decide (d = domain)) as [->|Hd].
      * rewrite lookup_insert_eq. discriminate.
      * rewrite lookup_insert_ne by congruence. apply H0.
    + intros d e. destruct (decide (d = domain)) as [->|Hd].
      * rewrite lookup_insert_eq. simpl.
        destruct (decide (e = entry)) as [->|He].
        -- rewrite lookup_singleton_eq. discriminate.
        -- rewrite lookup_singleton_ne by congruence. discriminate.
      * rewrite lookup_insert_ne by congruence. apply H1.
Qed.

Lemma cache_delete_get (cache : Cache) (domain entry key : string) :
  forall d e k,
    cache_get (cache_delete cache domain entry key) d e k
    = if decide ((d, e, k) = (domain, entry, key)) then ""
      else cache_get cache d e k.
Proof.
  intros d e k.
  destruct (decide (_ = _)) as [Heq|Hne].
  { injection Heq as -> -> ->. apply cache_get_delete. }
  unfold cache_get, cache_delete, map_index, map_lookup, map_delete.
  destruct cache as [g0|]; [|reflexivity].
  destruct (g0 !! domain) as [[g1|]|] eqn:E0; simpl; try reflexivity.
  destruct (g1 !! entry) as [[g2|]|] eqn:E1; simpl; try reflexivity.
  destruct (decide (d = domain)) as [->|Hd];
    [|now rewrite lookup_insert_ne by congruence].
  rewrite lookup_insert_eq, E0. simpl.
  destruct (decide (e = entry)) as [->|He];
    [|now rewrite lookup_insert_ne by congruence].
  rewrite lookup_insert_eq, E1. simpl.
  rewrite lookup_delete_ne by congruence. reflexivity.
Qed.

Lemma cache_delete_allocated (cache : Cache) (domain entry key : string) :
  (cache <> None -> cache_delete cache domain entry key <> None)
  /\ (inner_allocated cache ->
      inner_allocated (cache_delete cache domain entry key)).
Proof.
  unfold cache_delete, inner_allocated, map_index, map_lookup, map_delete.
  destruct cache as [g0|]; [|tauto].
  destruct (g0 !! domain) as [[g1|]|] eqn:E0; simpl; try tauto.
  destruct (g1 !! entry) as [[g2|]|] eqn:E1; simpl; try tauto.
  split; [discriminate|]. intros [H0 H1]. split.
  - intros d. destruct (decide (d = domain)) as [->|Hd].
    + rewrite lookup_insert_eq. discriminate.
    + rewrite lookup_insert_ne by congruence. apply H0.
  - intros d e. destruct (decide (d = domain)) as [->|Hd].
    + rewrite lookup_insert_eq. simpl.
      destruct (decide (e = entry)) as [->|He].
      * rewrite lookup_insert_eq. discriminate.
      * rewrite lookup_insert_ne by congruence.
        specialize (H1 domain e). rewrite E0 in H1. exact H1.
    + rewrite lookup_insert_ne by congruence. apply H1.
Qed.

(** ** [Present] and [CleanUp] *)

Section Solver.
Variable fuel : nat.
Variable net : Net.
Variable rng : MapRange.
Variable c : customDNSProviderSolver.
Variable ch : ChallengeRequest.
Variable w : World.

(** [Present] after the credentials and the mapping: the create, then the
    cache. *)
Lemma Present_eq (cfg : customDNSProviderConfig) (entry domain key : string) :
  loadApiKeys rng c (Config ch) (ResourceNamespace ch) = (cfg, None) ->
  getDomainAndEntryAndApiKey ch cfg = (entry, domain, key, None) ->
  Present fuel net rng c ch w
  = let (o, t) := UpdateTxtRecord fuel net (NewvariomediaClient key) domain
                    entry (Key ch) variomediaMinTtl (trace w) in
    let w' := {| trace := t; DnsEntryURL := DnsEntryURL w |} in
    match o with
    | Returns (Ok url) =>
        match cache_put (DnsEntryURL w) domain entry (Key ch) url with
        | None => (Panics nil_map_panic, w')
        | Some cache => (Returns None, {| trace := t; DnsEntryURL := cache |})
        end
    | Returns (Err e) => (Returns (Some (err_change_txt e)), w')
    | Panics msg => (Panics msg, w')
    | OutOfFuel => (OutOfFuel, w')
    end.
Proof.
  intros Hkeys Hmap. unfold Present. rewrite Hkeys, Hmap.
  unfold bind, call_client.
  now destruct (UpdateTxtRecord fuel net (NewvariomediaClient key) domain entry
                  (Key ch) variomediaMinTtl (trace w)) as [[[url|e]| |] t].
Qed.

(** [CleanUp] after the credentials and the mapping: the delete of the
    cached URL, then the cache. *)
Lemma CleanUp_eq (cfg : customDNSProviderConfig) (entry domain key : string) :
  loadApiKeys rng c (Config ch) (ResourceNamespace ch) = (cfg, None) ->
  getDomainAndEntryAndApiKey ch cfg = (entry, domain, key, None) ->
  CleanUp fuel net rng c ch w
  = let (o, t) := DeleteTxtRecord fuel net (NewvariomediaClient key)
                    (cache_get (DnsEntryURL w) domain entry (Key ch))
                    variomediaMinTtl (trace w) in
    let w' := {| trace := t; DnsEntryURL := DnsEntryURL w |} in
    match o with
    | Returns None =>
        (Returns None,
         {| trace := t;
            DnsEntryURL := cache_delete (DnsEntryURL w) domain entry (Key ch) |})
    | Returns (Some e) => (Returns (Some (err_delete_txt e)), w')
    | Panics msg => (Panics msg, w')
    | OutOfFuel => (OutOfFuel, w')
    end.
Proof.
  intros Hkeys Hmap. unfold CleanUp. rewrite Hkeys, Hmap.
  unfold bind, call_client.
  now destruct (DeleteTxtRecord fuel net (NewvariomediaClient key)
                  (cache_get (DnsEntryURL w) domain entry (Key ch))
                  variomediaMinTtl (trace w)) as [[[e|]| |] t].
Qed.

(** Before the credentials are resolved and the zone is mapped, nothing
    happens. *)
Lemma Present_stops_early :
  (exists e, Present fuel net rng c ch w = (Returns (Some e), w))
  \/ exists cfg entry domain key,
       loadApiKeys rng c (Config ch) (ResourceNamespace ch) = (cfg, None)
       /\ getDomainAndEntryAndApiKey ch cfg = (entry, domain, key, None).
Proof.
  unfold Present.
  destruct (loadApiKeys rng c (Config ch) (ResourceNamespace ch))
    as [cfg [e|]] eqn:Hkeys; [left; eauto|].
  destruct (getDomainAndEntryAndApiKey ch cfg)
    as [[[entry domain] key] [e|]] eqn:Hmap; [left; eauto|].
  right. exists cfg, entry, domain, key. split; [reflexivity | exact Hmap].
Qed.

Lemma CleanUp_stops_early :
  (exists e, CleanUp fuel net rng c ch w = (Returns (Some e), w))
  \/ exists cfg entry domain key,
       loadApiKeys rng c (Config ch) (ResourceNamespace ch) = (cfg, None)
       /\ getDomainAndEntryAndApiKey ch cfg = (entry, domain, key, None).
Proof.
  unfold CleanUp.
  destruct (loadApiKeys rng c (Config ch) (ResourceNamespace ch))
    as [cfg [e|]] eqn:Hkeys; [left; eauto|].
  destruct (getDomainAndEntryAndApiKey ch cfg)
    as [[[entry domain] key] [e|]] eqn:Hmap; [left; eauto|].
  right. exists cfg, entry, domain, key. split; [reflexivity | exact Hmap].
Qed.

Lemma Present_keeps_the_cache_on_failure :
  fst (Present fuel net rng c ch w) <> Returns None ->
  DnsEntryURL (snd (Present fuel net rng c ch w)) = DnsEntryURL w.
Proof.
  destruct Present_stops_early
    as [[e ->]|(cfg & entry & domain & key & Hkeys & Hmap)]; [reflexivity|].
  rewrite (Present_eq cfg entry domain key Hkeys Hmap).
  destruct (UpdateTxtRecord fuel net (NewvariomediaClient key) domain entry
              (Key ch) variomediaMinTtl (trace w)) as [[[url|e]| |] t];
    try reflexivity.
  destruct (cache_put (DnsEntryURL w) domain entry (Key ch) url);
    [now intros []|reflexivity].
Qed.

Lemma CleanUp_keeps_the_cache_on_failure :
  fst (CleanUp fuel net rng c ch w) <> Returns None ->
  DnsEntryURL (snd (CleanUp fuel net rng c ch w)) = DnsEntryURL w.
Proof.
  destruct CleanUp_stops_early
    as [[e ->]|(cfg & entry & domain & key & Hkeys & Hmap)]; [reflexivity|].
  rewrite (CleanUp_eq cfg entry domain key Hkeys Hmap).
  destruct (DeleteTxtRecord fuel net (NewvariomediaClient key)
              (cache_get (DnsEntryURL w) domain entry (Key ch))
              variomediaMinTtl (trace w)) as [[[e|]| |] t];
    try reflexivity.
  now intros [].
Qed.

Lemma Present_allocated :
  DnsEntryURL w <> None -> inner_allocated (DnsEntryURL w) ->
  (forall msg, fst (Present fuel net rng c ch w) <> Panics msg)
  /\ DnsEntryURL (snd (Present fuel net rng c ch w)) <> None
  /\ inner_allocated (DnsEntryURL (snd (Present fuel net rng c ch w))).
Proof.
  intros Hnil Hinner.
  destruct Present_stops_early
    as [[e ->]|(cfg & entry & domain & key & Hkeys & Hmap)];
    [split; [discriminate|auto]|].
  rewrite (Present_eq cfg entry domain key Hkeys Hmap).
  destruct (UpdateTxtRecord_run net (NewvariomediaClient key) fuel domain entry
              (Key ch) variomediaMinTtl (trace w))
    as (o & evs & -> & Hpanic & _).
  destruct o as [[url|e]|msg|]; simpl; try (split; [discriminate|auto]; fail).
  - destruct (cache_put_allocated (DnsEntryURL w) domain entry (Key ch) url
                Hnil Hinner) as (cache' & -> & Hnil' & Hinner').
    simpl. split; [discriminate|auto].
  - now destruct (Hpanic msg).
Qed.

Lemma CleanUp_allocated :
  (DnsEntryURL w <> None ->
   DnsEntryURL (snd (CleanUp fuel net rng c ch w)) <> None)
  /\ (inner_allocated (DnsEntryURL w) ->
      inner_allocated (DnsEntryURL (snd (CleanUp fuel net rng c ch w)))).
Proof.
  destruct CleanUp_stops_early
    as [[e ->]|(cfg & entry & domain & key & Hkeys & Hmap)]; [auto|].
  rewrite (CleanUp_eq cfg entry domain key Hkeys Hmap).
  destruct (DeleteTxtRecord fuel net (NewvariomediaClient key)
              (cache_get (DnsEntryURL w) domain entry (Key ch))
              variomediaMinTtl (trace w)) as [[[e|]| |] t]; simpl; auto.
  apply cache_delete_allocated.
Qed.
End Solver.

(** X9. With the credentials resolved and the zone mapped, the events of
    [Present] are exactly those of a create of the TXT record (domain,
    entry, the challenge key, the minimum TTL) by a client with the API key
    of the challenge's domain, and the events of [CleanUp] exactly those of
    a delete, by such a client, of the URL cached for the challenge; every
    request of either carries the headers with that API key. *)
Theorem solver_sends_the_mutation_with_the_domain_key (fuel : nat) (net : Net)
    (rng : MapRange) (c : customDNSProviderSolver) (ch : ChallengeRequest)
    (w : World) (cfg : customDNSProviderConfig) (entry domain key : string) :
  loadApiKeys rng c (Config ch) (ResourceNamespace ch) = (cfg, None) ->
  getDomainAndEntryAndApiKey ch cfg = (entry, domain, key, None) ->
  let client := NewvariomediaClient key in
  let create := Create domain entry (Key ch) variomediaMinTtl in
  let delete := Delete (cache_get (DnsEntryURL w) domain entry (Key ch))
                  variomediaMinTtl in
  trace (snd (Present fuel net rng c ch w))
  = trace w ++ mutation_trace net client (Nat.min fuel 5) create (trace w)
  /\ trace (snd (CleanUp fuel net rng c ch w))
     = trace w ++ mutation_trace net client (Nat.min fuel 5) delete (trace w)
  /\ Forall (sent_with_headers client)
       (mutation_trace net client (Nat.min fuel 5) create (trace w))
  /\ Forall (sent_with_headers client)
       (mutation_trace net client (Nat.min fuel 5) delete (trace w)).
Proof.
  intros Hkeys Hmap client create delete.
  split; [|split; [|split; apply mutation_trace_headers]].
  - rewrite (Present_eq fuel net rng c ch w cfg entry domain key Hkeys Hmap).
    unfold create. rewrite <- UpdateTxtRecord_trace. fold client.
    destruct (UpdateTxtRecord fuel net client domain entry (Key ch)
                variomediaMinTtl (trace w)) as [[[url|e]|msg|] t];
      try reflexivity.
    now destruct (cache_put (DnsEntryURL w) domain entry (Key ch) url).
  - rewrite (CleanUp_eq fuel net rng c ch w cfg entry domain key Hkeys Hmap).
    unfold delete. rewrite <- DeleteTxtRecord_trace. fold client.
    now destruct (DeleteTxtRecord fuel net client
                    (cache_get (DnsEntryURL w) domain entry (Key ch))
                    variomediaMinTtl (trace w)) as [[[e|]|msg|] t].
Qed.

Lemma solver_sends_the_mutation_with_the_domain_key_witness :
  let ch := Fixture.challenge (Fixture.config "variomedia-credentials-01") in
  let client := NewvariomediaClient "s3cr3t" in
  let create := Create "example.com" "_acme-challenge.foo" (Key ch)
                  variomediaMinTtl in
  let delete := Delete (cache_get (DnsEntryURL Fixture.started) "example.com"
                          "_acme-challenge.foo" (Key ch))
                  variomediaMinTtl in
  trace (snd (Present 5 Fixture.live Fixture.in_order Fixture.cluster ch
                Fixture.started))
  = trace Fixture.started
    ++ mutation_trace Fixture.live client (Nat.min 5 5) create
         (trace Fixture.started)
  /\ trace (snd (CleanUp 5 Fixture.live Fixture.in_order Fixture.cluster ch
                   Fixture.started))
     = trace Fixture.started
       ++ mutation_trace Fixture.live client (Nat.min 5 5) delete
            (trace Fixture.started)
  /\ Forall (sent_with_headers client)
       (mutation_trace Fixture.live client (Nat.min 5 5) create
          (trace Fixture.started))
  /\ Forall (sent_with_headers client)
       (mutation_trace Fixture.live client (Nat.min 5 5) delete
          (trace Fixture.started)).
Proof.
  apply (solver_sends_the_mutation_with_the_domain_key 5 Fixture.live
           Fixture.in_order Fixture.cluster
           (Fixture.challenge (Fixture.config "variomedia-credentials-01"))
           Fixture.started (Some {[ "example.com" := "s3cr3t" ]})
           "_acme-challenge.foo" "example.com" "s3cr3t").
  - vm_compute. reflexivity.
  - vm_compute. reflexivity.
Defined.

(** X10. A [Present] that succeeds has stored the URL that the create
    returned under (domain, entry, key) and has changed the URL of no other
    triple. *)
Theorem Present_caches_the_record_url (fuel : nat) (net : Net)
    (rng : MapRange) (c : customDNSProviderSolver) (ch : ChallengeRequest)
    (w : World) (cfg : customDNSProviderConfig) (entry domain key : string) :
  loadApiKeys rng c (Config ch) (ResourceNamespace ch) = (cfg, None) ->
  getDomainAndEntryAndApiKey ch cfg = (entry, domain, key, None) ->
  fst (Present fuel net rng c ch w) = Returns None ->
  exists url,
    fst (UpdateTxtRecord fuel net (NewvariomediaClient key) domain entry
           (Key ch) variomediaMinTtl (trace w)) = Returns (Ok url)
    /\ forall d e k,
         cache_get (DnsEntryURL (snd (Present fuel net rng c ch w))) d e k
         = if decide ((d, e, k) = (domain, entry, Key ch)) then url
           else cache_get (DnsEntryURL w) d e k.
Proof.
  intros Hkeys Hmap.
  rewrite (Present_eq fuel net rng c ch w cfg entry domain key Hkeys Hmap).
  destruct (UpdateTxtRecord fuel net (NewvariomediaClient key) domain entry
              (Key ch) variomediaMinTtl (trace w)) as [[[url|e]| |] t];
    try discriminate.
  destruct (cache_put (DnsEntryURL w) domain entry (Key ch) url)
    as [cache'|] eqn:Hput; [|discriminate].
  intros _. exists url. split; [reflexivity|].
  exact (cache_put_get _ _ _ _ _ _ Hput).
Qed.

Lemma Present_caches_the_record_url_witness :
  let ch := Fixture.challenge (Fixture.config "variomedia-credentials-01") in
  exists url,
    fst (UpdateTxtRecord 5 Fixture.live (NewvariomediaClient "s3cr3t")
           "example.com" "_acme-challenge.foo" (Key ch) variomediaMinTtl
           (trace Fixture.started)) = Returns (Ok url)
    /\ forall d e k,
         cache_get (DnsEntryURL (snd (Present 5 Fixture.live Fixture.in_order
                                        Fixture.cluster ch Fixture.started)))
           d e k
         = if decide ((d, e, k) = ("example.com", "_acme-challenge.foo", Key ch))
           then url
           else cache_get (DnsEntryURL Fixture.started) d e k.
Proof.
  apply (Present_caches_the_record_url 5 Fixture.live Fixture.in_order
           Fixture.cluster
           (Fixture.challenge (Fixture.config "variomedia-credentials-01"))
           Fixture.started (Some {[ "example.com" := "s3cr3t" ]})
           "_acme-challenge.foo" "example.com" "s3cr3t").
  - vm_compute. reflexivity.
  - vm_compute. reflexivity.
  - vm_compute. reflexivity.
Defined.

(** X11. A [CleanUp] that succeeds leaves the empty URL for its own
    (domain, entry, key) and the URL of every other triple as it was. *)
Theorem CleanUp_forgets_only_its_entry (fuel : nat) (net : Net)
    (rng : MapRange) (c : customDNSProviderSolver) (ch : ChallengeRequest)
    (w : World) (cfg : customDNSProviderConfig) (entry domain key : string) :
  loadApiKeys rng c (Config ch) (ResourceNamespace ch) = (cfg, None) ->
  getDomainAndEntryAndApiKey ch cfg = (entry, domain, key, None) ->
  fst (CleanUp fuel net rng c ch w) = Returns None ->
  forall d e k,
    cache_get (DnsEntryURL (snd (CleanUp fuel net rng c ch w))) d e k
    = if decide ((d, e, k) = (domain, entry, Key ch)) then ""
      else cache_get (DnsEntryURL w) d e k.
Proof.
  intros Hkeys Hmap.
  rewrite (CleanUp_eq fuel net rng c ch w cfg entry domain key Hkeys Hmap).
  destruct (DeleteTxtRecord fuel net (NewvariomediaClient key)
              (cache_get (DnsEntryURL w) domain entry (Key ch))
              variomediaMinTtl (trace w)) as [[[e|]| |] t];
    try discriminate.
  intros _. apply cache_delete_get.
Qed.

Lemma CleanUp_forgets_only_its_entry_witness :
  let ch := Fixture.challenge (Fixture.config "variomedia-credentials-01") in
  let w := snd (Present 5 Fixture.live Fixture.in_order Fixture.cluster ch
                  Fixture.started) in
  fst (CleanUp 5 Fixture.live Fixture.in_order Fixture.cluster ch w)
  = Returns None
  /\ forall d e k,
       cache_get (DnsEntryURL (snd (CleanUp 5 Fixture.live Fixture.in_order
                                      Fixture.cluster ch w))) d e k
       = if decide ((d, e, k) = ("example.com", "_acme-challenge.foo", Key ch))
         then ""
         else cache_get (DnsEntryURL w) d e k.
Proof.
  split; [vm_compute; reflexivity|].
  apply (CleanUp_forgets_only_its_entry 5 Fixture.live Fixture.in_order
           Fixture.cluster
           (Fixture.challenge (Fixture.config "variomedia-credentials-01"))
           (snd (Present 5 Fixture.live Fixture.in_order Fixture.cluster
                   (Fixture.challenge
                      (Fixture.config "variomedia-credentials-01"))
                   Fixture.started))
           (Some {[ "example.com" := "s3cr3t" ]})
           "_acme-challenge.foo" "example.com" "s3cr3t").
  - vm_compute. reflexivity.
  - vm_compute. reflexivity.
  - vm_compute. reflexivity.
Defined.

(** X12. Whenever [Present] or [CleanUp] ends otherwise than with success
    (an error, a panic, a loop cut short), the cache is as it was before
    the call. *)
Theorem failure_leaves_the_cache_untouched (fuel : nat) (net : Net)
    (rng : MapRange) (c : customDNSProviderSolver) (ch : ChallengeRequest)
    (w : World) :
  (fst (Present fuel net rng c ch w) <> Returns None ->
   DnsEntryURL (snd (Present fuel net rng c ch w)) = DnsEntryURL w)
  /\ (fst (CleanUp fuel net rng c ch w) <> Returns None ->
      DnsEntryURL (snd (CleanUp fuel net rng c ch w)) = DnsEntryURL w).
Proof.
  split;
    [apply Present_keeps_the_cache_on_failure
    |apply CleanUp_keeps_the_cache_on_failure].
Qed.

Lemma failure_leaves_the_cache_untouched_witness :
  let ch := Fixture.challenge (Fixture.config "variomedia-credentials-01") in
  let refused := Fixture.scripted [] Fixture.connection_refused in
  let w := snd (Present 5 Fixture.live Fixture.in_order Fixture.cluster ch
                  Fixture.started) in
  DnsEntryURL (snd (Present 5 refused Fixture.in_order Fixture.cluster ch w))
  = DnsEntryURL w
  /\ DnsEntryURL (snd (CleanUp 5 refused Fixture.in_order Fixture.cluster ch w))
     = DnsEntryURL w.
Proof.
  intros ch refused w.
  destruct (failure_leaves_the_cache_untouched 5 refused Fixture.in_order
              Fixture.cluster ch w) as [Hpresent Hcleanup].
  split.
  - apply Hpresent. vm_compute. discriminate.
  - apply Hcleanup. vm_compute. discriminate.
Defined.

(** X13. With the cache allocated and no [nil] map stored inside it,
    [Present] does not panic, and after [Present] and after [CleanUp] the
    cache is again allocated with no [nil] map inside. *)
Theorem cache_stays_allocated (fuel : nat) (net : Net) (rng : MapRange)
    (c : customDNSProviderSolver) (ch : ChallengeRequest) (w : World) :
  DnsEntryURL w <> None -> inner_allocated (DnsEntryURL w) ->
  (forall msg, fst (Present fuel net rng c ch w) <> Panics msg)
  /\ DnsEntryURL (snd (Present fuel net rng c ch w)) <> None
  /\ inner_allocated (DnsEntryURL (snd (Present fuel net rng c ch w)))
  /\ DnsEntryURL (snd (CleanUp fuel net rng c ch w)) <> None
  /\ inner_allocated (DnsEntryURL (snd (CleanUp fuel net rng c ch w))).
Proof.
  intros Hnil Hinner.
  destruct (Present_allocated fuel net rng c ch w Hnil Hinner)
    as (Hpanic & Hnil' & Hinner').
  destruct (CleanUp_allocated fuel net rng c ch w) as [Hnil'' Hinner''].
  auto 6.
Qed.

Lemma cache_stays_allocated_witness :
  let ch := Fixture.challenge (Fixture.config "variomedia-credentials-01") in
  let present := Present 5 Fixture.live Fixture.in_order Fixture.cluster ch
                   Fixture.started in
  let cleanup := CleanUp 5 Fixture.live Fixture.in_order Fixture.cluster ch
                   Fixture.started in
  (forall msg, fst present <> Panics msg)
  /\ DnsEntryURL (snd present) <> None
  /\ inner_allocated (DnsEntryURL (snd present))
  /\ DnsEntryURL (snd cleanup) <> None
  /\ inner_allocated (DnsEntryURL (snd cleanup)).
Proof.
  apply (cache_stays_allocated 5 Fixture.live Fixture.in_order Fixture.cluster
           (Fixture.challenge (Fixture.config "variomedia-credentials-01"))
           Fixture.started).
  - discriminate.
  - split; intros; simpl; rewrite ?lookup_empty; discriminate.
Defined.

(** X14. [Initialize] that succeeds allocates the cache when it is [nil] and
    keeps it otherwise, so that a [Present] of the initialised solver does
    not panic; the URLs cached before are still there. *)
Theorem Present_after_Initialize_does_not_panic
    (NewForConfig : External (string -> string -> External Secret))
    (c c' : customDNSProviderSolver) (w : World)
    (fuel : nat) (net : Net) (rng : MapRange) (ch : ChallengeRequest) :
  fst (Initialize NewForConfig c w) = Returns (None, c') ->
  inner_allocated (DnsEntryURL w) ->
  let w' := snd (Initialize NewForConfig c w) in
  NewForConfig = Got (client c')
  /\ trace w' = trace w
  /\ (forall d e k,
        cache_get (DnsEntryURL w') d e k = cache_get (DnsEntryURL w) d e k)
  /\ forall msg, fst (Present fuel net rng c' ch w') <> Panics msg.
Proof.
  unfold Initialize. destruct NewForConfig as [cl|msg]; [|discriminate].
  simpl. intros Hc Hinner. injection Hc as <-.
  split; [reflexivity|]. split; [reflexivity|].
  split; [now destruct (DnsEntryURL w)|].
  apply Present_allocated; simpl.
  - now destruct (DnsEntryURL w).
  - destruct (DnsEntryURL w) as [g|]; [exact Hinner|].
    split; intros; simpl; rewrite ?lookup_empty; discriminate.
Qed.

Lemma Present_after_Initialize_does_not_panic_witness :
  let ch := Fixture.challenge (Fixture.config "variomedia-credentials-01") in
  let unallocated := {| trace := []; DnsEntryURL := None |} in
  let w' := snd (Initialize (Got (client Fixture.cluster))
                   {| client := fun _ _ => Failed "no client" |} unallocated) in
  Got (client Fixture.cluster) = Got (client Fixture.cluster)
  /\ trace w' = trace unallocated
  /\ (forall d e k,
        cache_get (DnsEntryURL w') d e k = cache_get (DnsEntryURL unallocated) d e k)
  /\ forall msg,
       fst (Present 5 Fixture.live Fixture.in_order Fixture.cluster ch w')
       <> Panics msg.
Proof.
  apply (Present_after_Initialize_does_not_panic
           (Got (client Fixture.cluster))
           {| client := fun _ _ => Failed "no client" |} Fixture.cluster
           {| trace := []; DnsEntryURL := None |}
           5 Fixture.live Fixture.in_order
           (Fixture.challenge (Fixture.config "variomedia-credentials-01"))).
  - reflexivity.
  - split; intros; simpl; discriminate.
Defined.

(** X15. On a [nil] cache (the zero value of the global, which [main] and
    [Initialize] replace) a [Present] whose create succeeds panics at the
    cache update, after the record has been created at the provider: the
    events of the create are in the trace. *)
Theorem Present_on_a_nil_cache_panics (fuel : nat) (net : Net)
    (rng : MapRange) (c : customDNSProviderSolver) (ch : ChallengeRequest)
    (w : World) (cfg : customDNSProviderConfig) (entry domain key url : string) :
  DnsEntryURL w = None ->
  loadApiKeys rng c (Config ch) (ResourceNamespace ch) = (cfg, None) ->
  getDomainAndEntryAndApiKey ch cfg = (entry, domain, key, None) ->
  fst (UpdateTxtRecord fuel net (NewvariomediaClient key) domain entry
         (Key ch) variomediaMinTtl (trace w)) = Returns (Ok url) ->
  fst (Present fuel net rng c ch w) = Panics nil_map_panic
  /\ trace (snd (Present fuel net rng c ch w))
     = snd (UpdateTxtRecord fuel net (NewvariomediaClient key) domain entry
              (Key ch) variomediaMinTtl (trace w))
  /\ DnsEntryURL (snd (Present fuel net rng c ch w)) = None.
Proof.
  intros Hnil Hkeys Hmap.
  rewrite (Present_eq fuel net rng c ch w cfg entry domain key Hkeys Hmap).
  destruct (UpdateTxtRecord fuel net (NewvariomediaClient key) domain entry
              (Key ch) variomediaMinTtl (trace w)) as [o t].
  simpl. intros ->. rewrite Hnil. simpl. auto.
Qed.

Lemma Present_on_a_nil_cache_panics_witness :
  let ch := Fixture.challenge (Fixture.config "variomedia-credentials-01") in
  let unallocated := {| trace := []; DnsEntryURL := None |} in
  let present := Present 5 Fixture.live Fixture.in_order Fixture.cluster ch
                   unallocated in
  fst present = Panics nil_map_panic
  /\ trace (snd present)
     = snd (UpdateTxtRecord 5 Fixture.live (NewvariomediaClient "s3cr3t")
              "example.com" "_acme-challenge.foo" (Key ch) variomediaMinTtl
              (trace unallocated))
  /\ DnsEntryURL (snd present) = None.
Proof.
  apply (Present_on_a_nil_cache_panics 5 Fixture.live Fixture.in_order
           Fixture.cluster
           (Fixture.challenge (Fixture.config "variomedia-credentials-01"))
           {| trace := []; DnsEntryURL := None |}
           (Some {[ "example.com" := "s3cr3t" ]})
           "_acme-challenge.foo" "example.com" "s3cr3t"
           "https://api.variomedia.de/dns-records/815").
  - reflexivity.
  - vm_compute. reflexivity.
  - vm_compute. reflexivity.
  - vm_compute. reflexivity.
Defined.

(** X16. After a [Present] that succeeds, the [CleanUp] of the same
    challenge addresses its delete to the URL that the create returned: its
    events are exactly those of a delete of that URL, so that, unless
    [http.NewRequest] refuses the URL, its first event is the DELETE request
    to that URL with the provider's answer. *)
Theorem CleanUp_deletes_what_Present_created (fuel : nat) (net : Net)
    (rng : MapRange) (c : customDNSProviderSolver) (ch : ChallengeRequest)
    (w : World) (cfg : customDNSProviderConfig) (entry domain key : string) :
  loadApiKeys rng c (Config ch) (ResourceNamespace ch) = (cfg, None) ->
  getDomainAndEntryAndApiKey ch cfg = (entry, domain, key, None) ->
  fst (Present fuel net rng c ch w) = Returns None ->
  let w1 := snd (Present fuel net rng c ch w) in
  let client := NewvariomediaClient key in
  exists url,
    fst (UpdateTxtRecord fuel net client domain entry (Key ch)
           variomediaMinTtl (trace w)) = Returns (Ok url)
    /\ trace (snd (CleanUp fuel net rng c ch w1))
       = trace w1
         ++ mutation_trace net client (Nat.min fuel 5)
              (Delete url variomediaMinTtl) (trace w1)
    /\ (NewRequest_err net "DELETE" url = None ->
        exists rest,
          trace (snd (CleanUp fuel net rng c ch w1))
          = trace w1
            ++ EvHTTP (delete_request client url)
                 (Do net (trace w1) (delete_request client url))
            :: rest).
Proof.
  intros Hkeys Hmap Hok w1 client.
  assert (exists url,
            fst (UpdateTxtRecord fuel net client domain entry (Key ch)
                   variomediaMinTtl (trace w)) = Returns (Ok url)
            /\ cache_get (DnsEntryURL w1) domain entry (Key ch) = url)
    as (url & Hurl & Hget).
  { subst w1 client. revert Hok.
    rewrite (Present_eq fuel net rng c ch w cfg entry domain key Hkeys Hmap).
    destruct (UpdateTxtRecord fuel net (NewvariomediaClient key) domain entry
                (Key ch) variomediaMinTtl (trace w)) as [[[url|e]| |] t];
      try discriminate.
    destruct (cache_put (DnsEntryURL w) domain entry (Key ch) url)
      as [cache'|] eqn:Hput; [|discriminate].
    intros _. exists url. split; [reflexivity|]. simpl.
    rewrite (cache_put_get _ _ _ _ _ _ Hput).
    destruct (decide (_ = _)) as [_|Hne]; [reflexivity | now destruct Hne]. }
  exists url. split; [exact Hurl|].
  assert (Htrace : trace (snd (CleanUp fuel net rng c ch w1))
                   = trace w1
                     ++ mutation_trace net client (Nat.min fuel 5)
                          (Delete url variomediaMinTtl) (trace w1)).
  { rewrite (CleanUp_eq fuel net rng c ch w1 cfg entry domain key Hkeys Hmap).
    rewrite Hget, <- DeleteTxtRecord_trace. fold client.
    now destruct (DeleteTxtRecord fuel net client url variomediaMinTtl
                    (trace w1)) as [[[e|]|msg|] t]. }
  split; [exact Htrace|].
  intros Haccept. rewrite Htrace. unfold mutation_trace. simpl.
  rewrite Haccept. eauto.
Qed.

Lemma CleanUp_deletes_what_Present_created_witness :
  let ch := Fixture.challenge (Fixture.config "variomedia-credentials-01") in
  let w1 := snd (Present 5 Fixture.live Fixture.in_order Fixture.cluster ch
                   Fixture.started) in
  let client := NewvariomediaClient "s3cr3t" in
  exists url,
    fst (UpdateTxtRecord 5 Fixture.live client "example.com"
           "_acme-challenge.foo" (Key ch) variomediaMinTtl
           (trace Fixture.started)) = Returns (Ok url)
    /\ trace (snd (CleanUp 5 Fixture.live Fixture.in_order Fixture.cluster ch
                     w1))
       = trace w1
         ++ mutation_trace Fixture.live client (Nat.min 5 5)
              (Delete url variomediaMinTtl) (trace w1)
    /\ (NewRequest_err Fixture.live "DELETE" url = None ->
        exists rest,
          trace (snd (CleanUp 5 Fixture.live Fixture.in_order Fixture.cluster
                        ch w1))
          = trace w1
            ++ EvHTTP (delete_request client url)
                 (Do Fixture.live (trace w1) (delete_request client url))
            :: rest).
Proof.
  apply (CleanUp_deletes_what_Present_created 5 Fixture.live Fixture.in_order
           Fixture.cluster
           (Fixture.challenge (Fixture.config "variomedia-credentials-01"))
           Fixture.started (Some {[ "example.com" := "s3cr3t" ]})
           "_acme-challenge.foo" "example.com" "s3cr3t").
  - vm_compute. reflexivity.
  - vm_compute. reflexivity.
  - vm_compute. reflexivity.
Defined.

(** X17. One secret of the configuration that does not resolve, be it the
    secret of a domain other than the challenge's, stops [Present] and
    [CleanUp] with the resolution error before anything is sent: the trace
    and the cache are as before. *)
Theorem unresolved_secret_stops_the_solver (fuel : nat) (net : Net)
    (rng : MapRange) (c : customDNSProviderSolver) (ch : ChallengeRequest)
    (w : World) (m : gmap string string) (domain secretName : string) :
  Config ch = Some (RawObject m) ->
  m !! domain = Some secretName ->
  unresolved c (ResourceNamespace ch) secretName ->
  exists e,
    resolution_error (ResourceNamespace ch) e
    /\ Present fuel net rng c ch w = (Returns (Some e), w)
    /\ CleanUp fuel net rng c ch w = (Returns (Some e), w).
Proof.
  intros Hcfg Hm Hbad.
  destruct (loadApiKeys_range_fails c (ResourceNamespace ch) domain secretName
              (range_keys rng m) m (range_keys_elem rng m domain secretName Hm)
              Hm Hbad) as (e & Hrange & He).
  exists e. split; [exact He|].
  unfold Present, CleanUp, loadApiKeys, loadConfig, unmarshal_config,
    unmarshal_map, make_map.
  rewrite Hcfg. simpl. rewrite (right_id_L ∅ (∪) m), Hrange.
  split; reflexivity.
Qed.

Lemma unresolved_secret_stops_the_solver_witness :
  let ch := Fixture.challenge
              (Some (RawObject {[ "example.com" := "variomedia-credentials-01";
                                  "example.org" := "variomedia-credentials-02" ]}))
  in
  exists e,
    resolution_error (ResourceNamespace ch) e
    /\ Present 5 Fixture.live Fixture.in_order Fixture.cluster ch
         Fixture.started = (Returns (Some e), Fixture.started)
    /\ CleanUp 5 Fixture.live Fixture.in_order Fixture.cluster ch
         Fixture.started = (Returns (Some e), Fixture.started).
Proof.
  apply (unresolved_secret_stops_the_solver 5 Fixture.live Fixture.in_order
           Fixture.cluster
           (Fixture.challenge
              (Some (RawObject {[ "example.com" := "variomedia-credentials-01";
                                  "example.org" := "variomedia-credentials-02" ]})))
           Fixture.started
           {[ "example.com" := "variomedia-credentials-01";
              "example.org" := "variomedia-credentials-02" ]}
           "example.org" "variomedia-credentials-02").
  - reflexivity.
  - vm_compute. reflexivity.
  - intros sec Hsec. discriminate Hsec.
Defined.

(** X18. A configuration that [json.Unmarshal] rejects stops [Present] and
    [CleanUp] with "error decoding solver config" around the decoder's
    error: no secret is needed, nothing is sent, the cache is as before. *)
Theorem undecodable_config_stops_the_solver (fuel : nat) (net : Net)
    (rng : MapRange) (c : customDNSProviderSolver) (ch : ChallengeRequest)
    (w : World) (partial : customDNSProviderConfig) (msg : string) :
  Config ch = Some (RawInvalid partial msg) ->
  Present fuel net rng c ch w
  = (Returns (Some (err_decode_config (err_external msg))), w)
  /\ CleanUp fuel net rng c ch w
     = (Returns (Some (err_decode_config (err_external msg))), w).
Proof.
  intros Hcfg. unfold Present, CleanUp, loadApiKeys, loadConfig.
  rewrite Hcfg. destruct partial; split; reflexivity.
Qed.

Lemma undecodable_config_stops_the_solver_witness :
  let ch := Fixture.challenge (Some (RawInvalid make_map "unexpected token")) in
  Present 5 Fixture.live Fixture.in_order Fixture.cluster ch Fixture.started
  = (Returns (Some (err_decode_config (err_external "unexpected token"))),
     Fixture.started)
  /\ CleanUp 5 Fixture.live Fixture.in_order Fixture.cluster ch Fixture.started
     = (Returns (Some (err_decode_config (err_external "unexpected token"))),
        Fixture.started).
Proof.
  apply (undecodable_config_stops_the_solver 5 Fixture.live Fixture.in_order
           Fixture.cluster
           (Fixture.challenge (Some (RawInvalid make_map "unexpected token")))
           Fixture.started make_map "unexpected token").
  reflexivity.
Defined.

(** X19. [main] panics when [GroupName] is empty; otherwise, when it hands
    over to the webhook server, the cache is allocated and empty, nothing
    has been sent, and a [Present] from there does not panic. *)
Theorem Present_after_main_does_not_panic (GroupName : string) (w : World)
    (fuel : nat) (net : Net) (rng : MapRange) (c : customDNSProviderSolver)
    (ch : ChallengeRequest) :
  match main_before_server GroupName w with
  | (Returns _, w') =>
      GroupName <> ""
      /\ trace w' = trace w
      /\ (forall d e k, cache_get (DnsEntryURL w') d e k = "")
      /\ forall msg, fst (Present fuel net rng c ch w') <> Panics msg
  | (Panics _, w') => GroupName = "" /\ w' = w
  | (OutOfFuel, _) => False
  end.
Proof.
  unfold main_before_server.
  destruct (String.eqb GroupName "") eqn:E.
  - apply String.eqb_eq in E. auto.
  - apply String.eqb_neq in E.
    split; [exact E|]. split; [reflexivity|]. split; [reflexivity|].
    apply Present_allocated; simpl; [discriminate|].
    split; intros; simpl; rewrite ?lookup_empty; discriminate.
Qed.

(** ** Calls in turn and interleaved cache updates *)

(** The statements of one cache update, run without another goroutine in
    between, do what [cache_put] does. *)
Lemma statements_in_a_row_are_cache_put (cache : Cache) (u : CacheUpdate) :
  run_schedule [0; 0; 0; 0; 0]%nat
    {| shared_cache := cache; goroutines := [(u, AtDomainCheck)] |}
  = match cache_put cache (u_domain u) (u_entry u) (u_key u) (u_url u) with
    | Some cache' =>
        {| shared_cache := cache'; goroutines := [(u, Finished)] |}
    | None => {| shared_cache := cache; goroutines := [(u, Panicked)] |}
    end.
Proof.
  destruct u as [domain entry key url].
  destruct cache as [g0|]; [|reflexivity].
  rewrite cache_put_eq.
  unfold run_schedule, run_statement, step, comma_ok, map_assign, map_index,
    map_lookup, make_map. simpl.
  destruct (g0 !! domain) as [[g1|]|] eqn:E0;
    [destruct (g1 !! entry) as [[g2|]|] eqn:E1|..];
    repeat (progress (simpl;
                      rewrite ?lookup_insert_eq, ?lookup_empty, ?E0, ?E1));
    rewrite ?insert_insert_eq, ?insert_empty; reflexivity.
Qed.

Section InTurn.
Variable fuel : nat.
Variable net : Net.
Variable rng : MapRange.
Variable c : customDNSProviderSolver.

Lemma challenge_triple_eq (ch : ChallengeRequest)
    (cfg : customDNSProviderConfig) (entry domain key : string) :
  getDomainAndEntryAndApiKey ch cfg = (entry, domain, key, None) ->
  challenge_triple ch = (domain, entry, Key ch).
Proof.
  unfold challenge_triple, getDomainAndEntryAndApiKey. simpl.
  destruct (map_lookup cfg _); intros H; now simplify_eq.
Qed.

(** A call changes the URL of no triple but its challenge's. *)
Lemma run_call_frame (op : SolverCall) (ch : ChallengeRequest) (w : World)
    (d e k : string) :
  (d, e, k) <> challenge_triple ch ->
  cache_get (DnsEntryURL (snd (run_call fuel net rng c op ch w))) d e k
  = cache_get (DnsEntryURL w) d e k.
Proof.
  intros Hne. destruct op; unfold run_call.
  - destruct (Present_stops_early fuel net rng c ch w)
      as [[err ->]|(cfg & entry & domain & key & Hkeys & Hmap)];
      [reflexivity|].
    rewrite (challenge_triple_eq ch cfg entry domain key Hmap) in Hne.
    rewrite (Present_eq fuel net rng c ch w cfg entry domain key Hkeys Hmap).
    destruct (UpdateTxtRecord fuel net (NewvariomediaClient key) domain entry
                (Key ch) variomediaMinTtl (trace w)) as [[[url|err]| |] t];
      try reflexivity.
    destruct (cache_put (DnsEntryURL w) domain entry (Key ch) url)
      as [cache'|] eqn:Hput; [|reflexivity].
    simpl. rewrite (cache_put_get _ _ _ _ _ _ Hput).
    destruct (decide (_ = _)) as [Heq|_]; [now destruct Hne | reflexivity].
  - destruct (CleanUp_stops_early fuel net rng c ch w)
      as [[err ->]|(cfg & entry & domain & key & Hkeys & Hmap)];
      [reflexivity|].
    rewrite (challenge_triple_eq ch cfg entry domain key Hmap) in Hne.
    rewrite (CleanUp_eq fuel net rng c ch w cfg entry domain key Hkeys Hmap).
    destruct (DeleteTxtRecord fuel net (NewvariomediaClient key)
                (cache_get (DnsEntryURL w) domain entry (Key ch))
                variomediaMinTtl (trace w)) as [[[err|]| |] t];
      try reflexivity.
    simpl. rewrite cache_delete_get.
    destruct (decide (_ = _)) as [Heq|_]; [now destruct Hne | reflexivity].
Qed.

Lemma run_call_allocated (op : SolverCall) (ch : ChallengeRequest) (w : World) :
  DnsEntryURL w <> None -> inner_allocated (DnsEntryURL w) ->
  (forall msg, fst (run_call fuel net rng c op ch w) <> Panics msg)
  /\ DnsEntryURL (snd (run_call fuel net rng c op ch w)) <> None
  /\ inner_allocated (DnsEntryURL (snd (run_call fuel net rng c op ch w))).
Proof.
  intros Hnil Hinner. destruct op; unfold run_call.
  - now apply Present_allocated.
  - split; [intros msg; apply CleanUp_never_panics|].
    destruct (CleanUp_allocated fuel net rng c ch w) as [H1 H2]. auto.
Qed.
End InTurn.

(** C8, as the code has it. The cache is a plain global map with no lock.
    Two calls, each a [Present] or a [CleanUp], for distinct challenges
    that run one after the other on an allocated cache do not corrupt it:
    neither panics, the second leaves the URL of the first's challenge as
    the first left it, and the URL of every triple that belongs to neither
    challenge is as before the two calls. *)
Theorem calls_in_turn_keep_the_cache (fuel : nat) (net : Net) (rng : MapRange)
    (c : customDNSProviderSolver) (op1 op2 : SolverCall)
    (ch1 ch2 : ChallengeRequest) (w : World) :
  DnsEntryURL w <> None -> inner_allocated (DnsEntryURL w) ->
  challenge_triple ch1 <> challenge_triple ch2 ->
  let r1 := run_call fuel net rng c op1 ch1 w in
  let r2 := run_call fuel net rng c op2 ch2 (snd r1) in
  (forall msg, fst r1 <> Panics msg)
  /\ (forall msg, fst r2 <> Panics msg)
  /\ (forall d e k,
        (d, e, k) = challenge_triple ch1 ->
        cache_get (DnsEntryURL (snd r2)) d e k
        = cache_get (DnsEntryURL (snd r1)) d e k)
  /\ (forall d e k,
        (d, e, k) <> challenge_triple ch1 ->
        (d, e, k) <> challenge_triple ch2 ->
        cache_get (DnsEntryURL (snd r2)) d e k = cache_get (DnsEntryURL w) d e k).
Proof.
  intros Hnil Hinner Hdistinct r1 r2. subst r1 r2.
  destruct (run_call_allocated fuel net rng c op1 ch1 w Hnil Hinner)
    as (Hpanic1 & Hnil1 & Hinner1).
  destruct (run_call_allocated fuel net rng c op2 ch2 _ Hnil1 Hinner1)
    as (Hpanic2 & _ & _).
  split; [exact Hpanic1|]. split; [exact Hpanic2|]. split.
  - intros d e k Hown. apply run_call_frame. congruence.
  - intros d e k H1 H2. rewrite run_call_frame by exact H2.
    now apply run_call_frame.
Qed.

Lemma calls_in_turn_keep_the_cache_witness :
  let ch1 := Fixture.challenge (Fixture.config "variomedia-credentials-01") in
  let ch2 :=
    {| ResolvedFQDN := "_acme-challenge.bar.example.com.";
       ResolvedZone := "example.com.";
       Key := "other-token";
       Config := Fixture.config "variomedia-credentials-01";
       ResourceNamespace := "cert-manager" |} in
  let r1 := run_call 5 Fixture.live Fixture.in_order Fixture.cluster
              CallPresent ch1 Fixture.started in
  let r2 := run_call 5 Fixture.live Fixture.in_order Fixture.cluster
              CallPresent ch2 (snd r1) in
  cache_get (DnsEntryURL (snd r2)) "example.com" "_acme-challenge.foo"
    "token-value"
  = cache_get (DnsEntryURL (snd r1)) "example.com" "_acme-challenge.foo"
      "token-value"
  /\ cache_get (DnsEntryURL (snd r2)) "example.com" "_acme-challenge.foo"
       "token-value" = "https://api.variomedia.de/dns-records/815"
  /\ cache_get (DnsEntryURL (snd r2)) "example.com" "_acme-challenge.bar"
       "other-token" = "https://api.variomedia.de/dns-records/815".
Proof.
  intros ch1 ch2 r1 r2.
  destruct (calls_in_turn_keep_the_cache 5 Fixture.live Fixture.in_order
              Fixture.cluster CallPresent CallPresent ch1 ch2 Fixture.started)
    as (_ & _ & Hfirst & _).
  - discriminate.
  - split; intros; simpl; rewrite ?lookup_empty; discriminate.
  - vm_compute. discriminate.
  - split; [apply Hfirst; reflexivity|].
    split; vm_compute; reflexivity.
Defined.

(** C8 as stated fails. Two [Present]s for distinct challenges of a domain
    that is not yet in the cache reach their cache updates together. When
    both have found the domain missing before either creates its map, the
    map that the second one assigns replaces the map of the first: with the
    first one finished in between, both calls end normally and the URL of
    the first is gone; with the first one still before its last statement,
    that statement panics on the [nil] map. Run in turn, the same two
    updates keep both URLs. *)
Lemma interleaved_Presents_corrupt_the_cache :
  let a := {| u_domain := "example.com"; u_entry := "_acme-challenge.foo";
              u_key := "token-value";
              u_url := "https://api.variomedia.de/dns-records/815" |} in
  let b := {| u_domain := "example.com"; u_entry := "_acme-challenge.bar";
              u_key := "other-token";
              u_url := "https://api.variomedia.de/dns-records/816" |} in
  let start := two_updates make_map a b in
  let lost := run_schedule [0; 1; 0; 0; 0; 0; 1; 1; 1; 1]%nat start in
  let broken := run_schedule [0; 1; 0; 0; 0; 1; 0]%nat start in
  let in_turn := run_schedule [0; 0; 0; 0; 0; 1; 1; 1; 1; 1]%nat start in
  (goroutines lost = [(a, Finished); (b, Finished)]
   /\ cache_get (shared_cache lost) "example.com" "_acme-challenge.foo"
        "token-value" = ""
   /\ cache_get (shared_cache lost) "example.com" "_acme-challenge.bar"
        "other-token" = "https://api.variomedia.de/dns-records/816")
  /\ goroutines broken !! 0%nat = Some (a, Panicked)
  /\ (goroutines in_turn = [(a, Finished); (b, Finished)]
      /\ cache_get (shared_cache in_turn) "example.com" "_acme-challenge.foo"
           "token-value" = "https://api.variomedia.de/dns-records/815"
      /\ cache_get (shared_cache in_turn) "example.com" "_acme-challenge.bar"
           "other-token" = "https://api.variomedia.de/dns-records/816").
Proof. vm_compute. repeat split; reflexivity. Qed.
